(** * The opcode executors of pysmali, embedded in Rocq

    A shallow embedding of [smali/bridge/executor.py] and
    [smali/bridge/objects.py]: the [Executor] class, the opcode registry
    [__executors__] and every opcode handler of the module, together with
    the properties of the executors that the specification states.

    Python objects that are shared and mutated (frames, lists, instances,
    field cells, the executor instances themselves) live in a store and are
    named by a reference; a handler is a function in a state-and-exception
    monad over that store. *)

From Stdlib Require Import ZArith String List Lia.
From Stdlib Require Import Floats.SpecFloat.
From stdpp Require Import base gmap strings list.

Set Warnings "-register-all".

Local Open Scope string_scope.
Local Open Scope Z_scope.

(** ** Values *)

(** The identity of a Python object that lives in a store. *)
Definition ref := nat.

(** Modelled from the spec: a class of [smali.bridge.lang], which is not part
    of the sources.  The handlers read two attributes of a class, [name] and
    [super_cls]; its methods and fields are looked up through the host. *)
Record SmaliClass := mkSmaliClass {
  name : string;
  super_cls : string
}.

(** What a register, a field or a list slot holds.  Integers are Python's
    unbounded [int]; a list and an instance are held by reference. *)
Inductive Value : Type :=
| VNone
| VInt (z : Z)
| VBool (b : bool)
| VFloat (f : spec_float)
| VStr (s : string)
| VList (r : ref)
| VObject (r : ref)
| VClass (c : SmaliClass)
| VError (kind : string) (args : list Value).

(** [ExecutionError(kind, ...)] of [smali.bridge.errors]; where the source
    formats a message, [args] keeps the values it formats into it, in order.
    [HostError] is an exception of the Python runtime itself.
    [RegisterFault] is what the frame raises when a register that is not
    set is read: the frame is not part of the sources, and neither the class
    nor the message of its fault is modelled. *)
Inductive Exception : Type :=
| ExecutionError (kind : string) (args : list Value)
| HostError (exn : string)
| RegisterFault.

(** The operands of an instruction: a register name, literal, label or
    descriptor, or (for [invoke]) the list of argument registers. *)
Inductive Operand : Type :=
| Str (s : string)
| Regs (l : list string).

(** An entry of [frame.switch_data]: the pair [(switch_value, cases)] of a
    packed switch, or the ordered mapping of a sparse switch. *)
Inductive SwitchTable : Type :=
| PackedTable (switch_value : string) (cases : list string)
| SparseTable (branches : list (string * string)).

(** ** Frames and the store *)

(** Modelled from the spec: the frame of [smali.bridge.frame], which is not
    part of the sources, with the attributes the handlers use. *)
Record Frame := mkFrame {
  registers : gmap string Value;
  labels : gmap string Z;
  label : option string;
  pos : Z;
  switch_data : gmap string SwitchTable;
  array_data : gmap string Value;
  return_value : Value;
  method_return : Value;
  error : Value;
  finished : bool;
  vm : ref
}.

Definition set_registers (x : gmap string Value) (f : Frame) : Frame :=
  mkFrame x (labels f) (label f) (pos f) (switch_data f) (array_data f)
          (return_value f) (method_return f) (error f) (finished f) (vm f).
Definition set_label (x : option string) (f : Frame) : Frame :=
  mkFrame (registers f) (labels f) x (pos f) (switch_data f) (array_data f)
          (return_value f) (method_return f) (error f) (finished f) (vm f).
Definition set_pos (x : Z) (f : Frame) : Frame :=
  mkFrame (registers f) (labels f) (label f) x (switch_data f) (array_data f)
          (return_value f) (method_return f) (error f) (finished f) (vm f).
Definition set_return_value (x : Value) (f : Frame) : Frame :=
  mkFrame (registers f) (labels f) (label f) (pos f) (switch_data f)
          (array_data f) x (method_return f) (error f) (finished f) (vm f).
Definition set_method_return (x : Value) (f : Frame) : Frame :=
  mkFrame (registers f) (labels f) (label f) (pos f) (switch_data f)
          (array_data f) (return_value f) x (error f) (finished f) (vm f).
Definition set_error (x : Value) (f : Frame) : Frame :=
  mkFrame (registers f) (labels f) (label f) (pos f) (switch_data f)
          (array_data f) (return_value f) (method_return f) x (finished f)
          (vm f).
Definition set_finished (x : bool) (f : Frame) : Frame :=
  mkFrame (registers f) (labels f) (label f) (pos f) (switch_data f)
          (array_data f) (return_value f) (method_return f) (error f) x
          (vm f).

(** Modelled from the spec: an instance of [smali.bridge.lang.SmaliObject],
    with the back-reference to its class that [invoke] reads. *)
Record SmaliObject := mkSmaliObject {
  smali_class : SmaliClass;
  fields : gmap string Value
}.

(** An executor instance is named by its canonical opcode. *)
Definition Self := string.

(** The store.  [handler_frame] and [handler_args] are the attributes
    [frame] and [args] of the executor instances: an instance that is absent
    from the map still has the class default [None]. *)
Record World := mkWorld {
  frames : gmap ref Frame;
  lists : gmap ref (list Value);
  objects : gmap ref SmaliObject;
  cells : gmap ref Value;
  handler_frame : gmap Self ref;
  handler_args : gmap Self (list Operand)
}.

Definition set_frames (x : gmap ref Frame) (w : World) : World :=
  mkWorld x (lists w) (objects w) (cells w) (handler_frame w) (handler_args w).
Definition set_lists (x : gmap ref (list Value)) (w : World) : World :=
  mkWorld (frames w) x (objects w) (cells w) (handler_frame w) (handler_args w).
Definition set_objects (x : gmap ref SmaliObject) (w : World) : World :=
  mkWorld (frames w) (lists w) x (cells w) (handler_frame w) (handler_args w).
Definition set_cells (x : gmap ref Value) (w : World) : World :=
  mkWorld (frames w) (lists w) (objects w) x (handler_frame w) (handler_args w).
Definition set_handler_frame (x : gmap Self ref) (w : World) : World :=
  mkWorld (frames w) (lists w) (objects w) (cells w) x (handler_args w).
Definition set_handler_args (x : gmap Self (list Operand)) (w : World) : World :=
  mkWorld (frames w) (lists w) (objects w) (cells w) (handler_frame w) x.

(** The store with frame [r] replaced, and with list [r] replaced. *)
Definition put_frame (r : ref) (f : Frame) (w : World) : World :=
  set_frames (<[r := f]> (frames w)) w.

Definition put_list (r : ref) (l : list Value) (w : World) : World :=
  set_lists (<[r := l]> (lists w)) w.

(** ** The monad of handlers *)

(** A statement ends normally with a result or raises; either way it leaves
    a store behind: what was written before a failing statement stays
    written. *)
Inductive Outcome (A : Type) : Type :=
| Ok (a : A) (w : World)
| Raise (e : Exception) (w : World).
Arguments Ok {A} a w.
Arguments Raise {A} e w.

Definition M (A : Type) : Type := World -> Outcome A.

Definition ret {A} (a : A) : M A := fun w => Ok a w.
Definition raise {A} (e : Exception) : M A := fun w => Raise e w.
Definition bind {A B} (m : M A) (k : A -> M B) : M B :=
  fun w => match m w with
           | Ok a w' => k a w'
           | Raise e w' => Raise e w'
           end.

Notation "'let*' x ':=' m 'in' k" := (bind m (fun x => k))
  (at level 10, x name, m at level 100, k at level 200).
Notation "m ';;' k" := (bind m (fun _ => k))
  (at level 100, k at level 200, right associativity).

Definition world_of {A} (o : Outcome A) : World :=
  match o with Ok _ w => w | Raise _ w => w end.

Definition map_world {A} (t : World -> World) (o : Outcome A) : Outcome A :=
  match o with Ok a w => Ok a (t w) | Raise e w => Raise e (t w) end.

Fixpoint mapM {A B} (f : A -> M B) (l : list A) : M (list B) :=
  match l with
  | [] => ret []
  | x :: l' => let* y := f x in let* ys := mapM f l' in ret (y :: ys)
  end.

(** ** Strings of the host language *)

(** [needle in hay] on two Python strings: the substring test. *)
Fixpoint str_in (needle hay : string) : bool :=
  String.prefix needle hay
  || match hay with
     | EmptyString => false
     | String _ hay' => str_in needle hay'
     end.

(** [s.replace(old, new)] for a non-empty [old]: the occurrences are taken
    from the left and do not overlap.  [skip] counts the characters of an
    occurrence that are still to be dropped. *)
Fixpoint replace_from (old new : string) (skip : nat) (s : string) : string :=
  match s with
  | EmptyString => EmptyString
  | String c s' =>
      match skip with
      | S n => replace_from old new n s'
      | O =>
          if String.prefix old s
          then new +:+ replace_from old new (Nat.pred (String.length old)) s'
          else String c (replace_from old new O s')
      end
  end.

Definition replace (old new s : string) : string := replace_from old new 0 s.

(** [s.split(sep)] for a non-empty [sep]; [cur] is the piece being read, in
    reverse. *)
Fixpoint split_from (sep : string) (skip : nat) (cur : string) (s : string)
  : list string :=
  match s with
  | EmptyString => [String.rev cur]
  | String c s' =>
      match skip with
      | S n => split_from sep n cur s'
      | O =>
          if String.prefix sep s
          then String.rev cur
               :: split_from sep (Nat.pred (String.length sep)) EmptyString s'
          else split_from sep O (String c cur) s'
      end
  end.

Definition split (sep s : string) : list string :=
  split_from sep 0 EmptyString s.

(** ** Operators of the host language *)

Inductive BinOp : Type :=
| Add | Sub | Mul | FloorDiv | TrueDiv | Mod
| BitAnd | BitOr | BitXor | LShift | RShift.

Inductive CmpOp : Type :=
| CmpLt | CmpLe | CmpGt | CmpGe | CmpEq | CmpNe.

(** A Python [bool] is an [int]. *)
Definition as_int (v : Value) : option Z :=
  match v with
  | VInt z => Some z
  | VBool b => Some (if b then 1 else 0)
  | _ => None
  end.

Definition int_compare (op : CmpOp) (x y : Z) : bool :=
  match op with
  | CmpLt => x <? y
  | CmpLe => x <=? y
  | CmpGt => x >? y
  | CmpGe => x >=? y
  | CmpEq => x =? y
  | CmpNe => negb (x =? y)
  end.

(** The position that a Python list of length [len] gives to index [n]. *)
Definition list_index (n : Z) (len : nat) : option nat :=
  if 0 <=? n then
    if n <? Z.of_nat len then Some (Z.to_nat n) else None
  else
    if - Z.of_nat len <=? n then Some (Z.to_nat (Z.of_nat len + n)) else None.

(** ** The collaborators *)

(** What the handlers use and the sources do not contain: the mnemonic
    constants of [smali.opcode] ([smali_opcode n] is the string that the
    name [n] is bound to by [from smali.opcode import *]), the literal and
    descriptor parsers of [smali], the virtual machine behind [frame.vm], the
    classes and instances of [smali.bridge.lang], and the operations of the
    host language on operands other than integers and lists.  Each operation
    may read and change the store, and each may raise. *)
Class Host := {
  smali_opcode : string -> string;
  SmaliValue : string -> M Value;
  Type_class_name : string -> M string;
  vm_get_class : ref -> string -> M SmaliClass;
  vm_call : ref -> ref -> Value -> list Value -> M Value;
  SmaliClass_method : SmaliClass -> string -> M ref;
  SmaliClass_field : SmaliClass -> string -> M ref;
  SmaliObject_init : ref -> M unit;
  SmaliObject__getitem__ : ref -> string -> M Value;
  SmaliObject__setitem__ : ref -> string -> Value -> M unit;
  host_binop : bool -> BinOp -> Value -> Value -> M Value;
  host_compare : CmpOp -> Value -> Value -> M bool;
  host_neg : Value -> M Value;
  host_float : Value -> M Value;
  host_str : Value -> M Value;
  host_id : Value -> M Value;
  host_len : Value -> M Z;
  host_getitem : Value -> Value -> M Value;
  host_setitem : Value -> Value -> Value -> M unit;
  host_append : Value -> Value -> M unit
}.

Section Executors.
Context `{Host}.

(** ** Reading and writing the store *)

(** [self.frame]: the attribute of the executor instance, read anew at
    every use. *)
Definition self_frame (self : Self) : M (option ref) :=
  fun w => Ok (handler_frame w !! self) w.

Definition load_frame (r : ref) : M Frame :=
  fun w => match frames w !! r with
           | Some f => Ok f w
           | None => Raise (HostError "ReferenceError") w
           end.

Definition store_frame (r : ref) (f : Frame) : M unit :=
  fun w => Ok tt (put_frame r f w).

(** Modelled from the spec: [frame[key]], the indexed register read of the
    frame.  The read of a register that was never written is refused by the
    frame with a fault of its own, which no handler catches. *)
Definition Frame__getitem__ (fr : option ref) (key : string) : M Value :=
  match fr with
  | None => raise (HostError "TypeError")
  | Some r =>
      let* f := load_frame r in
      match registers f !! key with
      | Some v => ret v
      | None => raise RegisterFault
      end
  end.

(** Modelled from the spec: [frame[key] = v], the indexed register write. *)
Definition Frame__setitem__ (fr : option ref) (key : string) (v : Value)
  : M unit :=
  match fr with
  | None => raise (HostError "TypeError")
  | Some r =>
      let* f := load_frame r in
      store_frame r (set_registers (<[key := v]> (registers f)) f)
  end.

(** [frame.attr] and [frame.attr = x]. *)
Definition getattr {A} (fr : option ref) (attr : Frame -> A) : M A :=
  match fr with
  | None => raise (HostError "AttributeError")
  | Some r => let* f := load_frame r in ret (attr f)
  end.

Definition setattr (fr : option ref) (upd : Frame -> Frame) : M unit :=
  match fr with
  | None => raise (HostError "AttributeError")
  | Some r => let* f := load_frame r in store_frame r (upd f)
  end.

(** [self.frame[key]], [self.frame[key] = v], [self.frame.attr] and
    [self.frame.attr = x]. *)
Definition reg (self : Self) (key : string) : M Value :=
  let* fr := self_frame self in Frame__getitem__ fr key.

Definition set_reg (self : Self) (key : string) (v : Value) : M unit :=
  let* fr := self_frame self in Frame__setitem__ fr key v.

Definition frame_attr {A} (self : Self) (attr : Frame -> A) : M A :=
  let* fr := self_frame self in getattr fr attr.

Definition set_frame_attr (self : Self) (upd : Frame -> Frame) : M unit :=
  let* fr := self_frame self in setattr fr upd.

(** [self.frame.vm.get_class(descriptor)] *)
Definition frame_vm_get_class (self : Self) (descriptor : string)
  : M SmaliClass :=
  let* v := frame_attr self vm in vm_get_class v descriptor.

Definition load_list (r : ref) : M (list Value) :=
  fun w => match lists w !! r with
           | Some l => Ok l w
           | None => Raise (HostError "ReferenceError") w
           end.

Definition store_list (r : ref) (l : list Value) : M unit :=
  fun w => Ok tt (put_list r l w).

(** A new list object: its identity is one no list of the store has. *)
Definition new_list (l : list Value) : M Value :=
  fun w => let r := fresh (dom (lists w)) in Ok (VList r) (put_list r l w).

Definition load_object (r : ref) : M SmaliObject :=
  fun w => match objects w !! r with
           | Some o => Ok o w
           | None => Raise (HostError "ReferenceError") w
           end.

(** Modelled from the spec: [SmaliObject(smali_class)], a new instance of the
    class, with an identity no instance of the store has. *)
Definition SmaliObject_new (cls : SmaliClass) : M ref :=
  fun w => let r := fresh (dom (objects w)) in
           Ok r (set_objects (<[r := mkSmaliObject cls ∅]> (objects w)) w).

(** [field.value] and [field.value = v] on the cell of a static field. *)
Definition cell_value (r : ref) : M Value :=
  fun w => match cells w !! r with
           | Some v => Ok v w
           | None => Raise (HostError "AttributeError") w
           end.

Definition set_cell_value (r : ref) (v : Value) : M unit :=
  fun w => Ok tt (set_cells (<[r := v]> (cells w)) w).

(** ** Python expressions *)

(** [a op b] and [a op= b].  On integers (and booleans, which are
    integers) the operator is Python's: unbounded, with floor division and
    the sign of the divisor for the remainder.  True division and every
    other kind of operand are the host's. *)
Definition py_binop (inplace : bool) (op : BinOp) (a b : Value) : M Value :=
  match as_int a, as_int b with
  | Some x, Some y =>
      match op with
      | Add => ret (VInt (x + y))
      | Sub => ret (VInt (x - y))
      | Mul => ret (VInt (x * y))
      | FloorDiv =>
          if y =? 0 then raise (HostError "ZeroDivisionError")
          else ret (VInt (x / y))
      | Mod =>
          if y =? 0 then raise (HostError "ZeroDivisionError")
          else ret (VInt (x mod y))
      | TrueDiv => host_binop inplace op a b
      | BitAnd =>
          match a, b with
          | VBool p, VBool q => ret (VBool (p && q))
          | _, _ => ret (VInt (Z.land x y))
          end
      | BitOr =>
          match a, b with
          | VBool p, VBool q => ret (VBool (p || q))
          | _, _ => ret (VInt (Z.lor x y))
          end
      | BitXor =>
          match a, b with
          | VBool p, VBool q => ret (VBool (xorb p q))
          | _, _ => ret (VInt (Z.lxor x y))
          end
      | LShift =>
          if y <? 0 then raise (HostError "ValueError")
          else ret (VInt (Z.shiftl x y))
      | RShift =>
          if y <? 0 then raise (HostError "ValueError")
          else ret (VInt (Z.shiftr x y))
      end
  | _, _ => host_binop inplace op a b
  end.

(** [-a] *)
Definition py_neg (a : Value) : M Value :=
  match as_int a with
  | Some x => ret (VInt (- x))
  | None => host_neg a
  end.

(** [a < b], [a == b] and the like, as the truth value the [if] sees. *)
Definition py_compare (op : CmpOp) (a b : Value) : M bool :=
  match as_int a, as_int b with
  | Some x, Some y => ret (int_compare op x y)
  | _, _ =>
      match op, a, b with
      | CmpEq, VStr s, VStr t => ret (String.eqb s t)
      | CmpNe, VStr s, VStr t => ret (negb (String.eqb s t))
      | _, _, _ => host_compare op a b
      end
  end.

(** [a or b] on two tests: [b] is not evaluated when [a] holds. *)
Definition py_or (a b : M bool) : M bool :=
  let* x := a in if x then ret true else b.

(** [len(c)] *)
Definition py_len (c : Value) : M Z :=
  match c with
  | VList r => let* l := load_list r in ret (Z.of_nat (length l))
  | VStr s => ret (Z.of_nat (String.length s))
  | _ => host_len c
  end.

(** [c[i]] *)
Definition py_getitem (c i : Value) : M Value :=
  match c, as_int i with
  | VList r, Some n =>
      let* l := load_list r in
      match list_index n (length l) with
      | Some k =>
          match l !! k with
          | Some v => ret v
          | None => raise (HostError "IndexError")
          end
      | None => raise (HostError "IndexError")
      end
  | VObject r, _ =>
      match i with
      | VStr s => SmaliObject__getitem__ r s
      | _ => host_getitem c i
      end
  | _, _ => host_getitem c i
  end.

(** [c[i] = v] *)
Definition py_setitem (c i v : Value) : M unit :=
  match c, as_int i with
  | VList r, Some n =>
      let* l := load_list r in
      match list_index n (length l) with
      | Some k => store_list r (<[k := v]> l)
      | None => raise (HostError "IndexError")
      end
  | VObject r, _ =>
      match i with
      | VStr s => SmaliObject__setitem__ r s v
      | _ => host_setitem c i v
      end
  | _, _ => host_setitem c i v
  end.

(** [c.append]: the look-up of the method, which comes before the
    evaluation of its argument.  Only a list has it among the values of the
    host language; the objects of the collaborators answer for themselves
    when it is called. *)
Definition py_getattr_append (c : Value) : M unit :=
  match c with
  | VList _ | VObject _ | VClass _ | VError _ _ => ret tt
  | _ => raise (HostError "AttributeError")
  end.

(** [c.append(v)], once the method is found. *)
Definition py_append (c : Value) (v : Value) : M unit :=
  match c with
  | VList r => let* l := load_list r in store_list r (l ++ [v])
  | _ => host_append c v
  end.

(** [[x] * n] *)
Definition py_repeat (x : Value) (n : Value) : M (list Value) :=
  match as_int n with
  | Some k => ret (replicate (Z.to_nat k) x)
  | None => raise (HostError "TypeError")
  end.

(** [l[i]] on a list of the instruction itself (labels, registers). *)
Definition item {A} (l : list A) (i : Value) : M A :=
  match as_int i with
  | Some n =>
      match list_index n (length l) with
      | Some k =>
          match l !! k with
          | Some x => ret x
          | None => raise (HostError "IndexError")
          end
      | None => raise (HostError "IndexError")
      end
  | None => raise (HostError "TypeError")
  end.

(** [a, b = l]: unpacking into two names. *)
Definition unpack2 {A} (l : list A) : M (A * A) :=
  match l with
  | [a; b] => ret (a, b)
  | _ => raise (HostError "ValueError")
  end.

(** ** smali/bridge/objects.py *)

(** [x.smali_class]: the attribute of an instance. *)
Definition attr_smali_class (x : Value) : M SmaliClass :=
  match x with
  | VObject r => let* o := load_object r in ret (smali_class o)
  | _ => raise (HostError "AttributeError")
  end.

(** [x.name]: the attribute of a class. *)
Definition attr_name (x : Value) : M string :=
  match x with
  | VClass c => ret (name c)
  | _ => raise (HostError "AttributeError")
  end.

Definition Object : gmap string (Value -> M Value) :=
  {[ "toString()Ljava/lang/String;" := host_str;
     "<init>()V" := (fun x => ret x);
     "hashCode()I" := host_id;
     "getClass()Ljava/lang/Class;" :=
       (fun x => let* c := attr_smali_class x in ret (VClass c)) ]}.

Definition Class : gmap string (Value -> M Value) :=
  {[ "getSimpleName()Ljava/lang/String;" :=
       (fun x => let* n := attr_name x in ret (VStr n)) ]}.

(** ** smali/bridge/executor.py: the handlers *)

(** [Executor.cast(value, classes)], for [classes = SmaliObject], the one
    use the module makes of it.  The message of the error formats the type
    of the value and the class, not the value; the model has no types as
    values, so the error keeps no argument. *)
Definition cast (self : Self) (value : Value) : M Value :=
  match value with
  | VObject _ => ret value
  | _ => raise (ExecutionError "ClassCastError" [])
  end.

Definition nop (self : Self) : M unit := ret tt.

(** *** return *)

Definition return_void (self : Self) : M unit :=
  set_frame_attr self (set_return_value VNone) ;;
  set_frame_attr self (set_finished true).

Definition return_object (self : Self) (register : string) : M unit :=
  let* v := reg self register in
  set_frame_attr self (set_return_value v) ;;
  set_frame_attr self (set_finished true).

(** *** goto *)

Definition goto (self : Self) (label : string) : M unit :=
  let* ls := frame_attr self labels in
  match ls !! label with
  | None => raise (ExecutionError "NoSuchLabelError" [VStr label])
  | Some _ =>
      set_frame_attr self (set_label (Some label)) ;;
      let* ls := frame_attr self labels in
      match ls !! label with
      | Some p => set_frame_attr self (set_pos p)
      | None => raise (HostError "KeyError")
      end
  end.

(** *** invoke *)

(** The last lines of [invoke], which its static and its non-static path
    share: [vm_class] is the class found so far, if any. *)
Definition invoke_call (self : Self) (vm_class : option SmaliClass)
    (owner method : string) (instance : Value) (values : list Value)
  : M unit :=
  let* vm_class :=
    match vm_class with
    | Some c => ret c
    | None => frame_vm_get_class self owner
    end in
  let* target := SmaliClass_method vm_class method in
  let* v := frame_attr self vm in
  let* r := vm_call v target instance values in
  set_frame_attr self (set_method_return r).

Definition invoke (self : Self) (inv_type : string) (args : list string)
    (owner method : string) : M unit :=
  if bool_decide (inv_type ∈ ["direct"; "virtual"; "static"]) then
    if String.eqb owner "Ljava/lang/Class;" then
      let* a0 := item args (VInt 0) in
      let* vm_class := reg self a0 in
      match Class !! method with
      | None => raise (ExecutionError "NoSuchMethodError" [VStr method])
      | Some native =>
          let* r := native vm_class in
          set_frame_attr self (set_method_return r)
      end
    else if String.eqb owner "Ljava/lang/Object;" then
      match Object !! method with
      | None => raise (ExecutionError "NoSuchMethodError" [VStr method])
      | Some target =>
          let* a0 := item args (VInt 0) in
          let* x := reg self a0 in
          let* r := target x in
          set_frame_attr self (set_method_return r)
      end
    else
      let* values := mapM (reg self) args in
      if negb (String.eqb inv_type "static") then
        let* instance := item values (VInt 0) in
        let* c := attr_smali_class instance in
        let sup := super_cls c in
        let* vm_class :=
          if String.eqb sup owner
          then let* k := frame_vm_get_class self sup in ret (Some k)
          else ret None in
        invoke_call self vm_class owner method instance (tail values)
      else
        invoke_call self None owner method VNone values
  else ret tt.

Definition throw (self : Self) (register : string) : M unit :=
  let* v := reg self register in
  set_frame_attr self (set_error (VError "RuntimeError" [v])).

(** *** int-to-object, long-to-object *)

Definition int_to_long (self : Self) (dest src : string) : M unit :=
  let* a := reg self src in
  let* v := py_binop false BitAnd a (VInt 0xFFFFFFFFFFFFFFFF) in
  set_reg self dest v.

Definition int_to_int (self : Self) (dest src : string) : M unit :=
  let* a := reg self src in
  let* v := py_binop false BitAnd a (VInt 0xFFFFFFFF) in
  set_reg self dest v.

Definition int_to_char (self : Self) (dest src : string) : M unit :=
  let* a := reg self src in
  let* v := py_binop false BitAnd a (VInt 0xFFFF) in
  set_reg self dest v.

(** [struct.unpack('>i', x)] wants a bytes-like object, and no value of
    the model is one. *)
Definition struct_unpack (x : Value) : M Value :=
  raise (HostError "TypeError").

Definition int_to_byte (self : Self) (dest src : string) : M unit :=
  let* a := reg self src in
  let* v := struct_unpack a in
  set_reg self dest v.

Definition int_to_float (self : Self) (dest src : string) : M unit :=
  let* a := reg self src in
  let* v := host_float a in
  set_reg self dest v.

(** *** get, put *)

Definition sput_object (self : Self) (register dest : string) : M unit :=
  let* value := reg self register in
  let* p := unpack2 (split "->" dest) in
  let* q := unpack2 (split ":" (snd p)) in
  let* cls := frame_vm_get_class self (fst p) in
  let* field := SmaliClass_field cls (fst q) in
  set_cell_value field value.

Definition sget_object (self : Self) (register dest : string) : M unit :=
  let* p := unpack2 (split "->" dest) in
  let* q := unpack2 (split ":" (snd p)) in
  let* cls := frame_vm_get_class self (fst p) in
  let* field := SmaliClass_field cls (fst q) in
  let* v := cell_value field in
  set_reg self register v.

Definition iget_object (self : Self) (dest src info : string) : M unit :=
  let* x := reg self src in
  let* smali_object := cast self x in
  let* p := unpack2 (split "->" info) in
  let* q := unpack2 (split ":" (snd p)) in
  let* v := py_getitem smali_object (VStr (fst q)) in
  set_reg self dest v.

Definition iput_object (self : Self) (src obj info : string) : M unit :=
  let* x := reg self obj in
  let* smali_object := cast self x in
  let* p := unpack2 (split "->" info) in
  let* q := unpack2 (split ":" (snd p)) in
  let* v := reg self src in
  py_setitem smali_object (VStr (fst q)) v.

(** *** const *)

Definition const (self : Self) (register value : string) : M unit :=
  let* v := SmaliValue value in
  set_reg self register v.

Definition const_class (self : Self) (register descriptor : string)
  : M unit :=
  let* c := frame_vm_get_class self descriptor in
  set_reg self register (VClass c).

(** *** move *)

Definition move_result (self : Self) (register : string) : M unit :=
  let* v := frame_attr self method_return in
  set_reg self register v.

Definition move (self : Self) (dest src : string) : M unit :=
  let* v := reg self src in
  set_reg self dest v.

Definition move_exception (self : Self) (dest : string) : M unit :=
  let* v := frame_attr self error in
  set_reg self dest v.

(** *** new-instance *)

Definition new_instance (self : Self) (register descriptor : string)
  : M unit :=
  if str_in descriptor "ISBJ" then
    set_reg self register (VInt 0)
  else if str_in descriptor "FD" then
    set_reg self register (VFloat (S754_zero false))
  else if bool_decide (descriptor ∈
            ["Ljava/lang/String;"; "C"; "Ljava/lang/Character;"]) then
    set_reg self register (VStr "")
  else if bool_decide (descriptor ∈
            ["Ljava/lang/Integer;"; "Ljava/lang/Byte;";
             "Ljava/lang/Long"; "Ljava/lang/Short;"]) then
    set_reg self register (VInt 0)
  else if bool_decide (descriptor ∈ ["Ljava/lang/Boolean"; "Z"]) then
    set_reg self register (VBool false)
  else
    let* cls := frame_vm_get_class self descriptor in
    let* instance := SmaliObject_new cls in
    SmaliObject_init instance ;;
    set_reg self register (VObject instance).

(** A list that is replaced before it is stored never reaches the store:
    the list object is made where [values] is assigned to the register. *)
Definition new_array (self : Self) (dest count_register descriptor : string)
  : M unit :=
  let* cls := Type_class_name descriptor in
  let* n := reg self count_register in
  let* values := py_repeat VNone n in
  let* values :=
    if str_in cls "BSIJ" then
      let* n := reg self count_register in py_repeat (VInt 0) n
    else if str_in cls "FD" then
      let* n := reg self count_register in
      py_repeat (VFloat (S754_zero false)) n
    else ret values in
  let* l := new_list values in
  set_reg self dest l.

(** *** switch *)

(** The characters of a string, as Python iterates and indexes it. *)
Fixpoint chars (s : string) : list string :=
  match s with
  | EmptyString => []
  | String c s' => String c EmptyString :: chars s'
  end.

(** [switch_value, cases = table]: a packed table is the pair itself;
    unpacking a mapping gives its keys, when there are two of them. *)
Definition unpack_table (t : SwitchTable) : M (string * list string) :=
  match t with
  | PackedTable switch_value cases => ret (switch_value, cases)
  | SparseTable [(k1, _); (k2, _)] => ret (k1, chars k2)
  | SparseTable _ => raise (HostError "ValueError")
  end.

Definition packed_switch (self : Self) (register data : string) : M unit :=
  let* sd := frame_attr self switch_data in
  match sd !! data with
  | None => raise (HostError "KeyError")
  | Some t =>
      let* p := unpack_table t in
      let cases := snd p in
      let* value := reg self register in
      let* low := SmaliValue (fst p) in
      let* idx := py_binop false Sub value low in
      let* out := py_or (py_compare CmpLt idx (VInt 0))
                        (py_compare CmpGe idx
                                    (VInt (Z.of_nat (length cases)))) in
      if out then ret tt
      else let* target := item cases idx in goto self target
  end.

(** The loop of [sparse_switch] over [branches.items()]. *)
Fixpoint sparse_scan (self : Self) (value : Value)
    (branches : list (string * string)) : M unit :=
  match branches with
  | [] => ret tt
  | (key, label) :: rest =>
      let* k := SmaliValue key in
      let* same := py_compare CmpEq k value in
      if same then goto self label
      else sparse_scan self value rest
  end.

Definition sparse_switch (self : Self) (register label_name : string)
  : M unit :=
  let* sd := frame_attr self switch_data in
  match sd !! label_name with
  | None => raise (HostError "KeyError")
  | Some branches =>
      let* value := reg self register in
      match branches with
      | SparseTable items => sparse_scan self value items
      | PackedTable _ _ => raise (HostError "AttributeError")
      end
  end.

(** *** if *)

Definition if_le (self : Self) (left right label : string) : M unit :=
  let* a := reg self left in
  let* b := reg self right in
  let* c := py_compare CmpLe a b in
  if c then goto self label else ret tt.

Definition if_ge (self : Self) (left right label : string) : M unit :=
  let* a := reg self left in
  let* b := reg self right in
  let* c := py_compare CmpGe a b in
  if c then goto self label else ret tt.

Definition if_gez (self : Self) (left label : string) : M unit :=
  let* a := reg self left in
  let* c := py_compare CmpGe a (VInt 0) in
  if c then goto self label else ret tt.

Definition if_ltz (self : Self) (left label : string) : M unit :=
  let* a := reg self left in
  let* c := py_compare CmpLt a (VInt 0) in
  if c then goto self label else ret tt.

Definition if_gt (self : Self) (left right label : string) : M unit :=
  let* a := reg self left in
  let* b := reg self right in
  let* c := py_compare CmpGt a b in
  if c then goto self label else ret tt.

Definition if_lt (self : Self) (left right label : string) : M unit :=
  let* a := reg self left in
  let* b := reg self right in
  let* c := py_compare CmpLt a b in
  if c then goto self label else ret tt.

Definition if_gtz (self : Self) (left label : string) : M unit :=
  let* a := reg self left in
  let* c := py_compare CmpGt a (VInt 0) in
  if c then goto self label else ret tt.

Definition if_ne (self : Self) (left right label : string) : M unit :=
  let* a := reg self left in
  let* b := reg self right in
  let* c := py_compare CmpNe a b in
  if c then goto self label else ret tt.

Definition if_lez (self : Self) (left label : string) : M unit :=
  let* a := reg self left in
  let* c := py_compare CmpLe a (VInt 0) in
  if c then goto self label else ret tt.

Definition if_nez (self : Self) (left label : string) : M unit :=
  let* a := reg self left in
  let* c := py_compare CmpNe a (VInt 0) in
  if c then goto self label else ret tt.

Definition if_eqz (self : Self) (left label : string) : M unit :=
  let* a := reg self left in
  let* c := py_compare CmpEq a (VInt 0) in
  if c then goto self label else ret tt.

(** *** array *)

Definition array_length (self : Self) (dest array : string) : M unit :=
  let* a := reg self array in
  let* n := py_len a in
  set_reg self dest (VInt n).

Definition fill_array_data (self : Self) (dest label : string) : M unit :=
  let* ad := frame_attr self array_data in
  match ad !! label with
  | Some v => set_reg self dest v
  | None => raise (HostError "KeyError")
  end.

(** In [aget] and [aput] the bound of the test is [len(array)], the length
    of the register's name: [array] is the operand, [array_data] the list.
    The message of the error formats [len(array_data)]. *)
Definition aget (self : Self) (dest array index : string) : M unit :=
  let* idx_value := reg self index in
  let* array_data := reg self array in
  let* out := py_or (py_compare CmpLt idx_value (VInt 0))
                    (py_compare CmpGe idx_value
                                (VInt (Z.of_nat (String.length array)))) in
  if out then
    let* n := py_len array_data in
    raise (ExecutionError "IndexOutOfBoundsError" [idx_value; VInt n])
  else
    let* v := py_getitem array_data idx_value in
    set_reg self dest v.

Definition aput (self : Self) (src array index : string) : M unit :=
  let* idx_value := reg self index in
  let* array_data := reg self array in
  let* out := py_or (py_compare CmpLt idx_value (VInt 0))
                    (py_compare CmpGt idx_value
                                (VInt (Z.of_nat (String.length array)))) in
  if out then
    let* n := py_len array_data in
    raise (ExecutionError "IndexOutOfBoundsError" [idx_value; VInt n])
  else
    let* at_end := py_compare CmpEq (VInt (Z.of_nat (String.length array)))
                              idx_value in
    if at_end then
      py_getattr_append array_data ;;
      let* v := reg self src in
      py_append array_data v
    else
      let* v := reg self src in
      py_setitem array_data idx_value v.

(** *** int operations (2addr) *)

Definition neg_int (self : Self) (dest src : string) : M unit :=
  let* a := reg self src in
  let* v := py_neg a in
  set_reg self dest v.

(** [self.frame[dest] op= self.frame[src]]: the frame and the key of the
    target are evaluated once, for the read and for the write. *)
Definition augmented (self : Self) (op : BinOp) (dest src : string)
  : M unit :=
  let* fr := self_frame self in
  let* a := Frame__getitem__ fr dest in
  let* b := reg self src in
  let* v := py_binop true op a b in
  Frame__setitem__ fr dest v.

Definition or_int__2addr (self : Self) (dest src : string) : M unit :=
  augmented self BitOr dest src.

Definition and_int__2addr (self : Self) (dest src : string) : M unit :=
  augmented self BitAnd dest src.

Definition sub_int__2addr (self : Self) (dest src : string) : M unit :=
  augmented self Sub dest src.

Definition xor_int__2addr (self : Self) (dest src : string) : M unit :=
  augmented self BitXor dest src.

Definition add_int__2addr (self : Self) (dest src : string) : M unit :=
  augmented self Add dest src.

Definition div_int__2addr (self : Self) (dest src : string) : M unit :=
  augmented self FloorDiv dest src.

Definition div_float__2addr (self : Self) (dest src : string) : M unit :=
  augmented self TrueDiv dest src.

Definition shl_int__2addr (self : Self) (dest src : string) : M unit :=
  augmented self LShift dest src.

Definition shr_int__2addr (self : Self) (dest src : string) : M unit :=
  augmented self RShift dest src.

Definition rem_int__2addr (self : Self) (dest src : string) : M unit :=
  augmented self Mod dest src.

Definition mul_int__2addr (self : Self) (dest src : string) : M unit :=
  augmented self Mul dest src.

(** *** int operations (lit8 and lit16) *)

(** [self.frame[dest] = self.frame[left] op (SmaliValue(right) & mask)] *)
Definition literal (self : Self) (op : BinOp) (mask : Z)
    (dest left right : string) : M unit :=
  let* a := reg self left in
  let* lit := SmaliValue right in
  let* m := py_binop false BitAnd lit (VInt mask) in
  let* v := py_binop false op a m in
  set_reg self dest v.

Definition div_int__lit8 (self : Self) (dest left right : string)
  : M unit :=
  literal self FloorDiv 0xFF dest left right.

Definition div_int__lit16 (self : Self) (dest left right : string)
  : M unit :=
  literal self FloorDiv 0xFFFF dest left right.

Definition add_int__lit8 (self : Self) (dest left right : string)
  : M unit :=
  literal self Add 0xFF dest left right.

Definition add_int__lit16 (self : Self) (dest left right : string)
  : M unit :=
  literal self Add 0xFFFF dest left right.

Definition sub_int__lit8 (self : Self) (dest left right : string)
  : M unit :=
  literal self Sub 0xFF dest left right.

Definition sub_int__lit16 (self : Self) (dest left right : string)
  : M unit :=
  literal self Sub 0xFFFF dest left right.

Definition mul_int__lit8 (self : Self) (dest left right : string)
  : M unit :=
  literal self Mul 0xFF dest left right.

Definition mul_int__lit16 (self : Self) (dest left right : string)
  : M unit :=
  literal self Mul 0xFFFF dest left right.

Definition rem_int__lit8 (self : Self) (dest left right : string)
  : M unit :=
  literal self Mod 0xFF dest left right.

Definition rem_int__lit16 (self : Self) (dest left right : string)
  : M unit :=
  literal self Mod 0xFFFF dest left right.

Definition and_int__lit8 (self : Self) (dest left right : string)
  : M unit :=
  literal self BitAnd 0xFF dest left right.

Definition and_int__lit16 (self : Self) (dest left right : string)
  : M unit :=
  literal self BitAnd 0xFFFF dest left right.

Definition or_int__lit8 (self : Self) (dest left right : string)
  : M unit :=
  literal self BitOr 0xFF dest left right.

Definition or_int__lit16 (self : Self) (dest left right : string)
  : M unit :=
  literal self BitOr 0xFFFF dest left right.

Definition xor_int__lit8 (self : Self) (dest left right : string)
  : M unit :=
  literal self BitXor 0xFF dest left right.

Definition xor_int__lit16 (self : Self) (dest left right : string)
  : M unit :=
  literal self BitXor 0xFFFF dest left right.

Definition shl_int__lit8 (self : Self) (dest left right : string)
  : M unit :=
  literal self LShift 0xFF dest left right.

Definition shl_int__lit16 (self : Self) (dest left right : string)
  : M unit :=
  literal self LShift 0xFFFF dest left right.

Definition shr_int__lit8 (self : Self) (dest left right : string)
  : M unit :=
  literal self RShift 0xFF dest left right.

Definition shr_int__lit16 (self : Self) (dest left right : string)
  : M unit :=
  literal self RShift 0xFFFF dest left right.

Definition rsub_int__lit8 (self : Self) (dest left right : string)
  : M unit :=
  let* lit := SmaliValue right in
  let* m := py_binop false BitAnd lit (VInt 0xFF) in
  let* a := reg self left in
  let* v := py_binop false Sub m a in
  set_reg self dest v.

(** *** int operations *)

(** [self.frame[dest] = self.frame[left] op self.frame[right]] *)
Definition binary (self : Self) (op : BinOp) (dest left right : string)
  : M unit :=
  let* a := reg self left in
  let* b := reg self right in
  let* v := py_binop false op a b in
  set_reg self dest v.

Definition div_int (self : Self) (dest left right : string) : M unit :=
  binary self FloorDiv dest left right.

Definition div_float (self : Self) (dest left right : string) : M unit :=
  binary self TrueDiv dest left right.

Definition add_int (self : Self) (dest left right : string) : M unit :=
  binary self Add dest left right.

Definition sub_int (self : Self) (dest left right : string) : M unit :=
  binary self Sub dest left right.

Definition rem_int (self : Self) (dest left right : string) : M unit :=
  binary self Mod dest left right.

Definition mul_int (self : Self) (dest left right : string) : M unit :=
  binary self Mul dest left right.

Definition or_int (self : Self) (dest left right : string) : M unit :=
  binary self BitOr dest left right.

Definition and_int (self : Self) (dest left right : string) : M unit :=
  binary self BitAnd dest left right.

Definition xor_int (self : Self) (dest left right : string) : M unit :=
  binary self BitXor dest left right.

Definition shl_int (self : Self) (dest left right : string) : M unit :=
  binary self LShift dest left right.

Definition shr_int (self : Self) (dest left right : string) : M unit :=
  binary self RShift dest left right.

(** ** smali/bridge/executor.py: the class [Executor] and the registry *)

(** A function object: its [__name__] and what calling it with [self] and
    the positional arguments does.  The handlers above take their operands
    as strings ([invoke] takes a list of registers second); [params0] to
    [params_invoke] bind positional arguments to such parameters, and a
    call with another number or shape of arguments is a [TypeError]. *)
Definition Action := Self -> list Operand -> M unit.

Record Function := def {
  __name__ : string;
  body : Action
}.

Definition params0 (f : Self -> M unit) : Action :=
  fun self args =>
    match args with
    | [] => f self
    | _ => raise (HostError "TypeError")
    end.

Definition params1 (f : Self -> string -> M unit) : Action :=
  fun self args =>
    match args with
    | [Str a] => f self a
    | _ => raise (HostError "TypeError")
    end.

Definition params2 (f : Self -> string -> string -> M unit) : Action :=
  fun self args =>
    match args with
    | [Str a; Str b] => f self a b
    | _ => raise (HostError "TypeError")
    end.

Definition params3 (f : Self -> string -> string -> string -> M unit)
  : Action :=
  fun self args =>
    match args with
    | [Str a; Str b; Str c] => f self a b c
    | _ => raise (HostError "TypeError")
    end.

Definition params_invoke
    (f : Self -> string -> list string -> string -> string -> M unit)
  : Action :=
  fun self args =>
    match args with
    | [Str a; Regs b; Str c; Str d] => f self a b c d
    | _ => raise (HostError "TypeError")
    end.

(** The attributes of an executor that are set once, by [__init__]; the
    attributes [frame] and [args], which every call writes, are in the
    store. *)
Record Executor := mkExecutor {
  opcode : Self;
  action : option Function
}.

(** What [map_to] is bound to: [None], a list of names or, when the
    decorator factory itself is used as the decorator, the function. *)
Inductive MapTo : Type :=
| MapNone
| MapList (l : list string)
| MapFunction (f : Function).

(** [Executor.__init__(self, action, name, map_to)], on the registry
    [__executors__] it writes to: the registry afterwards, and the new
    executor or the exception raised. *)
Definition Executor__init__ (action : option Function)
    (opname : option string) (map_to : MapTo)
    (registry : gmap string Executor)
  : gmap string Executor * (Exception + Executor) :=
  let opcode :=
    match action with
    | Some f => Some (replace "_" "-" (replace "__" "/" (__name__ f)))
    | None => opname
    end in
  match opcode with
  | None | Some EmptyString => (registry, inl (HostError "ValueError"))
  | Some op =>
      let self := mkExecutor op action in
      let registry := <[op := self]> registry in
      match map_to with
      | MapNone | MapList [] => (registry, inr self)
      | MapList l =>
          (foldl (fun r op_name => <[op_name := self]> r) registry l,
           inr self)
      | MapFunction _ => (registry, inl (HostError "TypeError"))
      end
  end.

(** [OpcodeExecutor(map_to)] is the closure [wrapper]. *)
Definition OpcodeExecutor (map_to : MapTo)
  : Function -> gmap string Executor
    -> gmap string Executor * (Exception + Executor) :=
  fun func => Executor__init__ (Some func) None map_to.

(** A decorated definition [@d def f]: [Called l] is the decorator
    [OpcodeExecutor(map_to=l)] (and [OpcodeExecutor()] for the empty list),
    which is [wrapper] and is applied to [f]; [Bare] is the decorator
    [OpcodeExecutor], which is applied to [f] as its [map_to] and gives back
    a [wrapper] that nothing calls. *)
Inductive Decorator : Type :=
| Called (map_to : list string)
| Bare.

Definition decorate (d : Decorator) (func : Function)
    (registry : gmap string Executor)
  : gmap string Executor * option Exception :=
  match d with
  | Called map_to =>
      match OpcodeExecutor (MapList map_to) func registry with
      | (registry', inr _) => (registry', None)
      | (registry', inl e) => (registry', Some e)
      end
  | Bare =>
      let wrapper := OpcodeExecutor (MapFunction func) in
      (registry, None)
  end.

Definition imported (names : list string) : list string :=
  map smali_opcode names.

(** The decorated definitions of the module, in the order of the file. *)
Definition module_body : list (Decorator * Function) :=
  [
    (Called [],
     def "nop" (params0 nop));
    (Called (imported ["RETURN_VOID_BARRIER"; "RETURN_VOID_NO_BARRIER"]),
     def "return_void" (params0 return_void));
    (Called (imported ["RETURN"; "RETURN_WIDE"]),
     def "return_object" (params1 return_object));
    (Called (imported ["GOTO_16"; "GOTO_32"]),
     def "goto" (params1 goto));
    (Called (imported ["INVOKE_DIRECT"; "INVOKE_STATIC"; "INVOKE_VIRTUAL"]),
     def "invoke" (params_invoke invoke));
    (Called [],
     def "throw" (params1 throw));
    (Called [],
     def "int_to_long" (params2 int_to_long));
    (Called (imported ["LONG_TO_INT"]),
     def "int_to_int" (params2 int_to_int));
    (Called (imported ["INT_TO_SHORT"]),
     def "int_to_char" (params2 int_to_char));
    (Called [],
     def "int_to_byte" (params2 int_to_byte));
    (Called (imported ["INT_TO_DOUBLE"]),
     def "int_to_float" (params2 int_to_float));
    (Called (imported ["SPUT"; "SPUT_BOOLEAN"; "SPUT_SHORT"; "SPUT_CHAR"; "SPUT_BYTE";
       "SPUT_OBJECT_VOLATILE"; "SPUT_WIDE"; "SPUT_WIDE_VOLATILE"]),
     def "sput_object" (params2 sput_object));
    (Called (imported ["SGET"; "SGET_BOOLEAN"; "SGET_BYTE"; "SGET_OBJECT_VOLATILE";
       "SGET_VOLATILE"; "SGET_WIDE"; "SGET_WIDE_VOLATILE"; "SGET_CHAR"]),
     def "sget_object" (params2 sget_object));
    (Called (imported ["IGET_BOOLEAN"; "IGET_BYTE"; "IGET_CHAR"; "IGET_SHORT";
       "IGET_VOLATILE"; "IGET_WIDE"; "IGET"; "IGET_OBJECT_VOLATILE"]),
     def "iget_object" (params3 iget_object));
    (Called (imported ["IPUT"; "IPUT_BOOLEAN"; "IPUT_BYTE"; "IPUT_CHAR"; "IPUT_SHORT";
       "IPUT_OBJECT_VOLATILE"; "IPUT_VOLATILE"; "IPUT_WIDE"]),
     def "iput_object" (params3 iput_object));
    (Called (imported ["CONST_STRING"; "CONST_STRING_JUMBO"; "CONST_16"; "CONST_4";
       "CONST_WIDE"; "CONST_WIDE_HIGH16"; "CONST_WIDE_32"]),
     def "const" (params2 const));
    (Called (imported ["CONST_CLASS"]),
     def "const_class" (params2 const_class));
    (Called (imported ["MOVE_RESULT_OBJECT"]),
     def "move_result" (params1 move_result));
    (Called [],
     def "move" (params2 move));
    (Called [],
     def "move_exception" (params1 move_exception));
    (Called [],
     def "new_instance" (params2 new_instance));
    (Called [],
     def "new_array" (params3 new_array));
    (Called [],
     def "packed_switch" (params2 packed_switch));
    (Bare,
     def "sparse_switch" (params2 sparse_switch));
    (Called [],
     def "if_le" (params3 if_le));
    (Called [],
     def "if_ge" (params3 if_ge));
    (Called [],
     def "if_gez" (params2 if_gez));
    (Called [],
     def "if_ltz" (params2 if_ltz));
    (Called [],
     def "if_gt" (params3 if_gt));
    (Called [],
     def "if_lt" (params3 if_lt));
    (Called [],
     def "if_gtz" (params2 if_gtz));
    (Called [],
     def "if_ne" (params3 if_ne));
    (Called [],
     def "if_lez" (params2 if_lez));
    (Called [],
     def "if_nez" (params2 if_nez));
    (Called [],
     def "if_eqz" (params2 if_eqz));
    (Called [],
     def "array_length" (params2 array_length));
    (Called [],
     def "fill_array_data" (params2 fill_array_data));
    (Called (imported ["AGET_BOOLEAN"; "AGET_BYTE"; "AGET_CHAR"; "AGET_OBJECT";
       "AGET_SHORT"; "AGET_WIDE"]),
     def "aget" (params3 aget));
    (Called (imported ["APUT_BOOLEAN"; "APUT_BYTE"; "APUT_CHAR"; "APUT_OBJECT";
       "APUT_SHORT"; "APUT_WIDE"]),
     def "aput" (params3 aput));
    (Called (imported ["NEG_DOUBLE"; "NEG_FLOAT"; "NEG_LONG"]),
     def "neg_int" (params2 neg_int));
    (Called (imported ["OR_LONG_2ADDR"]),
     def "or_int__2addr" (params2 or_int__2addr));
    (Called (imported ["AND_LONG_2ADDR"]),
     def "and_int__2addr" (params2 and_int__2addr));
    (Called (imported ["SUB_DOUBLE_2ADDR"; "SUB_FLOAT_2ADDR"; "SUB_LONG_2ADDR"]),
     def "sub_int__2addr" (params2 sub_int__2addr));
    (Called (imported ["XOR_LONG_2ADDR"]),
     def "xor_int__2addr" (params2 xor_int__2addr));
    (Called (imported ["ADD_DOUBLE_2ADDR"; "ADD_FLOAT_2ADDR"; "ADD_LONG_2ADDR"]),
     def "add_int__2addr" (params2 add_int__2addr));
    (Called (imported ["DIV_LONG_2ADDR"]),
     def "div_int__2addr" (params2 div_int__2addr));
    (Called (imported ["DIV_DOUBLE_2ADDR"]),
     def "div_float__2addr" (params2 div_float__2addr));
    (Called (imported ["SHL_LONG_2ADDR"]),
     def "shl_int__2addr" (params2 shl_int__2addr));
    (Called (imported ["SHR_LONG_2ADDR"; "USHR_INT_2ADDR"; "USHR_LONG_2ADDR"]),
     def "shr_int__2addr" (params2 shr_int__2addr));
    (Called (imported ["REM_DOUBLE_2ADDR"; "REM_FLOAT_2ADDR"; "REM_LONG_2ADDR"]),
     def "rem_int__2addr" (params2 rem_int__2addr));
    (Called (imported ["MUL_DOUBLE_2ADDR"; "MUL_FLOAT_2ADDR"; "MUL_LONG_2ADDR"]),
     def "mul_int__2addr" (params2 mul_int__2addr));
    (Called [],
     def "div_int__lit8" (params3 div_int__lit8));
    (Called [],
     def "div_int__lit16" (params3 div_int__lit16));
    (Called [],
     def "add_int__lit8" (params3 add_int__lit8));
    (Called [],
     def "add_int__lit16" (params3 add_int__lit16));
    (Called [],
     def "sub_int__lit8" (params3 sub_int__lit8));
    (Called [],
     def "sub_int__lit16" (params3 sub_int__lit16));
    (Called [],
     def "mul_int__lit8" (params3 mul_int__lit8));
    (Called [],
     def "mul_int__lit16" (params3 mul_int__lit16));
    (Called [],
     def "rem_int__lit8" (params3 rem_int__lit8));
    (Called [],
     def "rem_int__lit16" (params3 rem_int__lit16));
    (Called [],
     def "and_int__lit8" (params3 and_int__lit8));
    (Called [],
     def "and_int__lit16" (params3 and_int__lit16));
    (Called [],
     def "or_int__lit8" (params3 or_int__lit8));
    (Called [],
     def "or_int__lit16" (params3 or_int__lit16));
    (Called [],
     def "xor_int__lit8" (params3 xor_int__lit8));
    (Called [],
     def "xor_int__lit16" (params3 xor_int__lit16));
    (Called [],
     def "shl_int__lit8" (params3 shl_int__lit8));
    (Called [],
     def "shl_int__lit16" (params3 shl_int__lit16));
    (Called [],
     def "shr_int__lit8" (params3 shr_int__lit8));
    (Called [],
     def "shr_int__lit16" (params3 shr_int__lit16));
    (Called [],
     def "rsub_int__lit8" (params3 rsub_int__lit8));
    (Called [],
     def "div_int" (params3 div_int));
    (Called (imported ["DIV_DOUBLE"]),
     def "div_float" (params3 div_float));
    (Called (imported ["ADD_DOUBLE"; "ADD_FLOAT"; "ADD_LONG"]),
     def "add_int" (params3 add_int));
    (Called (imported ["SUB_DOUBLE"; "SUB_FLOAT"; "SUB_LONG"]),
     def "sub_int" (params3 sub_int));
    (Called (imported ["REM_DOUBLE"; "REM_FLOAT"; "REM_LONG"]),
     def "rem_int" (params3 rem_int));
    (Called (imported ["MUL_DOUBLE"; "MUL_FLOAT"; "MUL_LONG"]),
     def "mul_int" (params3 mul_int));
    (Called (imported ["OR_LONG"]),
     def "or_int" (params3 or_int));
    (Called (imported ["AND_LONG"]),
     def "and_int" (params3 and_int));
    (Called (imported ["XOR_LONG"]),
     def "xor_int" (params3 xor_int));
    (Called (imported ["SHL_LONG"]),
     def "shl_int" (params3 shl_int));
    (Called (imported ["SHR_LONG"; "USHR_LONG"; "USHR_INT"]),
     def "shr_int" (params3 shr_int))
  ].

(** Running the definitions of the module, until one raises. *)
Fixpoint run_module (stmts : list (Decorator * Function))
    (registry : gmap string Executor)
  : gmap string Executor * option Exception :=
  match stmts with
  | [] => (registry, None)
  | (d, f) :: rest =>
      match decorate d f registry with
      | (registry', None) => run_module rest registry'
      | (registry', Some e) => (registry', Some e)
      end
  end.

(** The registry once the module is imported. *)
Definition __executors__ : gmap string Executor :=
  fst (run_module module_body ∅).

Definition executor (opname : string) : Exception + Executor :=
  match __executors__ !! opname with
  | None => inl (HostError "KeyError")
  | Some e => inr e
  end.

(** [Executor.__call__(self, frame)] *)
Definition Executor__call__ (self : Executor) (frame : ref) : M unit :=
  (fun w =>
     Ok tt (set_handler_frame (<[opcode self := frame]> (handler_frame w)) w)) ;;
  let* args :=
    (fun w =>
       let a := default [] (handler_args w !! opcode self) in
       Ok a (set_handler_args (<[opcode self := a]> (handler_args w)) w)) in
  match action self with
  | Some f => body f (opcode self) args
  | None => ret tt
  end.

(** Modelled from the spec: [dispatch(frame, name, operands)], the entry
    point of the outer loop, which is not part of the sources: it looks the
    executor up, gives it the operands in its attribute [args] and calls it
    with the frame. *)
Definition dispatch (frame : ref) (opname : string)
    (operands : list Operand) : M unit :=
  match executor opname with
  | inl e => raise e
  | inr ex =>
      (fun w =>
         Ok tt (set_handler_args (<[opcode ex := operands]> (handler_args w))
                                 w)) ;;
      Executor__call__ ex frame
  end.

End Executors.

(** * The notions of the statements *)

Section Notions.
Context `{Host}.

(** ** Jumps *)

(** The conditional branches of the module, each with its test. *)
Definition register_branches
  : list ((Self -> string -> string -> string -> M unit) * CmpOp) :=
  [(if_le, CmpLe); (if_ge, CmpGe); (if_gt, CmpGt); (if_lt, CmpLt);
   (if_ne, CmpNe)].

Definition zero_branches
  : list ((Self -> string -> string -> M unit) * CmpOp) :=
  [(if_gez, CmpGe); (if_ltz, CmpLt); (if_gtz, CmpGt); (if_lez, CmpLe);
   (if_nez, CmpNe); (if_eqz, CmpEq)].

(** [takes_jump self w m lbl w1]: in the store [w] the operation [m] is one
    that jumps to [lbl], and [w1] is the store when it reaches the jump: a
    [goto]; a conditional branch whose test is true; a packed switch whose
    index is within the table; a sparse switch whose first matching key has
    the label [lbl]. *)
Inductive takes_jump (self : Self) (w : World)
  : M unit -> string -> World -> Prop :=
| jump_goto lbl :
    takes_jump self w (goto self lbl) lbl w
| jump_register_branch h op left right lbl a b w1 :
    In (h, op) register_branches ->
    reg self left w = Ok a w ->
    reg self right w = Ok b w ->
    py_compare op a b w = Ok true w1 ->
    takes_jump self w (h self left right lbl) lbl w1
| jump_zero_branch h op left lbl a w1 :
    In (h, op) zero_branches ->
    reg self left w = Ok a w ->
    py_compare op a (VInt 0) w = Ok true w1 ->
    takes_jump self w (h self left lbl) lbl w1
| jump_packed_switch register data fr f low cases v lo lbl w1 :
    handler_frame w !! self = Some fr ->
    frames w !! fr = Some f ->
    switch_data f !! data = Some (PackedTable low cases) ->
    registers f !! register = Some (VInt v) ->
    SmaliValue low w = Ok (VInt lo) w1 ->
    0 <= v - lo ->
    cases !! Z.to_nat (v - lo) = Some lbl ->
    takes_jump self w (packed_switch self register data) lbl w1
| jump_sparse_switch register data fr f before key lbl after value :
    handler_frame w !! self = Some fr ->
    frames w !! fr = Some f ->
    switch_data f !! data
    = Some (SparseTable (before ++ (key, lbl) :: after)) ->
    registers f !! register = Some value ->
    Forall (fun kl => exists k, SmaliValue (fst kl) w = Ok k w
                                /\ py_compare CmpEq k value w = Ok false w)
           before ->
    (exists k, SmaliValue key w = Ok k w
               /\ py_compare CmpEq k value w = Ok true w) ->
    takes_jump self w (sparse_switch self register data) lbl w.

(** ** Literal operands *)

(** The handlers of the lit8 family. *)
Inductive Lit8 : Type :=
| lit8_div | lit8_add | lit8_sub | lit8_mul | lit8_rem
| lit8_and | lit8_or | lit8_xor | lit8_shl | lit8_shr | lit8_rsub.

Definition lit8_handler (o : Lit8)
  : Self -> string -> string -> string -> M unit :=
  match o with
  | lit8_div => div_int__lit8
  | lit8_add => add_int__lit8
  | lit8_sub => sub_int__lit8
  | lit8_mul => mul_int__lit8
  | lit8_rem => rem_int__lit8
  | lit8_and => and_int__lit8
  | lit8_or => or_int__lit8
  | lit8_xor => xor_int__lit8
  | lit8_shl => shl_int__lit8
  | lit8_shr => shr_int__lit8
  | lit8_rsub => rsub_int__lit8
  end.

(** The operator of each, on the integer of the left register and the
    masked literal. *)
Definition lit8_operator (o : Lit8) (left masked : Z) : Exception + Z :=
  match o with
  | lit8_div =>
      if masked =? 0 then inl (HostError "ZeroDivisionError")
      else inr (left / masked)
  | lit8_add => inr (left + masked)
  | lit8_sub => inr (left - masked)
  | lit8_mul => inr (left * masked)
  | lit8_rem =>
      if masked =? 0 then inl (HostError "ZeroDivisionError")
      else inr (left mod masked)
  | lit8_and => inr (Z.land left masked)
  | lit8_or => inr (Z.lor left masked)
  | lit8_xor => inr (Z.lxor left masked)
  | lit8_shl => inr (Z.shiftl left masked)
  | lit8_shr => inr (Z.shiftr left masked)
  | lit8_rsub => inr (masked - left)
  end.

(** ** New instances *)

(** The defaults of [new_instance]: the value each descriptor of the tests
    puts in the register. *)
Definition default_values : list (string * Value) :=
  [("I", VInt 0); ("S", VInt 0); ("B", VInt 0); ("J", VInt 0);
   ("F", VFloat (S754_zero false)); ("D", VFloat (S754_zero false));
   ("Ljava/lang/String;", VStr ""); ("C", VStr "");
   ("Ljava/lang/Character;", VStr "");
   ("Ljava/lang/Integer;", VInt 0); ("Ljava/lang/Byte;", VInt 0);
   ("Ljava/lang/Long", VInt 0); ("Ljava/lang/Short;", VInt 0);
   ("Ljava/lang/Boolean", VBool false); ("Z", VBool false)].

(** ** The registry *)

(** The canonical opcode of a function, as [__init__] derives it. *)
Definition canonical (f : Function) : string :=
  replace "_" "-" (replace "__" "/" (__name__ f)).

(** The aliases that the decorated definitions of a module ask for. *)
Definition aliases (stmts : list (Decorator * Function)) : list string :=
  concat (map (fun s => match fst s with Called l => l | Bare => [] end)
              stmts).

End Notions.

(** ** What every handler inherits from its steps *)

(** [host_respects P]: every operation of the host has the property [P]. *)
Record host_respects `{Host} (P : forall A, M A -> Prop) : Prop := {
  on_SmaliValue : forall s, P _ (SmaliValue s);
  on_Type_class_name : forall d, P _ (Type_class_name d);
  on_vm_get_class : forall v d, P _ (vm_get_class v d);
  on_vm_call : forall v t i l, P _ (vm_call v t i l);
  on_SmaliClass_method : forall c m, P _ (SmaliClass_method c m);
  on_SmaliClass_field : forall c n, P _ (SmaliClass_field c n);
  on_SmaliObject_init : forall r, P _ (SmaliObject_init r);
  on_SmaliObject__getitem__ : forall r n, P _ (SmaliObject__getitem__ r n);
  on_SmaliObject__setitem__ :
    forall r n v, P _ (SmaliObject__setitem__ r n v);
  on_host_binop : forall i op a b, P _ (host_binop i op a b);
  on_host_compare : forall op a b, P _ (host_compare op a b);
  on_host_neg : forall a, P _ (host_neg a);
  on_host_float : forall a, P _ (host_float a);
  on_host_str : forall a, P _ (host_str a);
  on_host_id : forall a, P _ (host_id a);
  on_host_len : forall a, P _ (host_len a);
  on_host_getitem : forall c i, P _ (host_getitem c i);
  on_host_setitem : forall c i v, P _ (host_setitem c i v);
  on_host_append : forall c v, P _ (host_append c v)
}.

(** [respected P]: [P] holds of the operations of the host, of the reads
    and writes of the store that the handlers are made of (the frame
    attribute [error] apart), and of what [ret], [raise] and [bind] make
    of computations that have it. *)
Record respected `{Host} (P : forall A, M A -> Prop) : Prop := {
  on_host : host_respects P;
  on_ret : forall A (a : A), P A (ret a);
  on_raise : forall A e, P A (raise e);
  on_bind : forall A B (m : M A) (k : A -> M B),
      P A m -> (forall a, P B (k a)) -> P B (bind m k);
  on_self_frame : forall self, P _ (self_frame self);
  on_getitem : forall fr key, P _ (Frame__getitem__ fr key);
  on_setitem : forall fr key v, P _ (Frame__setitem__ fr key v);
  on_labels : forall fr, P _ (getattr fr labels);
  on_vm : forall fr, P _ (getattr fr vm);
  on_switch_data : forall fr, P _ (getattr fr switch_data);
  on_array_data : forall fr, P _ (getattr fr array_data);
  on_method_return : forall fr, P _ (getattr fr method_return);
  on_set_label : forall fr x, P _ (setattr fr (set_label x));
  on_set_pos : forall fr x, P _ (setattr fr (set_pos x));
  on_set_return_value : forall fr x, P _ (setattr fr (set_return_value x));
  on_set_finished : forall fr x, P _ (setattr fr (set_finished x));
  on_set_method_return : forall fr x, P _ (setattr fr (set_method_return x));
  on_load_list : forall r, P _ (load_list r);
  on_store_list : forall r l, P _ (store_list r l);
  on_new_list : forall l, P _ (new_list l);
  on_load_object : forall r, P _ (load_object r);
  on_SmaliObject_new : forall c, P _ (SmaliObject_new c);
  on_cell_value : forall r, P _ (cell_value r);
  on_set_cell_value : forall r v, P _ (set_cell_value r v)
}.

(** ** The error slot *)

(** The store with the error slot of frame [fr] overwritten by [e]. *)
Definition with_error (fr : ref) (e : Value) (w : World) : World :=
  set_frames (alter (set_error e) fr (frames w)) w.

(** [error_blind m]: [m] neither reads nor writes the error slot of any
    frame: overwriting a slot before [m] runs and overwriting it afterwards
    give the same result, the same exception and the same store. *)
Definition error_blind {A} (m : M A) : Prop :=
  forall fr e w, m (with_error fr e w) = map_world (with_error fr e) (m w).

(** ** The fields of an executor *)

(** [keeps_fields m]: [m] leaves the attributes [frame] and [args] of every
    executor as they are, whether it returns or raises. *)
Definition keeps_fields {A} (m : M A) : Prop :=
  forall w, handler_frame (world_of (m w)) = handler_frame w
            /\ handler_args (world_of (m w)) = handler_args w.

(** The store in which the action of an executor starts. *)
Definition started (self : Self) (frame : ref) (operands : list Operand)
    (w : World) : World :=
  mkWorld (frames w) (lists w) (objects w) (cells w)
          (<[self := frame]> (handler_frame w))
          (<[self := operands]> (handler_args w)).

(** * A host for the examples *)

(** The Dalvik mnemonics behind the names that the module imports from
    [smali.opcode]. *)
Definition dalvik_mnemonics : list (string * string) :=
  [
    ("ADD_DOUBLE", "add-double");
    ("ADD_DOUBLE_2ADDR", "add-double/2addr");
    ("ADD_FLOAT", "add-float");
    ("ADD_FLOAT_2ADDR", "add-float/2addr");
    ("ADD_LONG", "add-long");
    ("ADD_LONG_2ADDR", "add-long/2addr");
    ("AGET_BOOLEAN", "aget-boolean");
    ("AGET_BYTE", "aget-byte");
    ("AGET_CHAR", "aget-char");
    ("AGET_OBJECT", "aget-object");
    ("AGET_SHORT", "aget-short");
    ("AGET_WIDE", "aget-wide");
    ("AND_LONG", "and-long");
    ("AND_LONG_2ADDR", "and-long/2addr");
    ("APUT_BOOLEAN", "aput-boolean");
    ("APUT_BYTE", "aput-byte");
    ("APUT_CHAR", "aput-char");
    ("APUT_OBJECT", "aput-object");
    ("APUT_SHORT", "aput-short");
    ("APUT_WIDE", "aput-wide");
    ("CONST_16", "const/16");
    ("CONST_4", "const/4");
    ("CONST_CLASS", "const-class");
    ("CONST_STRING", "const-string");
    ("CONST_STRING_JUMBO", "const-string/jumbo");
    ("CONST_WIDE", "const-wide");
    ("CONST_WIDE_32", "const-wide/32");
    ("CONST_WIDE_HIGH16", "const-wide/high16");
    ("DIV_DOUBLE", "div-double");
    ("DIV_DOUBLE_2ADDR", "div-double/2addr");
    ("DIV_LONG_2ADDR", "div-long/2addr");
    ("GOTO_16", "goto/16");
    ("GOTO_32", "goto/32");
    ("IGET", "iget");
    ("IGET_BOOLEAN", "iget-boolean");
    ("IGET_BYTE", "iget-byte");
    ("IGET_CHAR", "iget-char");
    ("IGET_OBJECT_VOLATILE", "iget-object-volatile");
    ("IGET_SHORT", "iget-short");
    ("IGET_VOLATILE", "iget-volatile");
    ("IGET_WIDE", "iget-wide");
    ("INT_TO_DOUBLE", "int-to-double");
    ("INT_TO_SHORT", "int-to-short");
    ("INVOKE_DIRECT", "invoke-direct");
    ("INVOKE_STATIC", "invoke-static");
    ("INVOKE_VIRTUAL", "invoke-virtual");
    ("IPUT", "iput");
    ("IPUT_BOOLEAN", "iput-boolean");
    ("IPUT_BYTE", "iput-byte");
    ("IPUT_CHAR", "iput-char");
    ("IPUT_OBJECT_VOLATILE", "iput-object-volatile");
    ("IPUT_SHORT", "iput-short");
    ("IPUT_VOLATILE", "iput-volatile");
    ("IPUT_WIDE", "iput-wide");
    ("LONG_TO_INT", "long-to-int");
    ("MOVE_RESULT_OBJECT", "move-result-object");
    ("MUL_DOUBLE", "mul-double");
    ("MUL_DOUBLE_2ADDR", "mul-double/2addr");
    ("MUL_FLOAT", "mul-float");
    ("MUL_FLOAT_2ADDR", "mul-float/2addr");
    ("MUL_LONG", "mul-long");
    ("MUL_LONG_2ADDR", "mul-long/2addr");
    ("NEG_DOUBLE", "neg-double");
    ("NEG_FLOAT", "neg-float");
    ("NEG_LONG", "neg-long");
    ("OR_LONG", "or-long");
    ("OR_LONG_2ADDR", "or-long/2addr");
    ("REM_DOUBLE", "rem-double");
    ("REM_DOUBLE_2ADDR", "rem-double/2addr");
    ("REM_FLOAT", "rem-float");
    ("REM_FLOAT_2ADDR", "rem-float/2addr");
    ("REM_LONG", "rem-long");
    ("REM_LONG_2ADDR", "rem-long/2addr");
    ("RETURN", "return");
    ("RETURN_VOID_BARRIER", "return-void-barrier");
    ("RETURN_VOID_NO_BARRIER", "return-void-no-barrier");
    ("RETURN_WIDE", "return-wide");
    ("SGET", "sget");
    ("SGET_BOOLEAN", "sget-boolean");
    ("SGET_BYTE", "sget-byte");
    ("SGET_CHAR", "sget-char");
    ("SGET_OBJECT_VOLATILE", "sget-object-volatile");
    ("SGET_VOLATILE", "sget-volatile");
    ("SGET_WIDE", "sget-wide");
    ("SGET_WIDE_VOLATILE", "sget-wide-volatile");
    ("SHL_LONG", "shl-long");
    ("SHL_LONG_2ADDR", "shl-long/2addr");
    ("SHR_LONG", "shr-long");
    ("SHR_LONG_2ADDR", "shr-long/2addr");
    ("SPUT", "sput");
    ("SPUT_BOOLEAN", "sput-boolean");
    ("SPUT_BYTE", "sput-byte");
    ("SPUT_CHAR", "sput-char");
    ("SPUT_OBJECT_VOLATILE", "sput-object-volatile");
    ("SPUT_SHORT", "sput-short");
    ("SPUT_WIDE", "sput-wide");
    ("SPUT_WIDE_VOLATILE", "sput-wide-volatile");
    ("SUB_DOUBLE", "sub-double");
    ("SUB_DOUBLE_2ADDR", "sub-double/2addr");
    ("SUB_FLOAT", "sub-float");
    ("SUB_FLOAT_2ADDR", "sub-float/2addr");
    ("SUB_LONG", "sub-long");
    ("SUB_LONG_2ADDR", "sub-long/2addr");
    ("USHR_INT", "ushr-int");
    ("USHR_INT_2ADDR", "ushr-int/2addr");
    ("USHR_LONG", "ushr-long");
    ("USHR_LONG_2ADDR", "ushr-long/2addr");
    ("XOR_LONG", "xor-long");
    ("XOR_LONG_2ADDR", "xor-long/2addr")
  ].

Definition dalvik_opcode (n : string) : string :=
  match list_find (fun p => String.eqb (fst p) n) dalvik_mnemonics with
  | Some (_, p) => snd p
  | None => EmptyString
  end.

(** Modelled from the spec: the literal parser of [smali], on decimal
    integer literals; any other text is refused. *)
Definition digit (c : Ascii.ascii) : option Z :=
  let n := Z.of_nat (Ascii.nat_of_ascii c) in
  if (48 <=? n) && (n <=? 57) then Some (n - 48) else None.

Fixpoint parse_digits (acc : Z) (s : string) : option Z :=
  match s with
  | EmptyString => Some acc
  | String c s' =>
      match digit c with
      | Some d => parse_digits (10 * acc + d) s'
      | None => None
      end
  end.

Definition parse_int (s : string) : option Z :=
  match s with
  | EmptyString => None
  | String c s' =>
      if Ascii.eqb c (Ascii.ascii_of_nat 45) then
        match s' with
        | EmptyString => None
        | _ => Z.opp <$> parse_digits 0 s'
        end
      else parse_digits 0 s
  end.

(** A host with a table of classes, a table of methods by class name and
    signature, and calls that answer with a value fixed by the target and
    the arguments.  Its host language knows integers and lists only. *)
Definition table_host (classes : gmap string SmaliClass)
    (methods : gmap (string * string) ref)
    (answer : ref -> list Value -> Value) : Host := {|
  smali_opcode := dalvik_opcode;
  SmaliValue s :=
    match parse_int s with
    | Some z => ret (VInt z)
    | None => raise (HostError "ValueError")
    end;
  Type_class_name d := ret d;
  vm_get_class _ d :=
    match classes !! d with
    | Some c => ret c
    | None => raise (ExecutionError "NoSuchClassError" [VStr d])
    end;
  vm_call _ target _ values := ret (answer target values);
  SmaliClass_method c m :=
    match methods !! (name c, m) with
    | Some t => ret t
    | None => raise (ExecutionError "NoSuchMethodError" [VStr m])
    end;
  SmaliClass_field c n := raise (ExecutionError "NoSuchFieldError" [VStr n]);
  SmaliObject_init _ := ret tt;
  SmaliObject__getitem__ r n := fun w =>
    match objects w !! r with
    | Some o =>
        match fields o !! n with
        | Some v => Ok v w
        | None => Raise (HostError "KeyError") w
        end
    | None => Raise (HostError "ReferenceError") w
    end;
  SmaliObject__setitem__ r n v := fun w =>
    match objects w !! r with
    | Some o =>
        Ok tt (set_objects
                 (<[r := mkSmaliObject (smali_class o) (<[n := v]> (fields o))]>
                    (objects w)) w)
    | None => Raise (HostError "ReferenceError") w
    end;
  host_binop _ _ _ _ := raise (HostError "TypeError");
  host_compare op _ _ :=
    match op with
    | CmpEq => ret false
    | CmpNe => ret true
    | _ => raise (HostError "TypeError")
    end;
  host_neg _ := raise (HostError "TypeError");
  host_float _ := raise (HostError "TypeError");
  host_str _ := raise (HostError "TypeError");
  host_id _ := raise (HostError "TypeError");
  host_len _ := raise (HostError "TypeError");
  host_getitem _ _ := raise (HostError "TypeError");
  host_setitem _ _ _ := raise (HostError "TypeError");
  host_append _ _ := raise (HostError "TypeError")
|}.

(** A frame with the given registers, labels and switch tables, at
    position 0, and a store with that frame alone, held by [self]. *)
Definition frame_of (regs : gmap string Value) (lbls : gmap string Z)
    (tables : gmap string SwitchTable) : Frame :=
  mkFrame regs lbls None 0 tables ∅ VNone VNone VNone false 0%nat.

Definition world_of_frame (self : Self) (f : Frame) : World :=
  mkWorld {[ 1%nat := f ]} ∅ ∅ ∅ {[ self := 1%nat ]} ∅.

(** ** Hosts, frames and stores of the examples *)

Definition plain_host : Host := table_host ∅ ∅ (fun _ _ => VNone).

Definition branch_frame : Frame :=
  frame_of {[ "v0" := VInt 1; "v1" := VInt 2 ]} {[ "L1" := 5 ]} ∅.

Definition branch_world : World := world_of_frame "if-le" branch_frame.

Definition switch_frame (v : Z) : Frame :=
  frame_of {[ "v0" := VInt v ]} {[ "A" := 3; "B" := 8 ]}
           {[ "sw" := PackedTable "10" ["A"; "B"] ]}.

Definition literal_frame (a : Z) : Frame := frame_of {[ "v1" := VInt a ]} ∅ ∅.

(** A frame whose register [v1] holds the list [0] and whose register [v2]
    holds the index, and a store where that list has the given elements. *)
Definition array_frame (i : Z) : Frame :=
  frame_of {[ "v0" := VInt 7; "v1" := VList 0%nat; "v2" := VInt i ]} ∅ ∅.

Definition array_world (self : Self) (i : Z) (l : list Value) : World :=
  put_list 0%nat l (world_of_frame self (array_frame i)).

Definition five : list Value := [VInt 1; VInt 2; VInt 3; VInt 4; VInt 5].

Definition Boolean_class : SmaliClass :=
  mkSmaliClass "Boolean" "Ljava/lang/Object;".

Definition Boolean_host : Host :=
  table_host {[ "Ljava/lang/Boolean;" := Boolean_class ]} ∅ (fun _ _ => VNone).

(** The register [v0] of frame 1 after [m] has run on an empty frame. *)
Definition v0_after (m : M unit) : option Value :=
  (registers <$> frames (world_of (m (world_of_frame "new-instance"
                                        (frame_of ∅ ∅ ∅)))) !! 1%nat)
  ≫= (.!! "v0").

Definition Base_class : SmaliClass := mkSmaliClass "LBase;" "Ljava/lang/Object;".
Definition Child_class : SmaliClass := mkSmaliClass "LChild;" "LBase;".

(** Both classes define [run()V]: target 1 in [LBase;], target 2 in
    [LChild;].  A call answers with the number of its target. *)
Definition family_host : Host :=
  table_host {[ "LBase;" := Base_class; "LChild;" := Child_class ]}
             {[ ("LBase;", "run()V") := 1%nat; ("LChild;", "run()V") := 2%nat ]}
             (fun target _ => VInt (Z.of_nat target)).

Definition child_frame : Frame := frame_of {[ "p0" := VObject 0%nat ]} ∅ ∅.

Definition child_world : World :=
  set_objects {[ 0%nat := mkSmaliObject Child_class ∅ ]}
              (world_of_frame "invoke" child_frame).

Definition throw_frame : Frame := frame_of {[ "v0" := VStr "boom" ]} ∅ ∅.

(** The host [h] with another [vm.call]. *)
Definition with_vm_call (h : Host)
    (c : ref -> ref -> Value -> list Value -> M Value) : Host := {|
  smali_opcode := @smali_opcode h;
  SmaliValue := @SmaliValue h;
  Type_class_name := @Type_class_name h;
  vm_get_class := @vm_get_class h;
  vm_call := c;
  SmaliClass_method := @SmaliClass_method h;
  SmaliClass_field := @SmaliClass_field h;
  SmaliObject_init := @SmaliObject_init h;
  SmaliObject__getitem__ := @SmaliObject__getitem__ h;
  SmaliObject__setitem__ := @SmaliObject__setitem__ h;
  host_binop := @host_binop h;
  host_compare := @host_compare h;
  host_neg := @host_neg h;
  host_float := @host_float h;
  host_str := @host_str h;
  host_id := @host_id h;
  host_len := @host_len h;
  host_getitem := @host_getitem h;
  host_setitem := @host_setitem h;
  host_append := @host_append h
|}.

Definition Main_class : SmaliClass := mkSmaliClass "LMain;" "Ljava/lang/Object;".
Definition Util_class : SmaliClass := mkSmaliClass "LUtil;" "Ljava/lang/Object;".

(** Two static methods: [LMain;->run()I] is target 1 and answers 7,
    [LUtil;->helper()I] is target 2 and answers 42.  In [flat_host] a call
    answers at once. *)
Definition flat_host : Host :=
  table_host {[ "LMain;" := Main_class; "LUtil;" := Util_class ]}
             {[ ("LMain;", "run()I") := 1%nat;
                ("LUtil;", "helper()I") := 2%nat ]}
             (fun target _ => match target with
                              | 1%nat => VInt 7
                              | _ => VInt 42
                              end).

Definition outer_operands : list Operand :=
  [Str "static"; Regs []; Str "LMain;"; Str "run()I"].

Definition inner_operands : list Operand :=
  [Str "static"; Regs []; Str "LUtil;"; Str "helper()I"].

(** In [nested_host] the method [run] calls [helper] before it answers: its
    call dispatches [invoke-static] on a frame of its own, frame 2. *)
Definition nested_host : Host :=
  with_vm_call flat_host
    (fun _ target _ _ =>
       match target with
       | 1%nat =>
           dispatch (H := flat_host) 2%nat "invoke-static" inner_operands ;;
           ret (VInt 7)
       | _ => ret (VInt 42)
       end).

Definition two_frames : World :=
  mkWorld {[ 1%nat := frame_of ∅ ∅ ∅; 2%nat := frame_of ∅ ∅ ∅ ]} ∅ ∅ ∅ ∅ ∅.

(** What [method_return] of frame [fr] holds after [m]. *)
Definition method_return_after (m : M unit) (fr : ref) : option Value :=
  method_return <$> frames (world_of (m two_frames)) !! fr.







(** * Further notions *)

(** ** Width conversions *)

(** The conversions that mask, each with the number of bits it keeps. *)
Inductive Width : Type := to_long | to_int | to_char.

Definition width_handler `{Host} (c : Width)
  : Self -> string -> string -> M unit :=
  match c with
  | to_long => int_to_long
  | to_int => int_to_int
  | to_char => int_to_char
  end.

Definition width_bits (c : Width) : Z :=
  match c with
  | to_long => 64
  | to_int => 32
  | to_char => 16
  end.

(** ** Integer operators *)

(** Floor division and the remainder with the sign of the divisor, which
    raise on a zero divisor; an operator that always has a result. *)
Definition floor_div (x y : Z) : Exception + Z :=
  if y =? 0 then inl (HostError "ZeroDivisionError") else inr (x / y).

Definition floor_mod (x y : Z) : Exception + Z :=
  if y =? 0 then inl (HostError "ZeroDivisionError") else inr (x mod y).

Definition total (f : Z -> Z -> Z) (x y : Z) : Exception + Z := inr (f x y).

(** The handlers of the lit16 family, each with its operator. *)
Definition lit16_handlers `{Host}
  : list ((Self -> string -> string -> string -> M unit)
          * (Z -> Z -> Exception + Z)) :=
  [(div_int__lit16, floor_div); (add_int__lit16, total Z.add);
   (sub_int__lit16, total Z.sub); (mul_int__lit16, total Z.mul);
   (rem_int__lit16, floor_mod); (and_int__lit16, total Z.land);
   (or_int__lit16, total Z.lor); (xor_int__lit16, total Z.lxor);
   (shl_int__lit16, total Z.shiftl); (shr_int__lit16, total Z.shiftr)].

(** The 2addr handlers on integers, each with the handler of the same
    operator on three registers. *)
Definition two_address_handlers `{Host}
  : list ((Self -> string -> string -> M unit)
          * (Self -> string -> string -> string -> M unit)) :=
  [(or_int__2addr, or_int); (and_int__2addr, and_int);
   (sub_int__2addr, sub_int); (xor_int__2addr, xor_int);
   (add_int__2addr, add_int); (div_int__2addr, div_int);
   (shl_int__2addr, shl_int); (shr_int__2addr, shr_int);
   (rem_int__2addr, rem_int); (mul_int__2addr, mul_int)].

(** The store with register [key] of frame [fr], which is [f], set to
    [v]. *)
Definition put_reg (fr : ref) (f : Frame) (key : string) (v : Value)
    (w : World) : World :=
  put_frame fr (set_registers (<[key := v]> (registers f)) f) w.

(** A frame whose registers [v0] and [v1] hold two integers. *)
Definition pair_frame (a b : Z) : Frame :=
  frame_of {[ "v0" := VInt a; "v1" := VInt b ]} ∅ ∅.

(** ** The names of the registry *)

(** The canonical opcodes of the definitions whose decorator is called,
    and every name that the definitions of a module ask for. *)
Definition called_names (stmts : list (Decorator * Function)) : list string :=
  concat (map (fun s => match fst s with
                        | Called _ => [canonical (snd s)]
                        | Bare => []
                        end) stmts).

Definition registered_names (stmts : list (Decorator * Function))
  : list string :=
  aliases stmts ++ called_names stmts.

(** ** Opposite branches *)

(** The conditional branches that come in opposite pairs, each pair with
    the test of its first handler on integers. *)
Definition opposite_register_branches `{Host}
  : list ((Self -> string -> string -> string -> M unit)
          * (Self -> string -> string -> string -> M unit)
          * (Z -> Z -> bool)) :=
  [(if_lt, if_ge, Z.ltb); (if_le, if_gt, Z.leb)].

Definition opposite_zero_branches `{Host}
  : list ((Self -> string -> string -> M unit)
          * (Self -> string -> string -> M unit)
          * (Z -> bool)) :=
  [(if_ltz, if_gez, fun a => a <? 0); (if_lez, if_gtz, fun a => a <=? 0);
   (if_eqz, if_nez, fun a => a =? 0)].

(** ** Frames and hosts of further examples *)

(** A frame whose register [v0] holds [v], with a sparse table [sw] of two
    branches and their labels. *)
Definition sparse_frame (v : Z) : Frame :=
  frame_of {[ "v0" := VInt v ]} {[ "A" := 3; "B" := 8 ]}
           {[ "sw" := SparseTable [("10", "A"); ("20", "B")] ]}.

(** The host [h] with static fields: a table of cells by class name and
    field name. *)
Definition with_fields (h : Host) (cells_of : gmap (string * string) ref)
  : Host := {|
  smali_opcode := @smali_opcode h;
  SmaliValue := @SmaliValue h;
  Type_class_name := @Type_class_name h;
  vm_get_class := @vm_get_class h;
  vm_call := @vm_call h;
  SmaliClass_method := @SmaliClass_method h;
  SmaliClass_field c n :=
    match cells_of !! (name c, n) with
    | Some r => ret r
    | None => raise (ExecutionError "NoSuchFieldError" [VStr n])
    end;
  SmaliObject_init := @SmaliObject_init h;
  SmaliObject__getitem__ := @SmaliObject__getitem__ h;
  SmaliObject__setitem__ := @SmaliObject__setitem__ h;
  host_binop := @host_binop h;
  host_compare := @host_compare h;
  host_neg := @host_neg h;
  host_float := @host_float h;
  host_str := @host_str h;
  host_id := @host_id h;
  host_len := @host_len h;
  host_getitem := @host_getitem h;
  host_setitem := @host_setitem h;
  host_append := @host_append h
|}.

Definition Conf_class : SmaliClass :=
  mkSmaliClass "LConf;" "Ljava/lang/Object;".

(** [LConf;] has the static field [limit], whose cell is 0. *)
Definition Conf_host : Host :=
  with_fields (table_host {[ "LConf;" := Conf_class ]} ∅ (fun _ _ => VNone))
              {[ ("LConf;", "limit") := 0%nat ]}.

(** ** New arrays *)

(** The element that [new_array] fills with, by the class name of the
    descriptor: the tests are substring tests. *)
Definition array_default (cls : string) : Value :=
  if str_in cls "BSIJ" then VInt 0
  else if str_in cls "FD" then VFloat (S754_zero false)
  else VNone.

(** A frame whose label [data] has the list [0] as its array data, with
    the register [v1] to store from and the index [v2]; and a store where
    that list is [1, 2]. *)
Definition data_frame : Frame :=
  mkFrame {[ "v1" := VInt 9; "v2" := VInt 0 ]} ∅ None 0 ∅
          {[ "data" := VList 0%nat ]} VNone VNone VNone false 0%nat.

Definition data_world : World :=
  put_list 0%nat [VInt 1; VInt 2] (world_of_frame "fill-array-data" data_frame).

(** ** The native classes *)

(** [x.getClass().getSimpleName()], as four instructions: the class of the
    instance in [x] goes through [tmp], its name ends in [out]. *)
Definition simple_name_of `{Host} (self : Self) (x tmp out : string)
  : M unit :=
  invoke self "virtual" [x] "Ljava/lang/Object;"
         "getClass()Ljava/lang/Class;" ;;
  move_result self tmp ;;
  invoke self "virtual" [tmp] "Ljava/lang/Class;"
         "getSimpleName()Ljava/lang/String;" ;;
  move_result self out.

(** ** The code of a frame *)

(** What a frame has of the method it runs: the positions of the labels,
    the switch tables, the array data and the machine. *)
Definition code_of (f : Frame)
  : gmap string Z * gmap string SwitchTable * gmap string Value * ref :=
  (labels f, switch_data f, array_data f, vm f).

(** [keeps_code m]: [m] leaves the frames of the store in place, none
    added and none dropped, each with the code it had, whether it returns
    or raises. *)
Definition keeps_code {A} (m : M A) : Prop :=
  forall w, code_of <$> frames (world_of (m w)) = code_of <$> frames w.

(** ** A method of four instructions *)

(** [const x, a; const y, b; add-int x, x, y; return x] *)
Definition sum_method `{Host} (self : Self) (x y a b : string) : M unit :=
  const self x a ;;
  const self y b ;;
  add_int self x x y ;;
  return_object self x.

(** ** What the store keeps *)

(** [grows w w']: everything that [w] has, [w'] has: the lists, instances
    and cells of [w] are ones of [w'], and every frame of [w] is a frame of
    [w'] in which every register of the frame is still set. *)
Definition grows (w w' : World) : Prop :=
  dom (lists w) ⊆ dom (lists w')
  /\ dom (objects w) ⊆ dom (objects w')
  /\ dom (cells w) ⊆ dom (cells w')
  /\ forall fr f, frames w !! fr = Some f ->
       exists f', frames w' !! fr = Some f'
                  /\ dom (registers f) ⊆ dom (registers f').

(** [loses_nothing m]: the store after [m] has everything the store before
    had, whether [m] returns or raises. *)
Definition loses_nothing {A} (m : M A) : Prop :=
  forall w, grows w (world_of (m w)).

(** * Properties *)

(** ** Running a handler on its frame *)

Lemma bind_ok {A B} (m : M A) (k : A -> M B) w a w' :
  m w = Ok a w' -> bind m k w = k a w'.
Proof. intros E. unfold bind. now rewrite E. Qed.

Lemma put_frame_put_frame r f g w :
  put_frame r f (put_frame r g w) = put_frame r f w.
Proof.
  unfold put_frame, set_frames. simpl. now rewrite insert_insert_eq.
Qed.

Section OnFrame.
Context `{Host}.
Variables (self : Self) (w : World) (fr : ref) (f : Frame).
Hypothesis Hself : handler_frame w !! self = Some fr.
Hypothesis Hframe : frames w !! fr = Some f.

Lemma reg_on_frame key :
  reg self key w = match registers f !! key with
                   | Some v => Ok v w
                   | None => Raise RegisterFault w
                   end.
Proof.
  unfold reg, self_frame, Frame__getitem__, load_frame, bind.
  rewrite Hself, Hframe. now destruct (registers f !! key).
Qed.

Lemma reg_value key v : registers f !! key = Some v -> reg self key w = Ok v w.
Proof. intros E. now rewrite reg_on_frame, E. Qed.

Lemma frame_attr_on_frame {A} (attr : Frame -> A) :
  frame_attr self attr w = Ok (attr f) w.
Proof.
  unfold frame_attr, self_frame, getattr, load_frame, bind.
  now rewrite Hself, Hframe.
Qed.

Lemma set_frame_attr_on_frame upd :
  set_frame_attr self upd w = Ok tt (put_frame fr (upd f) w).
Proof.
  unfold set_frame_attr, self_frame, setattr, load_frame, store_frame, bind.
  now rewrite Hself, Hframe.
Qed.

Lemma set_reg_on_frame key v :
  set_reg self key v w
  = Ok tt (put_frame fr (set_registers (<[key := v]> (registers f)) f) w).
Proof.
  unfold set_reg, self_frame, Frame__setitem__, load_frame, store_frame, bind.
  now rewrite Hself, Hframe.
Qed.

End OnFrame.

Lemma frames_put_frame r f w : frames (put_frame r f w) !! r = Some f.
Proof. unfold put_frame. simpl. apply lookup_insert_eq. Qed.

(** [goto] faults on a label that the table of the frame does not have, and
    moves the frame to the position of one it has. *)
Lemma goto_on_frame self w fr f lbl :
  handler_frame w !! self = Some fr ->
  frames w !! fr = Some f ->
  goto self lbl w
  = match labels f !! lbl with
    | None => Raise (ExecutionError "NoSuchLabelError" [VStr lbl]) w
    | Some p => Ok tt (put_frame fr (set_pos p (set_label (Some lbl) f)) w)
    end.
Proof.
  intros Hself Hframe. unfold goto.
  rewrite (bind_ok _ _ _ _ _ (frame_attr_on_frame _ _ _ _ Hself Hframe labels)).
  destruct (labels f !! lbl) as [p|] eqn:E; [|reflexivity].
  rewrite (bind_ok _ _ _ _ _ (set_frame_attr_on_frame _ _ _ _ Hself Hframe _)).
  assert (Hself' : handler_frame (put_frame fr (set_label (Some lbl) f) w)
                   !! self = Some fr) by exact Hself.
  pose proof (frames_put_frame fr (set_label (Some lbl) f) w) as Hframe'.
  rewrite (bind_ok _ _ _ _ _
             (frame_attr_on_frame _ _ _ _ Hself' Hframe' labels)).
  simpl. rewrite E.
  rewrite (set_frame_attr_on_frame _ _ _ _ Hself' Hframe').
  now rewrite put_frame_put_frame.
Qed.

(** ** Jumps *)

Section Jumps.
Context `{Host}.

Lemma item_in_range {A} (l : list A) (n : Z) (x : A) w :
  0 <= n -> l !! Z.to_nat n = Some x -> item l (VInt n) w = Ok x w.
Proof.
  intros Hn Hx. unfold item, list_index. simpl.
  pose proof (lookup_lt_Some _ _ _ Hx) as Hlt.
  destruct (0 <=? n) eqn:E0; [|lia].
  destruct (n <? Z.of_nat (length l)) eqn:E1; [|lia].
  now rewrite Hx.
Qed.

Lemma sparse_scan_first_match self value before key lbl after w :
  Forall (fun kl => exists k, SmaliValue (fst kl) w = Ok k w
                              /\ py_compare CmpEq k value w = Ok false w)
         before ->
  (exists k, SmaliValue key w = Ok k w
             /\ py_compare CmpEq k value w = Ok true w) ->
  sparse_scan self value (before ++ (key, lbl) :: after) w = goto self lbl w.
Proof.
  intros Hbefore [k [Hk Hsame]].
  induction Hbefore as [|[key' lbl'] rest [k' [Hk' Hdiff]] _ IH]; simpl.
  - rewrite (bind_ok _ _ _ _ _ Hk). now rewrite (bind_ok _ _ _ _ _ Hsame).
  - simpl in Hk'. rewrite (bind_ok _ _ _ _ _ Hk').
    rewrite (bind_ok _ _ _ _ _ Hdiff). exact IH.
Qed.

(** What an operation that takes a jump to [lbl] does is what [goto] does
    at the moment of the jump. *)
Lemma takes_jump_goto self w m lbl w1 :
  takes_jump self w m lbl w1 -> m w = goto self lbl w1.
Proof.
  intros J.
  destruct J as
    [ lbl
    | h op left right lbl a b w1 Hin Ha Hb Hc
    | h op left lbl a w1 Hin Ha Hc
    | register data fr f low cases v lo lbl w1 Hs Hf Ht Hv Hlo Hge Hcase
    | register data fr f before key lbl after value Hs Hf Ht Hv Hbefore Hkey ].
  - reflexivity.
  - simpl in Hin.
    repeat (destruct Hin as [Hin|Hin]; [injection Hin as <- <-|]);
      try contradiction;
      cbv delta [if_le if_ge if_gt if_lt if_ne]; cbv beta;
      rewrite (bind_ok _ _ _ _ _ Ha), (bind_ok _ _ _ _ _ Hb),
        (bind_ok _ _ _ _ _ Hc); reflexivity.
  - simpl in Hin.
    repeat (destruct Hin as [Hin|Hin]; [injection Hin as <- <-|]);
      try contradiction;
      cbv delta [if_gez if_ltz if_gtz if_lez if_nez if_eqz]; cbv beta;
      rewrite (bind_ok _ _ _ _ _ Ha), (bind_ok _ _ _ _ _ Hc); reflexivity.
  - unfold packed_switch.
    rewrite (bind_ok _ _ _ _ _ (frame_attr_on_frame _ _ _ _ Hs Hf _)), Ht.
    unfold unpack_table. rewrite (bind_ok _ _ _ _ _ (eq_refl : ret _ w = _)).
    simpl. rewrite (bind_ok _ _ _ _ _ (reg_value _ _ _ _ Hs Hf _ _ Hv)).
    rewrite (bind_ok _ _ _ _ _ Hlo).
    pose proof (lookup_lt_Some _ _ _ Hcase) as Hlt.
    unfold py_or, py_compare, py_binop, bind, ret. simpl.
    destruct (v - lo <? 0) eqn:E0; [lia|].
    destruct (v - lo >=? Z.of_nat (length cases)) eqn:E1; [lia|].
    now rewrite (item_in_range _ _ _ _ Hge Hcase).
  - unfold sparse_switch.
    rewrite (bind_ok _ _ _ _ _ (frame_attr_on_frame _ _ _ _ Hs Hf _)), Ht.
    rewrite (bind_ok _ _ _ _ _ (reg_value _ _ _ _ Hs Hf _ _ Hv)).
    now apply sparse_scan_first_match.
Qed.

End Jumps.

(** C5.  Every operation that performs a jump ([goto], a conditional branch
    whose test is true, a switch branch that is taken) fails with
    [NoSuchLabelError] when the label is absent from the label table of the
    frame; when the label is present, the position of the frame becomes the
    entry of the label in the table (and the frame notes the label). *)
Theorem jump_to_label `{Host} self w m lbl w1 fr f :
  takes_jump self w m lbl w1 ->
  handler_frame w1 !! self = Some fr ->
  frames w1 !! fr = Some f ->
  (labels f !! lbl = None ->
   m w = Raise (ExecutionError "NoSuchLabelError" [VStr lbl]) w1)
  /\ (forall p, labels f !! lbl = Some p ->
      m w = Ok tt (put_frame fr (set_pos p (set_label (Some lbl) f)) w1)
      /\ pos (set_pos p (set_label (Some lbl) f)) = p).
Proof.
  intros J Hs Hf. rewrite (takes_jump_goto _ _ _ _ _ J).
  rewrite (goto_on_frame _ _ _ _ lbl Hs Hf).
  split.
  - intros E. now rewrite E.
  - intros p E. now rewrite E.
Qed.

Lemma jump_to_label_witness :
  takes_jump (H := plain_host) "if-le" branch_world
    (if_le (H := plain_host) "if-le" "v0" "v1" "L1") "L1" branch_world
  /\ takes_jump (H := plain_host) "if-le" branch_world
       (if_le (H := plain_host) "if-le" "v0" "v1" "L9") "L9" branch_world
  /\ if_le (H := plain_host) "if-le" "v0" "v1" "L1" branch_world
     = Ok tt (put_frame 1%nat
                (set_pos 5 (set_label (Some "L1") branch_frame)) branch_world)
  /\ if_le (H := plain_host) "if-le" "v0" "v1" "L9" branch_world
     = Raise (ExecutionError "NoSuchLabelError" [VStr "L9"]) branch_world.
Proof.
  assert (J : forall lbl,
             takes_jump (H := plain_host) "if-le" branch_world
               (if_le (H := plain_host) "if-le" "v0" "v1" lbl) lbl
               branch_world).
  { intros lbl.
    apply (jump_register_branch (H := plain_host) "if-le" branch_world
             if_le CmpLe "v0" "v1" lbl (VInt 1) (VInt 2));
      [simpl; auto | reflexivity | reflexivity | reflexivity]. }
  split; [apply J|]. split; [apply J|]. split.
  - apply (jump_to_label (H := plain_host) "if-le" branch_world _ "L1"
             branch_world 1%nat branch_frame (J "L1")
             eq_refl eq_refl). reflexivity.
  - apply (jump_to_label (H := plain_host) "if-le" branch_world _ "L9"
             branch_world 1%nat branch_frame (J "L9")
             eq_refl eq_refl). reflexivity.
Defined.

(** C6.  The index of a packed switch is the value of the register minus the
    low value of the table.  With the index outside [0, number of branch
    labels) the handler does nothing: the store, and so the position and
    every other part of the frame, is as before, and nothing is raised.
    With the index within, the handler does what [goto] does on
    [cases[index]]: the same fault on an unknown label, the same new
    position. *)
Theorem packed_switch_index `{Host} self w fr f register data low cases v lo :
  handler_frame w !! self = Some fr ->
  frames w !! fr = Some f ->
  switch_data f !! data = Some (PackedTable low cases) ->
  registers f !! register = Some (VInt v) ->
  SmaliValue low w = Ok (VInt lo) w ->
  (v - lo < 0 \/ Z.of_nat (length cases) <= v - lo ->
   packed_switch self register data w = Ok tt w)
  /\ (0 <= v - lo < Z.of_nat (length cases) ->
      exists lbl, cases !! Z.to_nat (v - lo) = Some lbl
                  /\ packed_switch self register data w = goto self lbl w).
Proof.
  intros Hs Hf Ht Hv Hlo. split.
  - intros Hout. unfold packed_switch.
    rewrite (bind_ok _ _ _ _ _ (frame_attr_on_frame _ _ _ _ Hs Hf _)), Ht.
    unfold unpack_table. rewrite (bind_ok _ _ _ _ _ (eq_refl : ret _ w = _)).
    simpl. rewrite (bind_ok _ _ _ _ _ (reg_value _ _ _ _ Hs Hf _ _ Hv)).
    rewrite (bind_ok _ _ _ _ _ Hlo).
    unfold py_or, py_compare, py_binop, bind, ret. simpl.
    destruct (v - lo <? 0) eqn:E0; [reflexivity|].
    destruct (v - lo >=? Z.of_nat (length cases)) eqn:E1; [reflexivity|lia].
  - intros [Hge Hlt].
    destruct (lookup_lt_is_Some_2 cases (Z.to_nat (v - lo))) as [lbl Hcase];
      [lia|].
    exists lbl. split; [exact Hcase|].
    apply takes_jump_goto.
    now apply (jump_packed_switch self w register data fr f low cases v lo).
Qed.

Lemma packed_switch_index_witness :
  SmaliValue (Host := plain_host) "10"
    (world_of_frame "packed-switch" (switch_frame 11))
  = Ok (VInt 10) (world_of_frame "packed-switch" (switch_frame 11))
  /\ (exists lbl,
        ["A"; "B"] !! Z.to_nat (11 - 10) = Some lbl
        /\ packed_switch (H := plain_host) "packed-switch" "v0" "sw"
             (world_of_frame "packed-switch" (switch_frame 11))
           = goto "packed-switch" lbl
               (world_of_frame "packed-switch" (switch_frame 11)))
  /\ packed_switch (H := plain_host) "packed-switch" "v0" "sw"
       (world_of_frame "packed-switch" (switch_frame 12))
     = Ok tt (world_of_frame "packed-switch" (switch_frame 12)).
Proof.
  split; [reflexivity|]. split.
  - apply (packed_switch_index (H := plain_host) "packed-switch"
             (world_of_frame "packed-switch" (switch_frame 11)) 1%nat
             (switch_frame 11) "v0" "sw" "10" ["A"; "B"] 11 10
             eq_refl eq_refl eq_refl eq_refl eq_refl).
    simpl. lia.
  - apply (packed_switch_index (H := plain_host) "packed-switch"
             (world_of_frame "packed-switch" (switch_frame 12)) 1%nat
             (switch_frame 12) "v0" "sw" "10" ["A"; "B"] 12 10
             eq_refl eq_refl eq_refl eq_refl eq_refl).
    simpl. lia.
Defined.

(** ** Literal operands *)

Section Literals.
Context `{Host}.

Lemma mask8 n : Z.land n 0xFF = n mod 256 /\ 0 <= Z.land n 0xFF < 256.
Proof.
  assert (E : Z.land n 0xFF = n mod 256).
  { change 0xFF with (Z.ones 8). rewrite Z.land_ones by lia. reflexivity. }
  split; [exact E|]. rewrite E. apply Z.mod_pos_bound. lia.
Qed.

Lemma lit8_run self w fr f o dest left right a n :
  handler_frame w !! self = Some fr ->
  frames w !! fr = Some f ->
  registers f !! left = Some (VInt a) ->
  SmaliValue right w = Ok (VInt n) w ->
  lit8_handler o self dest left right w
  = match lit8_operator o a (Z.land n 0xFF) with
    | inr r =>
        Ok tt (put_frame fr
                 (set_registers (<[dest := VInt r]> (registers f)) f) w)
    | inl e => Raise e w
    end.
Proof.
  intros Hs Hf Ha Hn.
  pose proof (reg_value _ _ _ _ Hs Hf _ _ Ha) as Hleft.
  destruct (mask8 n) as [_ [Hlo _]].
  destruct o; simpl;
    cbv delta [div_int__lit8 add_int__lit8 sub_int__lit8 mul_int__lit8
               rem_int__lit8 and_int__lit8 or_int__lit8 xor_int__lit8
               shl_int__lit8 shr_int__lit8 rsub_int__lit8 literal];
    cbv beta;
    repeat first [ rewrite (bind_ok _ _ _ _ _ Hleft)
                 | rewrite (bind_ok _ _ _ _ _ Hn) ];
    unfold py_binop at 1; simpl;
    rewrite (bind_ok _ _ _ _ _ (eq_refl : ret _ w = _));
    repeat first [ rewrite (bind_ok _ _ _ _ _ Hleft)
                 | rewrite (bind_ok _ _ _ _ _ Hn) ];
    unfold py_binop; simpl;
    try (destruct (Z.land n 255 =? 0); [reflexivity|]);
    try (destruct (Z.land n 255 <? 0) eqn:E; [lia|]);
    rewrite (bind_ok _ _ _ _ _ (eq_refl : ret _ w = _));
    apply (set_reg_on_frame _ _ _ _ Hs Hf).
Qed.

(** C8.  Every handler of the lit8 family parses the text of its literal
    operand and masks it to 8 unsigned bits before it applies its operator,
    whatever the sign written in the literal: with the literal parsed to
    [n], the operand is [n & 0xFF], which is [n mod 256] and lies in
    [0, 256).  With the literal [-1], [and-int/lit8] stores [left & 0xFF];
    [rsub-int/lit8] stores the masked literal minus [left], so 7 for the
    literal 10 and [left = 3]. *)
Theorem lit8_literal_is_masked self w fr f dest left right a n :
  handler_frame w !! self = Some fr ->
  frames w !! fr = Some f ->
  registers f !! left = Some (VInt a) ->
  SmaliValue right w = Ok (VInt n) w ->
  (Z.land n 0xFF = n mod 256 /\ 0 <= Z.land n 0xFF < 256)
  /\ (forall o,
        lit8_handler o self dest left right w
        = match lit8_operator o a (Z.land n 0xFF) with
          | inr r =>
              Ok tt (put_frame fr
                       (set_registers (<[dest := VInt r]> (registers f)) f)
                       w)
          | inl e => Raise e w
          end)
  /\ (n = -1 ->
      and_int__lit8 self dest left right w
      = Ok tt (put_frame fr
                 (set_registers (<[dest := VInt (Z.land a 0xFF)]>
                                   (registers f)) f) w))
  /\ (n = 10 -> a = 3 ->
      rsub_int__lit8 self dest left right w
      = Ok tt (put_frame fr
                 (set_registers (<[dest := VInt 7]> (registers f)) f) w)).
Proof.
  intros Hs Hf Ha Hn. split; [apply mask8|]. split; [|split].
  - intros o. now apply lit8_run.
  - intros ->. apply (lit8_run self w fr f lit8_and dest left right a (-1));
      assumption.
  - intros -> ->.
    apply (lit8_run self w fr f lit8_rsub dest left right 3 10); assumption.
Qed.

End Literals.

Lemma lit8_literal_is_masked_witness :
  SmaliValue (Host := plain_host) "-1"
    (world_of_frame "and-int/lit8" (literal_frame 0x1234))
  = Ok (VInt (-1)) (world_of_frame "and-int/lit8" (literal_frame 0x1234))
  /\ and_int__lit8 (H := plain_host) "and-int/lit8" "v0" "v1" "-1"
       (world_of_frame "and-int/lit8" (literal_frame 0x1234))
     = Ok tt (put_frame 1%nat
                (set_registers (<[ "v0" := VInt 0x34 ]>
                                  (registers (literal_frame 0x1234)))
                               (literal_frame 0x1234))
                (world_of_frame "and-int/lit8" (literal_frame 0x1234))).
Proof.
  split; [reflexivity|].
  apply (lit8_literal_is_masked (H := plain_host) "and-int/lit8"
           (world_of_frame "and-int/lit8" (literal_frame 0x1234)) 1%nat
           (literal_frame 0x1234) "v0" "v1" "-1" 0x1234 (-1)
           eq_refl eq_refl eq_refl eq_refl).
  reflexivity.
Defined.

(** ** Arrays *)

Section Arrays.
Context `{Host}.
Variables (self : Self) (w : World) (fr : ref) (f : Frame).
Variables (array index : string) (i : Z) (r : ref) (l : list Value).
Hypothesis Hself : handler_frame w !! self = Some fr.
Hypothesis Hframe : frames w !! fr = Some f.
Hypothesis Hindex : registers f !! index = Some (VInt i).
Hypothesis Harray : registers f !! array = Some (VList r).
Hypothesis Hlist : lists w !! r = Some l.

(** What [aget] does with an integer index and a list: the bound of its
    test is the length of the name of the array register. *)
Lemma aget_run dest :
  aget self dest array index w
  = if (i <? 0) || (i >=? Z.of_nat (String.length array)) then
      Raise (ExecutionError "IndexOutOfBoundsError"
               [VInt i; VInt (Z.of_nat (length l))]) w
    else
      match l !! Z.to_nat i with
      | Some v =>
          Ok tt (put_frame fr
                   (set_registers (<[dest := v]> (registers f)) f) w)
      | None => Raise (HostError "IndexError") w
      end.
Proof.
  unfold aget, py_or, py_compare, py_len, py_getitem, load_list, list_index,
    bind, ret, raise.
  rewrite (reg_value _ _ _ _ Hself Hframe _ _ Hindex).
  rewrite (reg_value _ _ _ _ Hself Hframe _ _ Harray). simpl.
  destruct (i <? 0) eqn:E0; simpl; [now rewrite Hlist|].
  destruct (i >=? Z.of_nat (String.length array)) eqn:E1;
    rewrite Hlist; [reflexivity|].
  destruct (0 <=? i) eqn:E2; [|lia].
  destruct (i <? Z.of_nat (length l)) eqn:E3.
  - destruct (l !! Z.to_nat i) eqn:E4; [|reflexivity].
    apply (set_reg_on_frame _ _ _ _ Hself Hframe).
  - rewrite (lookup_ge_None_2 l (Z.to_nat i)) by lia. reflexivity.
Qed.

(** What [aput] does with an integer index and a list. *)
Lemma aput_run src v :
  registers f !! src = Some v ->
  aput self src array index w
  = if (i <? 0) || (i >? Z.of_nat (String.length array)) then
      Raise (ExecutionError "IndexOutOfBoundsError"
               [VInt i; VInt (Z.of_nat (length l))]) w
    else if Z.of_nat (String.length array) =? i then
      Ok tt (put_list r (l ++ [v]) w)
    else if i <? Z.of_nat (length l) then
      Ok tt (put_list r (<[Z.to_nat i := v]> l) w)
    else Raise (HostError "IndexError") w.
Proof.
  intros Hsrc.
  unfold aput, py_or, py_compare, py_len, py_getattr_append, py_append,
    py_setitem, load_list,
    store_list, list_index, bind, ret, raise.
  rewrite (reg_value _ _ _ _ Hself Hframe _ _ Hindex).
  rewrite (reg_value _ _ _ _ Hself Hframe _ _ Harray). simpl.
  destruct (i <? 0) eqn:E0; simpl; [now rewrite Hlist|].
  destruct (i >? Z.of_nat (String.length array)) eqn:E1;
    [now rewrite Hlist|].
  destruct (Z.of_nat (String.length array) =? i) eqn:E2;
    rewrite (reg_value _ _ _ _ Hself Hframe _ _ Hsrc), Hlist;
    [reflexivity|].
  destruct (0 <=? i) eqn:E3; [|lia].
  now destruct (i <? Z.of_nat (length l)).
Qed.

End Arrays.

(** C2.  [aput] does not keep to the bounds of the list: the list of [v1]
    has length 5 and the name [v1] has length 2.  With index 3, where the
    specification has slot 3 overwritten, [aput] fails with
    [IndexOutOfBoundsError]; with index 2, where the specification has
    slot 2 overwritten, it appends, and the list has 6 elements. *)
Theorem aput_bound_is_length_of_register_name `{Host} :
  aput "aput" "v0" "v1" "v2" (array_world "aput" 3 five)
  = Raise (ExecutionError "IndexOutOfBoundsError" [VInt 3; VInt 5])
          (array_world "aput" 3 five)
  /\ aput "aput" "v0" "v1" "v2" (array_world "aput" 2 five)
     = Ok tt (put_list 0%nat (five ++ [VInt 7]) (array_world "aput" 2 five)).
Proof.
  split.
  - now rewrite (aput_run "aput" (array_world "aput" 3 five) 1%nat
                   (array_frame 3) "v1" "v2" 3 0%nat five
                   eq_refl eq_refl eq_refl eq_refl eq_refl "v0" (VInt 7)
                   eq_refl).
  - now rewrite (aput_run "aput" (array_world "aput" 2 five) 1%nat
                   (array_frame 2) "v1" "v2" 2 0%nat five
                   eq_refl eq_refl eq_refl eq_refl eq_refl "v0" (VInt 7)
                   eq_refl).
Qed.

(** C3.  [aget] does not keep to the bounds of the list.  With a list of
    length 5 in [v1] and index 3, which is within the list, [aget] fails
    with [IndexOutOfBoundsError]; with a list of length 1 and index 1, which
    is the length of the list, the test lets the index through and the list
    itself raises [IndexError]. *)
Theorem aget_bound_is_length_of_register_name `{Host} :
  aget "aget" "v0" "v1" "v2" (array_world "aget" 3 five)
  = Raise (ExecutionError "IndexOutOfBoundsError" [VInt 3; VInt 5])
          (array_world "aget" 3 five)
  /\ aget "aget" "v0" "v1" "v2" (array_world "aget" 1 [VInt 1])
     = Raise (HostError "IndexError") (array_world "aget" 1 [VInt 1]).
Proof.
  split.
  - now rewrite (aget_run "aget" (array_world "aget" 3 five) 1%nat
                   (array_frame 3) "v1" "v2" 3 0%nat five
                   eq_refl eq_refl eq_refl eq_refl eq_refl "v0").
  - now rewrite (aget_run "aget" (array_world "aget" 1 [VInt 1]) 1%nat
                   (array_frame 1) "v1" "v2" 1 0%nat [VInt 1]
                   eq_refl eq_refl eq_refl eq_refl eq_refl "v0").
Qed.

(** ** New instances *)

Section NewInstance.
Context `{Host}.

(** A descriptor of the tests gives its default, and no instance is made:
    the handler is the write of the register. *)
Lemma new_instance_default self register descriptor v :
  In (descriptor, v) default_values ->
  new_instance self register descriptor = set_reg self register v.
Proof.
  simpl. intros Hin.
  repeat (destruct Hin as [Hin|Hin]; [injection Hin as <- <-; reflexivity|]).
  contradiction.
Qed.

(** The instance that [SmaliObject_new] makes is none of the store. *)
Lemma SmaliObject_new_fresh cls w :
  exists r, SmaliObject_new cls w
            = Ok r (set_objects (<[r := mkSmaliObject cls ∅]> (objects w)) w)
            /\ objects w !! r = None.
Proof.
  exists (fresh (dom (objects w))). split; [reflexivity|].
  apply not_elem_of_dom. apply is_fresh.
Qed.

End NewInstance.

(** C9.  [new_instance] misses the wrapper class [Boolean]: its descriptor
    is ["Ljava/lang/Boolean;"], and the test of the handler is for
    ["Ljava/lang/Boolean"], without the semicolon.  On the descriptor the
    handler goes to the class table, makes an instance and runs its
    initializer: with a class table that has no such class it raises and
    writes no register, and with one that has it the register holds an
    instance, not [False]. *)
Theorem new_instance_Boolean_descriptor :
  (forall (H : Host) self register,
      new_instance self register "Ljava/lang/Boolean;"
      = (let* cls := frame_vm_get_class self "Ljava/lang/Boolean;" in
         let* instance := SmaliObject_new cls in
         SmaliObject_init instance ;;
         set_reg self register (VObject instance)))
  /\ new_instance (H := plain_host) "new-instance" "v0" "Ljava/lang/Boolean;"
       (world_of_frame "new-instance" (frame_of ∅ ∅ ∅))
     = Raise (ExecutionError "NoSuchClassError" [VStr "Ljava/lang/Boolean;"])
             (world_of_frame "new-instance" (frame_of ∅ ∅ ∅))
  /\ v0_after (new_instance (H := Boolean_host) "new-instance" "v0"
                 "Ljava/lang/Boolean;")
     = Some (VObject 0%nat)
  /\ v0_after (new_instance (H := Boolean_host) "new-instance" "v0" "Z")
     = Some (VBool false).
Proof.
  split; [intros H self register; reflexivity|].
  split; [reflexivity|].
  split; vm_compute; reflexivity.
Qed.

(** Two instances of a class, made one after the other, are two objects. *)
Example new_instance_twice_distinct :
  (fun w => ((registers <$> frames w !! 1%nat) ≫= (.!! "v0"),
             (registers <$> frames w !! 1%nat) ≫= (.!! "v1")))
    (world_of
       ((new_instance (H := Boolean_host) "new-instance" "v0"
           "Ljava/lang/Boolean;" ;;
         new_instance (H := Boolean_host) "new-instance" "v1"
           "Ljava/lang/Boolean;")
          (world_of_frame "new-instance" (frame_of ∅ ∅ ∅))))
  = (Some (VObject 0%nat), Some (VObject 1%nat)).
Proof. vm_compute. reflexivity. Qed.

(** ** Invocation *)

Section Invocation.
Context `{Host}.



End Invocation.


(** *** A super call that calls on *)


(** ** The registry *)

Section Registry.
Context `{Host}.

Lemma foldl_insert_lookup (e : Executor) l (reg : gmap string Executor) k :
  foldl (fun r op_name => <[op_name := e]> r) reg l !! k
  = if bool_decide (k ∈ l) then Some e else reg !! k.
Proof.
  revert reg. induction l as [|a l IH]; intros reg; simpl.
  - reflexivity.
  - rewrite IH. destruct (decide (k = a)) as [->|Hne].
    + rewrite lookup_insert_eq.
      rewrite (bool_decide_eq_true_2 (a ∈ a :: l)) by apply list_elem_of_here.
      now destruct (bool_decide (a ∈ l)).
    + rewrite lookup_insert_ne by congruence.
      destruct (bool_decide (k ∈ l)) eqn:E.
      * apply bool_decide_eq_true_1 in E.
        rewrite (bool_decide_eq_true_2 (k ∈ a :: l)); [reflexivity|].
        now apply list_elem_of_further.
      * apply bool_decide_eq_false_1 in E.
        rewrite (bool_decide_eq_false_2 (k ∈ a :: l)); [reflexivity|].
        intros Hin. apply elem_of_cons in Hin. tauto.
Qed.

(** What a decorated definition leaves under a name of the registry. *)
Lemma decorate_lookup d f (reg : gmap string Executor) k :
  fst (decorate d f reg) !! k
  = match d with
    | Bare => reg !! k
    | Called l =>
        if String.eqb (canonical f) "" then reg !! k
        else if bool_decide (k ∈ l) then
               Some (mkExecutor (canonical f) (Some f))
             else if String.eqb (canonical f) k then
               Some (mkExecutor (canonical f) (Some f))
             else reg !! k
    end.
Proof.
  destruct d as [l|]; [|reflexivity].
  unfold decorate, OpcodeExecutor, Executor__init__. fold (canonical f).
  destruct (canonical f) as [|c s] eqn:E; [reflexivity|].
  change (String.eqb (String c s) "") with false. cbv iota.
  assert (Hk : (<[String c s := mkExecutor (String c s) (Some f)]> reg) !! k
               = if String.eqb (String c s) k
                 then Some (mkExecutor (String c s) (Some f))
                 else reg !! k).
  { destruct (String.eqb (String c s) k) eqn:Ek.
    - apply String.eqb_eq in Ek. subst k. apply lookup_insert_eq.
    - apply String.eqb_neq in Ek. now apply lookup_insert_ne. }
  destruct l as [|a l]; cbn [fst].
  - rewrite Hk. reflexivity.
  - rewrite foldl_insert_lookup.
    destruct (bool_decide (k ∈ a :: l)); [reflexivity|exact Hk].
Qed.

(** A name that no definition asks for, as its canonical opcode or as an
    alias, is not in the registry after the module has run. *)
Lemma run_module_lookup_None stmts (reg : gmap string Executor) k :
  reg !! k = None ->
  k ∉ aliases stmts ->
  Forall (fun s => fst s <> Bare -> canonical (snd s) <> k) stmts ->
  fst (run_module stmts reg) !! k = None.
Proof.
  revert reg. induction stmts as [|[d f] stmts IH]; intros reg Hreg Hal Hcan.
  - exact Hreg.
  - simpl. inversion Hcan as [|? ? Hd Hrest]; subst.
    assert (Hstep : fst (decorate d f reg) !! k = None).
    { rewrite decorate_lookup. destruct d as [l|]; [|exact Hreg].
      destruct (String.eqb (canonical f) ""); [exact Hreg|].
      rewrite bool_decide_eq_false_2.
      - simpl in Hd. destruct (String.eqb (canonical f) k) eqn:Ek;
          [|exact Hreg].
        apply String.eqb_eq in Ek. exfalso. now apply Hd.
      - intros Hin. apply Hal. unfold aliases. simpl.
        apply elem_of_app. now left. }
    destruct (decorate d f reg) as [reg' [e|]] eqn:Ed; simpl in *.
    + exact Hstep.
    + apply IH; [exact Hstep| |exact Hrest].
      intros Hin. apply Hal. unfold aliases. simpl. apply elem_of_app.
      now right.
Qed.

(** An executor of the registry was made for a definition whose decorator
    was called. *)
Lemma run_module_lookup_Some stmts (reg : gmap string Executor) k ex :
  fst (run_module stmts reg) !! k = Some ex ->
  reg !! k = Some ex
  \/ exists l f, In (Called l, f) stmts
                 /\ ex = mkExecutor (canonical f) (Some f).
Proof.
  revert reg. induction stmts as [|[d f] stmts IH]; intros reg Hk.
  - now left.
  - simpl in Hk.
    assert (Hstep : forall ex', fst (decorate d f reg) !! k = Some ex' ->
              reg !! k = Some ex'
              \/ exists l, d = Called l
                           /\ ex' = mkExecutor (canonical f) (Some f)).
    { intros ex'. rewrite decorate_lookup. destruct d as [l|]; [|now left].
      destruct (String.eqb (canonical f) ""); [now left|].
      destruct (bool_decide (k ∈ l)).
      - intros [= <-]. right. now exists l.
      - destruct (String.eqb (canonical f) k); [|now left].
        intros [= <-]. right. now exists l. }
    destruct (decorate d f reg) as [reg' [e|]] eqn:Ed; simpl in *.
    + destruct (Hstep _ Hk) as [Hreg|[l [-> ->]]]; [now left|].
      right. exists l, f. split; [now left|reflexivity].
    + destruct (IH _ Hk) as [Hreg|[l [g [Hin ->]]]].
      * destruct (Hstep _ Hreg) as [Hreg'|[l [-> ->]]]; [now left|].
        right. exists l, f. split; [now left|reflexivity].
      * right. exists l, g. split; [now right|reflexivity].
Qed.

End Registry.

Section SparseSwitch.
Context `{Host}.

Lemma canonical_names_of_module :
  Forall (fun s => fst s <> Bare -> canonical (snd s) <> "sparse-switch")
         module_body.
Proof.
  unfold module_body.
  repeat (apply List.Forall_cons;
          [ first [ intros _; vm_compute; discriminate
                  | intros Hb; now contradiction Hb ] | ]).
  apply List.Forall_nil.
Qed.

Lemma called_functions_of_module :
  Forall (fun s => fst s <> Bare -> __name__ (snd s) <> "sparse_switch")
         module_body.
Proof.
  unfold module_body.
  repeat (apply List.Forall_cons;
          [ first [ intros _; vm_compute; discriminate
                  | intros Hb; now contradiction Hb ] | ]).
  apply List.Forall_nil.
Qed.

(** C10.  Looking ["sparse-switch"] up in the registry fails with the
    [KeyError] of an unknown opcode: [sparse_switch] is decorated with the
    decorator factory itself, so its definition makes no executor, and no
    executor of the registry, under any name, has [sparse_switch] as its
    action; the body with the scan for the first match exists all the same.
    (Of the strings that the module takes from [smali.opcode] as aliases,
    none is ["sparse-switch"].) *)
Theorem sparse_switch_is_not_registered :
  "sparse-switch" ∉ aliases module_body ->
  executor "sparse-switch" = inl (HostError "KeyError")
  /\ (forall opname ex,
        executor opname = inr ex ->
        __name__ <$> action ex <> Some "sparse_switch")
  /\ In (Bare, def "sparse_switch" (params2 sparse_switch)) module_body.
Proof.
  intros Hal. split; [|split].
  - unfold executor, __executors__.
    rewrite (run_module_lookup_None module_body ∅ "sparse-switch"
               (lookup_empty _) Hal canonical_names_of_module).
    reflexivity.
  - intros opname ex. unfold executor, __executors__.
    destruct (fst (run_module module_body ∅) !! opname) as [e|] eqn:E;
      [|discriminate].
    intros [= ->].
    destruct (run_module_lookup_Some _ _ _ _ E) as [Hempty|[l [f [Hin ->]]]].
    + rewrite lookup_empty in Hempty. discriminate.
    + simpl. intros [= Hname].
      pose proof called_functions_of_module as Hall.
      rewrite Forall_forall in Hall.
      apply list_elem_of_In in Hin.
      apply (Hall _ Hin); [discriminate|exact Hname].
  - unfold module_body. apply list_elem_of_In.
    repeat first [ apply list_elem_of_here | apply list_elem_of_further ].
Qed.

End SparseSwitch.

Lemma sparse_switch_is_not_registered_witness :
  ("sparse-switch" ∉ aliases (module_body (H := plain_host)))
  /\ executor (H := plain_host) "sparse-switch" = inl (HostError "KeyError").
Proof.
  assert (Hal : "sparse-switch" ∉ aliases (module_body (H := plain_host))).
  { apply (bool_decide_unpack _). vm_compute. exact I. }
  split; [exact Hal|].
  apply (sparse_switch_is_not_registered (H := plain_host) Hal).
Defined.

(** ** What every handler inherits from its steps *)

Section Respected.
Context `{Host}.
Variable P : forall A, M A -> Prop.
Hypothesis R : respected P.

Ltac host_step :=
  first [ apply (on_SmaliValue P (on_host P R))
        | apply (on_Type_class_name P (on_host P R))
        | apply (on_vm_get_class P (on_host P R))
        | apply (on_vm_call P (on_host P R))
        | apply (on_SmaliClass_method P (on_host P R))
        | apply (on_SmaliClass_field P (on_host P R))
        | apply (on_SmaliObject_init P (on_host P R))
        | apply (on_SmaliObject__getitem__ P (on_host P R))
        | apply (on_SmaliObject__setitem__ P (on_host P R))
        | apply (on_host_binop P (on_host P R))
        | apply (on_host_compare P (on_host P R))
        | apply (on_host_neg P (on_host P R))
        | apply (on_host_float P (on_host P R))
        | apply (on_host_str P (on_host P R))
        | apply (on_host_id P (on_host P R))
        | apply (on_host_len P (on_host P R))
        | apply (on_host_getitem P (on_host P R))
        | apply (on_host_setitem P (on_host P R))
        | apply (on_host_append P (on_host P R)) ].

Ltac store_step :=
  first [ apply (on_ret P R) | apply (on_raise P R)
        | apply (on_self_frame P R)
        | apply (on_getitem P R) | apply (on_setitem P R)
        | apply (on_labels P R) | apply (on_vm P R)
        | apply (on_switch_data P R) | apply (on_array_data P R)
        | apply (on_method_return P R)
        | apply (on_set_label P R) | apply (on_set_pos P R)
        | apply (on_set_return_value P R) | apply (on_set_finished P R)
        | apply (on_set_method_return P R)
        | apply (on_load_list P R) | apply (on_store_list P R)
        | apply (on_new_list P R) | apply (on_load_object P R)
        | apply (on_SmaliObject_new P R)
        | apply (on_cell_value P R) | apply (on_set_cell_value P R) ].

Ltac steps :=
  cbv zeta;
  repeat first
    [ assumption
    | store_step
    | host_step
    | apply (on_bind P R); [|intros ?]
    | match goal with
      | |- P _ (match ?x with _ => _ end) => destruct x
      | |- P _ (if ?b then _ else _) => destruct b
      end ].

Lemma on_reg self key : P _ (reg self key).
Proof. unfold reg. steps. Qed.

Lemma on_set_reg self key v : P _ (set_reg self key v).
Proof. unfold set_reg. steps. Qed.

Lemma on_frame_vm_get_class self d : P _ (frame_vm_get_class self d).
Proof. unfold frame_vm_get_class, frame_attr. steps. Qed.

Lemma on_py_binop i op a b : P _ (py_binop i op a b).
Proof. unfold py_binop. steps. Qed.

Lemma on_py_neg a : P _ (py_neg a).
Proof. unfold py_neg. steps. Qed.

Lemma on_py_compare op a b : P _ (py_compare op a b).
Proof. unfold py_compare. steps. Qed.

Lemma on_py_or a b : P _ a -> P _ b -> P _ (py_or a b).
Proof. intros Ha Hb. unfold py_or. steps. Qed.

Lemma on_py_len c : P _ (py_len c).
Proof. unfold py_len. steps. Qed.

Lemma on_py_getitem c i : P _ (py_getitem c i).
Proof. unfold py_getitem. steps. Qed.

Lemma on_py_setitem c i v : P _ (py_setitem c i v).
Proof. unfold py_setitem. steps. Qed.

Lemma on_py_getattr_append c : P _ (py_getattr_append c).
Proof. unfold py_getattr_append. steps. Qed.

Lemma on_py_append c v : P _ (py_append c v).
Proof. unfold py_append. steps. Qed.

Lemma on_py_repeat x n : P _ (py_repeat x n).
Proof. unfold py_repeat. steps. Qed.

Lemma on_item {A} (l : list A) i : P _ (item l i).
Proof. unfold item. steps. Qed.

Lemma on_unpack2 {A} (l : list A) : P _ (unpack2 l).
Proof. unfold unpack2. steps. Qed.

Lemma on_unpack_table t : P _ (unpack_table t).
Proof. unfold unpack_table. steps. Qed.

Lemma on_mapM {A B} (f : A -> M B) l :
  (forall a, P _ (f a)) -> P _ (mapM f l).
Proof. intros Hf. induction l as [|a l IH]; simpl; steps. apply Hf. Qed.

Lemma on_cast self v : P _ (cast self v).
Proof. unfold cast. steps. Qed.

Lemma on_attr_smali_class x : P _ (attr_smali_class x).
Proof. unfold attr_smali_class. steps. Qed.

Lemma on_attr_name x : P _ (attr_name x).
Proof. unfold attr_name. steps. Qed.

Lemma on_Class m native x : Class !! m = Some native -> P _ (native x).
Proof.
  unfold Class. intros E. apply lookup_singleton_Some in E as [_ <-].
  steps. apply on_attr_name.
Qed.

Lemma on_Object m native x : Object !! m = Some native -> P _ (native x).
Proof.
  unfold Object. intros E.
  repeat (apply lookup_insert_Some in E as [[_ <-]|[_ E]]; [steps|]).
  apply lookup_singleton_Some in E as [_ <-].
  steps. apply on_attr_smali_class.
Qed.

Lemma on_goto self lbl : P _ (goto self lbl).
Proof. unfold goto, frame_attr, set_frame_attr. steps. Qed.

Lemma on_sparse_scan self value branches :
  P _ (sparse_scan self value branches).
Proof.
  induction branches as [|[key lbl] rest IH]; simpl; steps;
    first [apply on_py_compare | apply on_goto].
Qed.

Lemma on_invoke_call self vm_class owner method instance values :
  P _ (invoke_call self vm_class owner method instance values).
Proof.
  unfold invoke_call, frame_attr, set_frame_attr.
  steps; try apply on_frame_vm_get_class.
Qed.

Lemma on_invoke self inv_type args owner method :
  P _ (invoke self inv_type args owner method).
Proof.
  unfold invoke, set_frame_attr.
  destruct (bool_decide (inv_type ∈ ["direct"; "virtual"; "static"]));
    [|steps].
  destruct (String.eqb owner "Ljava/lang/Class;").
  { apply (on_bind P R); [apply on_item|intros a0].
    apply (on_bind P R); [apply on_reg|intros c].
    destruct (Class !! method) as [native|] eqn:E; [|steps].
    apply (on_bind P R); [apply (on_Class _ _ _ E)|intros r]. steps. }
  destruct (String.eqb owner "Ljava/lang/Object;").
  { destruct (Object !! method) as [native|] eqn:E; [|steps].
    apply (on_bind P R); [apply on_item|intros a0].
    apply (on_bind P R); [apply on_reg|intros x].
    apply (on_bind P R); [apply (on_Object _ _ _ E)|intros r]. steps. }
  apply (on_bind P R); [apply on_mapM; intros; apply on_reg|intros values].
  destruct (negb (String.eqb inv_type "static")).
  - apply (on_bind P R); [apply on_item|intros instance].
    apply (on_bind P R); [apply on_attr_smali_class|intros c]. cbv zeta.
    apply (on_bind P R); [|intros k; apply on_invoke_call].
    destruct (String.eqb (super_cls c) owner);
      steps; try apply on_frame_vm_get_class.
  - apply on_invoke_call.
Qed.

Lemma on_augmented self op dest src : P _ (augmented self op dest src).
Proof.
  unfold augmented. steps; first [apply on_reg | apply on_py_binop].
Qed.

Lemma on_literal self op mask dest left right :
  P _ (literal self op mask dest left right).
Proof.
  unfold literal.
  steps; first [apply on_reg | apply on_py_binop | apply on_set_reg].
Qed.

Lemma on_binary self op dest left right :
  P _ (binary self op dest left right).
Proof.
  unfold binary.
  steps; first [apply on_reg | apply on_py_binop | apply on_set_reg].
Qed.

Ltac head t :=
  lazymatch t with
  | ?f _ => head f
  | _ => t
  end.

Ltac handler_steps :=
  unfold frame_attr, set_frame_attr, struct_unpack;
  cbv zeta;
  repeat first
    [ assumption
    | apply on_reg | apply on_set_reg | apply on_frame_vm_get_class
    | apply on_py_binop | apply on_py_neg | apply on_py_compare
    | apply on_py_or | apply on_py_len | apply on_py_getitem
    | apply on_py_setitem | apply on_py_getattr_append | apply on_py_append
    | apply on_py_repeat | apply on_item | apply on_unpack2
    | apply on_unpack_table | apply on_cast | apply on_goto
    | apply on_sparse_scan | apply on_invoke | apply on_augmented
    | apply on_literal | apply on_binary
    | store_step
    | host_step
    | apply (on_bind P R); [|intros ?]
    | match goal with
      | |- P _ (match ?x with _ => _ end) => destruct x
      | |- P _ (if ?b then _ else _) => destruct b
      end ].

Ltac handler :=
  intros;
  match goal with
  | |- P _ ?t => let h := head t in unfold h
  end;
  handler_steps.

Lemma on_params0 f :
  (forall self, P _ (f self)) -> forall self args, P _ (params0 f self args).
Proof. intros Hf self args. unfold params0. steps; apply Hf. Qed.

Lemma on_params1 f :
  (forall self a, P _ (f self a)) ->
  forall self args, P _ (params1 f self args).
Proof. intros Hf self args. unfold params1. steps; apply Hf. Qed.

Lemma on_params2 f :
  (forall self a b, P _ (f self a b)) ->
  forall self args, P _ (params2 f self args).
Proof. intros Hf self args. unfold params2. steps; apply Hf. Qed.

Lemma on_params3 f :
  (forall self a b c, P _ (f self a b c)) ->
  forall self args, P _ (params3 f self args).
Proof. intros Hf self args. unfold params3. steps; apply Hf. Qed.

Lemma on_params_invoke f :
  (forall self a b c d, P _ (f self a b c d)) ->
  forall self args, P _ (params_invoke f self args).
Proof. intros Hf self args. unfold params_invoke. steps; apply Hf. Qed.

Ltac entry :=
  cbn [snd body __name__];
  first
    [ intros Hn _; exfalso; apply Hn; reflexivity
    | intros _ Hn; exfalso; apply Hn; reflexivity
    | intros _ _;
      first [ apply on_params0 | apply on_params1 | apply on_params2
            | apply on_params3 | apply on_params_invoke ];
      handler ].

(** Every handler of the module other than [throw] and [move_exception],
    on every executor and with any operands, has the property. *)
Lemma handlers_respect :
  Forall (fun s => __name__ (snd s) <> "move_exception" ->
                   __name__ (snd s) <> "throw" ->
                   forall self args, P _ (body (snd s) self args))
         module_body.
Proof.
  unfold module_body.
  repeat (apply List.Forall_cons; [entry|]).
  apply List.Forall_nil.
Qed.

(** [throw] and [move_exception] have it too, when the write and the read
    of the attribute [error] have it. *)
Lemma throw_respects :
  (forall fr x, P _ (setattr fr (set_error x))) ->
  forall self args, P _ (params1 throw self args).
Proof.
  intros He. apply on_params1. intros self register.
  unfold throw, set_frame_attr. steps; first [apply on_reg | apply He].
Qed.

Lemma move_exception_respects :
  (forall fr, P _ (getattr fr error)) ->
  forall self args, P _ (params1 move_exception self args).
Proof.
  intros He. apply on_params1. intros self dest.
  unfold move_exception, frame_attr.
  steps; first [apply on_set_reg | apply He].
Qed.

End Respected.

(** ** The error slot *)

Lemma frames_with_error fr e w r :
  frames (with_error fr e w) !! r
  = (if decide (fr = r) then set_error e else id) <$> frames w !! r.
Proof.
  unfold with_error. simpl. rewrite lookup_alter.
  destruct (decide (fr = r)) as [->|]; [reflexivity|].
  now destruct (frames w !! r).
Qed.

Lemma put_frame_with_error r fr e f w (upd : Frame -> Frame) :
  frames w !! r = Some f ->
  (forall g, upd (set_error e g) = set_error e (upd g)) ->
  put_frame r (upd ((if decide (fr = r) then set_error e else id) f))
            (with_error fr e w)
  = with_error fr e (put_frame r (upd f) w).
Proof.
  intros Hf Hupd. unfold put_frame, with_error, set_frames. simpl. f_equal.
  destruct (decide (fr = r)) as [->|Hne].
  - rewrite Hupd, insert_alter_eq, alter_insert_eq. reflexivity.
  - unfold id. rewrite alter_insert_ne by congruence. reflexivity.
Qed.

Lemma update_frame_error_blind r (upd : Frame -> Frame) :
  (forall e g, upd (set_error e g) = set_error e (upd g)) ->
  error_blind (let* f := load_frame r in store_frame r (upd f)).
Proof.
  intros Hupd fr e w. unfold load_frame, store_frame, bind.
  rewrite frames_with_error.
  destruct (frames w !! r) as [f|] eqn:Hf; simpl; [|reflexivity].
  f_equal. now apply put_frame_with_error.
Qed.

Lemma read_frame_error_blind {A} r (attr : Frame -> A) :
  (forall e g, attr (set_error e g) = attr g) ->
  error_blind (let* f := load_frame r in ret (attr f)).
Proof.
  intros Hattr fr e w. unfold load_frame, bind, ret.
  rewrite frames_with_error.
  destruct (frames w !! r) as [f|]; simpl; [|reflexivity].
  destruct (decide (fr = r)); simpl; [now rewrite Hattr|reflexivity].
Qed.

Lemma getattr_error_blind {A} fr (attr : Frame -> A) :
  (forall e g, attr (set_error e g) = attr g) ->
  error_blind (getattr fr attr).
Proof.
  intros Hattr. destruct fr as [r|]; simpl.
  - now apply read_frame_error_blind.
  - intros fr e w. reflexivity.
Qed.

Lemma setattr_error_blind fr (upd : Frame -> Frame) :
  (forall e g, upd (set_error e g) = set_error e (upd g)) ->
  error_blind (setattr fr upd).
Proof.
  intros Hupd. destruct fr as [r|]; simpl.
  - now apply update_frame_error_blind.
  - intros fr e w. reflexivity.
Qed.

Lemma Frame__getitem__error_blind fr key :
  error_blind (Frame__getitem__ fr key).
Proof.
  destruct fr as [r|]; [|intros fr e w; reflexivity].
  intros fr e w. unfold Frame__getitem__, load_frame, bind.
  rewrite frames_with_error.
  destruct (frames w !! r) as [f|]; simpl; [|reflexivity].
  assert (E : registers ((if decide (fr = r) then set_error e else id) f)
              = registers f) by (destruct (decide (fr = r)); reflexivity).
  rewrite E. now destruct (registers f !! key).
Qed.

Lemma Frame__setitem__error_blind fr key v :
  error_blind (Frame__setitem__ fr key v).
Proof.
  destruct fr as [r|]; [|intros fr e w; reflexivity].
  apply (update_frame_error_blind r
           (fun f => set_registers (<[key := v]> (registers f)) f)).
  reflexivity.
Qed.

(** With a host that is blind to the error slots, the steps of the
    handlers are. *)
Lemma error_blind_respected `{Host} :
  host_respects (@error_blind) -> respected (@error_blind).
Proof.
  intros Hhost. split; try exact Hhost.
  - intros A a fr e w. reflexivity.
  - intros A x fr e w. reflexivity.
  - intros A B m k Hm Hk fr e w. unfold bind. rewrite Hm.
    destruct (m w); simpl; [apply Hk|reflexivity].
  - intros self fr e w. reflexivity.
  - apply Frame__getitem__error_blind.
  - apply Frame__setitem__error_blind.
  - intros fr. now apply getattr_error_blind.
  - intros fr. now apply getattr_error_blind.
  - intros fr. now apply getattr_error_blind.
  - intros fr. now apply getattr_error_blind.
  - intros fr. now apply getattr_error_blind.
  - intros fr x. now apply setattr_error_blind.
  - intros fr x. now apply setattr_error_blind.
  - intros fr x. now apply setattr_error_blind.
  - intros fr x. now apply setattr_error_blind.
  - intros fr x. now apply setattr_error_blind.
  - intros r fr e w. unfold load_list. simpl. now destruct (lists w !! r).
  - intros r l fr e w. reflexivity.
  - intros l fr e w. reflexivity.
  - intros r fr e w. unfold load_object. simpl.
    now destruct (objects w !! r).
  - intros c fr e w. reflexivity.
  - intros r fr e w. unfold cell_value. simpl. now destruct (cells w !! r).
  - intros r v fr e w. reflexivity.
Qed.

(** C7.  [throw] does not raise: with a value in the register, it stores
    that value, as the payload of a [RuntimeError], in the error slot of the
    frame and leaves the registers and the position as they are, whatever
    the slot held before.  [move_exception] copies the error slot to its
    destination register, and it is the only handler that reads the slot:
    with a host whose operations do not touch the error slots, every other
    handler of the module ([throw], which writes the slot, apart) is blind
    to them. *)
Theorem throw_stores_move_exception_reads `{Host} :
  host_respects (@error_blind) ->
  (forall self w fr f register v,
      handler_frame w !! self = Some fr ->
      frames w !! fr = Some f ->
      registers f !! register = Some v ->
      throw self register w
      = Ok tt (put_frame fr (set_error (VError "RuntimeError" [v]) f) w)
      /\ registers (set_error (VError "RuntimeError" [v]) f) = registers f
      /\ pos (set_error (VError "RuntimeError" [v]) f) = pos f
      /\ (forall e, throw self register (put_frame fr (set_error e f) w)
                    = throw self register w))
  /\ (forall self w fr f dest,
         handler_frame w !! self = Some fr ->
         frames w !! fr = Some f ->
         move_exception self dest w
         = Ok tt (put_frame fr
                    (set_registers (<[dest := error f]> (registers f)) f) w))
  /\ Forall (fun s => __name__ (snd s) <> "move_exception" ->
                      __name__ (snd s) <> "throw" ->
                      forall self args, error_blind (body (snd s) self args))
            module_body.
Proof.
  intros Hhost. split; [|split].
  - intros self w fr f register v Hs Hf Hv.
    assert (Hrun : forall w' f', handler_frame w' !! self = Some fr ->
              frames w' !! fr = Some f' -> registers f' !! register = Some v ->
              throw self register w'
              = Ok tt (put_frame fr
                         (set_error (VError "RuntimeError" [v]) f') w')).
    { intros w' f' Hs' Hf' Hv'. unfold throw.
      rewrite (bind_ok _ _ _ _ _ (reg_value _ _ _ _ Hs' Hf' _ _ Hv')).
      apply (set_frame_attr_on_frame _ _ _ _ Hs' Hf'). }
    split; [now apply Hrun|]. split; [reflexivity|]. split; [reflexivity|].
    intros e.
    rewrite (Hrun (put_frame fr (set_error e f) w) (set_error e f) Hs
               (frames_put_frame _ _ _) Hv).
    rewrite (Hrun w f Hs Hf Hv). now rewrite put_frame_put_frame.
  - intros self w fr f dest Hs Hf. unfold move_exception.
    rewrite (bind_ok _ _ _ _ _ (frame_attr_on_frame _ _ _ _ Hs Hf error)).
    apply (set_reg_on_frame _ _ _ _ Hs Hf).
  - apply handlers_respect. now apply error_blind_respected.
Qed.

(** The operations of a table host do not touch the frames. *)
Lemma table_host_error_blind classes methods answer :
  host_respects (H := table_host classes methods answer) (@error_blind).
Proof.
  split; simpl.
  - intros s fr e w. now destruct (parse_int s).
  - intros d fr e w. reflexivity.
  - intros v d fr e w. now destruct (classes !! d).
  - intros v t i l fr e w. reflexivity.
  - intros c m fr e w. now destruct (methods !! (name c, m)).
  - intros c n fr e w. reflexivity.
  - intros r fr e w. reflexivity.
  - intros r n fr e w. simpl.
    destruct (objects w !! r) as [o|]; [|reflexivity].
    now destruct (fields o !! n).
  - intros r n v fr e w. simpl. now destruct (objects w !! r).
  - intros i op a b fr e w. reflexivity.
  - intros op a b fr e w. now destruct op.
  - intros a fr e w. reflexivity.
  - intros a fr e w. reflexivity.
  - intros a fr e w. reflexivity.
  - intros a fr e w. reflexivity.
  - intros a fr e w. reflexivity.
  - intros c i fr e w. reflexivity.
  - intros c i v fr e w. reflexivity.
  - intros c v fr e w. reflexivity.
Qed.

Lemma throw_stores_move_exception_reads_witness :
  host_respects (H := plain_host) (@error_blind)
  /\ throw "throw" "v0" (world_of_frame "throw" throw_frame)
     = Ok tt (put_frame 1%nat
                (set_error (VError "RuntimeError" [VStr "boom"]) throw_frame)
                (world_of_frame "throw" throw_frame)).
Proof.
  split; [apply table_host_error_blind|].
  apply (throw_stores_move_exception_reads (H := plain_host)
           (table_host_error_blind ∅ ∅ (fun _ _ => VNone))).
  - reflexivity.
  - reflexivity.
  - reflexivity.
Defined.

(** [move_exception] does read the slot: it is not blind to it. *)
Example move_exception_reads_the_slot :
  ~ error_blind (move_exception "move-exception" "v0").
Proof.
  intros Hblind.
  specialize (Hblind 1%nat (VInt 1)
                (world_of_frame "move-exception" (frame_of ∅ ∅ ∅))).
  apply (f_equal (fun o => (registers <$> frames (world_of o) !! 1%nat)
                           ≫= (.!! "v0"))) in Hblind.
  vm_compute in Hblind. discriminate.
Qed.

(** ** The fields of an executor *)

Lemma keeps_fields_bind {A B} (m : M A) (k : A -> M B) :
  keeps_fields m -> (forall a, keeps_fields (k a)) -> keeps_fields (bind m k).
Proof.
  intros Hm Hk w. unfold bind. specialize (Hm w).
  destruct (m w) as [a w'|e w']; simpl in Hm; [|exact Hm].
  destruct (Hk a w') as [Hf Ha]. destruct Hm as [Hf' Ha'].
  split; congruence.
Qed.

Ltac keeps_step :=
  intros; intro w;
  cbv beta iota delta
    [Frame__getitem__ Frame__setitem__ getattr setattr load_frame store_frame
     bind ret raise load_list store_list new_list load_object SmaliObject_new
     cell_value set_cell_value self_frame];
  repeat case_match; simplify_eq; split; reflexivity.

(** With a host that leaves the fields alone, the steps of the handlers,
    the read and the write of the error slot among them, do so. *)
Lemma keeps_fields_respected `{Host} :
  host_respects (@keeps_fields) ->
  respected (@keeps_fields)
  /\ (forall fr, keeps_fields (getattr fr error))
  /\ (forall fr x, keeps_fields (setattr fr (set_error x))).
Proof.
  intros Hhost. split; [|split; keeps_step].
  split; try exact Hhost; try keeps_step.
  intros A B m k. apply keeps_fields_bind.
Qed.

(** The handlers of the module: all of them keep the fields. *)
Lemma handlers_keep_fields `{Host} :
  host_respects (@keeps_fields) ->
  Forall (fun s => forall self args, keeps_fields (body (snd s) self args))
         module_body.
Proof.
  intros Hhost. destruct (keeps_fields_respected Hhost) as [R [Hget Hset]].
  pose proof (handlers_respect _ R) as Hall.
  rewrite Forall_forall in Hall. apply Forall_forall. intros [d f] Hin.
  simpl. destruct (decide (__name__ f = "move_exception")) as [Em|Nm];
    [|destruct (decide (__name__ f = "throw")) as [Et|Nt]].
  - unfold module_body in Hin.
    repeat (apply elem_of_cons in Hin as [Hin|Hin];
            [ injection Hin as -> ->;
              first [ discriminate Em
                    | exact (move_exception_respects _ R Hget) ] | ]).
    now apply elem_of_nil in Hin.
  - unfold module_body in Hin.
    repeat (apply elem_of_cons in Hin as [Hin|Hin];
            [ injection Hin as -> ->;
              first [ discriminate Et
                    | exact (throw_respects _ R Hset) ] | ]).
    now apply elem_of_nil in Hin.
  - exact (Hall _ Hin Nm Nt).
Qed.

(** An executor that the registry gives was made for a definition of the
    module whose decorator was called. *)
Lemma executor_made `{Host} opname ex :
  executor opname = inr ex ->
  exists l f, (Called l, f) ∈ module_body
              /\ ex = mkExecutor (canonical f) (Some f).
Proof.
  unfold executor, __executors__.
  destruct (fst (run_module module_body ∅) !! opname) as [e|] eqn:E;
    [|discriminate].
  intros [= ->].
  destruct (run_module_lookup_Some _ _ _ _ E) as [Hempty|[l [f [Hin ->]]]].
  - rewrite lookup_empty in Hempty. discriminate.
  - exists l, f. split; [now apply list_elem_of_In|reflexivity].
Qed.

(** C1, as the code has it.  A call [ex(frame)] of an executor of the
    registry is its action run on the executor and on the operands that the
    attribute [args] of the executor holds (none when it holds nothing), in
    the store where the attribute [frame] of the executor has been
    overwritten with [frame] and the attribute [args] with those operands:
    the frame reaches the action through the attribute only.  What the
    attribute [frame] held before the call has no influence on the call.
    And if no operation of the host changes the attribute [frame] or [args]
    of any executor, the executor still holds the frame and the operands
    when the call is over, whether it returned or raised. *)
Theorem call_overwrites_frame_and_keeps_fields `{Host} :
  forall opname ex frame w,
    executor opname = inr ex ->
    Executor__call__ ex frame w
    = match action ex with
      | Some f =>
          body f (opcode ex) (default [] (handler_args w !! opcode ex))
               (started (opcode ex) frame
                        (default [] (handler_args w !! opcode ex)) w)
      | None =>
          Ok tt (started (opcode ex) frame
                         (default [] (handler_args w !! opcode ex)) w)
      end
    /\ (forall hf,
          Executor__call__ ex frame
            (set_handler_frame (<[opcode ex := hf]> (handler_frame w)) w)
          = Executor__call__ ex frame w)
    /\ (host_respects (@keeps_fields) ->
        handler_frame (world_of (Executor__call__ ex frame w)) !! opcode ex
        = Some frame
        /\ handler_args (world_of (Executor__call__ ex frame w)) !! opcode ex
           = Some (default [] (handler_args w !! opcode ex))).
Proof.
  intros opname ex frame w Hex.
  assert (Hrun : forall w0,
            Executor__call__ ex frame w0
            = match action ex with
              | Some f =>
                  body f (opcode ex)
                       (default [] (handler_args w0 !! opcode ex))
                       (started (opcode ex) frame
                          (default [] (handler_args w0 !! opcode ex)) w0)
              | None =>
                  Ok tt (started (opcode ex) frame
                           (default [] (handler_args w0 !! opcode ex)) w0)
              end).
  { intros w0.
    unfold Executor__call__, bind, set_handler_args, set_handler_frame,
      started.
    cbn [handler_args handler_frame frames lists objects cells].
    now destruct (action ex). }
  split; [apply Hrun|]. split.
  - intros hf. rewrite !Hrun. unfold started, set_handler_frame.
    cbn [handler_args handler_frame frames lists objects cells].
    now rewrite !insert_insert_eq.
  - intros Hhost. rewrite Hrun.
    destruct (executor_made _ _ Hex) as [l [f [Hin ->]]].
    cbn [action opcode].
    pose proof (handlers_keep_fields Hhost) as Hall.
    rewrite Forall_forall in Hall.
    destruct (Hall _ Hin (canonical f)
                (default [] (handler_args w !! canonical f))
                (started (canonical f) frame
                   (default [] (handler_args w !! canonical f)) w))
      as [Hf Ha].
    split.
    + transitivity
        (handler_frame
           (started (canonical f) frame
              (default [] (handler_args w !! canonical f)) w)
         !! canonical f);
        [exact (f_equal (fun m => m !! canonical f) Hf)|].
      apply lookup_insert_eq.
    + transitivity
        (handler_args
           (started (canonical f) frame
              (default [] (handler_args w !! canonical f)) w)
         !! canonical f);
        [exact (f_equal (fun m => m !! canonical f) Ha)|].
      apply lookup_insert_eq.
Qed.

(** The operations of a table host leave the fields of the executors
    alone. *)
Lemma table_host_keeps_fields classes methods answer :
  host_respects (H := table_host classes methods answer) (@keeps_fields).
Proof.
  split; simpl; intros; intro w; repeat case_match; simplify_eq;
    split; reflexivity.
Qed.

Lemma call_overwrites_frame_and_keeps_fields_witness :
  host_respects (H := plain_host) (@keeps_fields)
  /\ executor (H := plain_host) "goto/16"
     = inr (mkExecutor "goto" (Some (def "goto" (params1 goto))))
  /\ handler_frame
       (world_of
          (Executor__call__
             (mkExecutor "goto" (Some (def "goto" (params1 goto)))) 1%nat
             (set_handler_args {[ "goto" := [Str "L1"] ]} branch_world)))
     !! "goto" = Some 1%nat.
Proof.
  assert (Hex : executor (H := plain_host) "goto/16"
                = inr (mkExecutor "goto" (Some (def "goto" (params1 goto)))))
    by reflexivity.
  split; [apply table_host_keeps_fields|]. split; [exact Hex|].
  apply (proj2 (proj2 (call_overwrites_frame_and_keeps_fields
                         (H := plain_host) "goto/16" _ 1%nat
                         (set_handler_args {[ "goto" := [Str "L1"] ]}
                                           branch_world) Hex))
           (table_host_keeps_fields ∅ ∅ (fun _ _ => VNone))).
Defined.

(** *** A dispatch within a dispatch *)

(** C1, refuted as the specification states it.  Dispatched alone, [invoke-static] of [run] on
    frame 1 leaves the answer 7 in [method_return] of frame 1, and
    [invoke-static] of [helper] on frame 2 leaves 42 in that of frame 2.
    When the second dispatch happens within the first, the executor
    [invoke] holds frame 2 when the outer call returns: frame 1 gets
    nothing and frame 2 gets the 7 of the outer call.  The two dispatches
    are not what they are in isolation. *)
Lemma nested_dispatch_is_not_isolated :
  method_return_after
    (dispatch (H := flat_host) 1%nat "invoke-static" outer_operands) 1%nat
  = Some (VInt 7)
  /\ method_return_after
       (dispatch (H := flat_host) 2%nat "invoke-static" inner_operands) 2%nat
     = Some (VInt 42)
  /\ method_return_after
       (dispatch (H := nested_host) 1%nat "invoke-static" outer_operands)
       1%nat
     = Some VNone
  /\ method_return_after
       (dispatch (H := nested_host) 1%nat "invoke-static" outer_operands)
       2%nat
     = Some (VInt 7)
  /\ method_return_after
       (dispatch (H := nested_host) 1%nat "invoke-static" outer_operands)
       1%nat
     <> method_return_after
          (dispatch (H := flat_host) 1%nat "invoke-static" outer_operands)
          1%nat.
Proof.
  assert (E1 : method_return_after
                 (dispatch (H := flat_host) 1%nat "invoke-static"
                    outer_operands) 1%nat = Some (VInt 7))
    by (vm_compute; reflexivity).
  assert (E2 : method_return_after
                 (dispatch (H := nested_host) 1%nat "invoke-static"
                    outer_operands) 1%nat = Some VNone)
    by (vm_compute; reflexivity).
  split; [exact E1|]. split; [vm_compute; reflexivity|].
  split; [exact E2|]. split; [vm_compute; reflexivity|].
  rewrite E1, E2. discriminate.
Qed.

(** * Further properties *)

(** ** Width conversions *)

Lemma width_run `{Host} c self w fr f dest src a :
  handler_frame w !! self = Some fr ->
  frames w !! fr = Some f ->
  registers f !! src = Some (VInt a) ->
  width_handler c self dest src w
  = Ok tt (put_frame fr
             (set_registers
                (<[dest := VInt (a mod 2 ^ width_bits c)]> (registers f)) f)
             w).
Proof.
  intros Hs Hf Ha.
  assert (E : forall k m, m = Z.ones k -> 0 <= k ->
            py_binop false BitAnd (VInt a) (VInt m) w
            = Ok (VInt (a mod 2 ^ k)) w).
  { intros k m -> Hk. unfold py_binop. cbn [as_int].
    now rewrite Z.land_ones. }
  destruct c; cbn [width_handler width_bits];
    unfold int_to_long, int_to_int, int_to_char;
    rewrite (bind_ok _ _ _ _ _ (reg_value _ _ _ _ Hs Hf _ _ Ha));
    [ rewrite (bind_ok _ _ _ _ _ (E 64 _ eq_refl ltac:(lia)))
    | rewrite (bind_ok _ _ _ _ _ (E 32 _ eq_refl ltac:(lia)))
    | rewrite (bind_ok _ _ _ _ _ (E 16 _ eq_refl ltac:(lia))) ];
    apply (set_reg_on_frame _ _ _ _ Hs Hf).
Qed.

(** X1.  [int-to-long], [int-to-int] (and [long-to-int]) and [int-to-char]
    (and [int-to-short]) store the integer of the source reduced modulo
    2^64, 2^32 and 2^16: the result lies in [0, 2^bits), a value of that
    range is kept, a negative value never is (there is no sign extension),
    and converting the result again changes nothing.  [int-to-byte] does
    not convert at all: it hands the integer to [struct.unpack], which
    wants bytes, so it raises [TypeError] and writes nothing. *)
Theorem width_conversion_wraps `{Host} c self w fr f dest src a :
  handler_frame w !! self = Some fr ->
  frames w !! fr = Some f ->
  registers f !! src = Some (VInt a) ->
  width_handler c self dest src w
  = Ok tt (put_frame fr
             (set_registers
                (<[dest := VInt (a mod 2 ^ width_bits c)]> (registers f)) f)
             w)
  /\ 0 <= a mod 2 ^ width_bits c < 2 ^ width_bits c
  /\ (0 <= a < 2 ^ width_bits c -> a mod 2 ^ width_bits c = a)
  /\ (a < 0 -> a mod 2 ^ width_bits c <> a)
  /\ (width_handler c self dest src ;; width_handler c self dest dest) w
     = width_handler c self dest src w
  /\ int_to_byte self dest src w = Raise (HostError "TypeError") w.
Proof.
  intros Hs Hf Ha.
  assert (Hpos : 0 < 2 ^ width_bits c) by (destruct c; reflexivity).
  pose proof (Z.mod_pos_bound a _ Hpos) as Hb.
  split; [now apply width_run|]. split; [exact Hb|].
  split; [intros Hr; now apply Z.mod_small|].
  split; [lia|].
  split;
    [|unfold int_to_byte;
      now rewrite (bind_ok _ _ _ _ _ (reg_value _ _ _ _ Hs Hf _ _ Ha))].
  rewrite (bind_ok _ _ _ _ _ (width_run c self w fr f dest src a Hs Hf Ha)).
  rewrite (width_run c self w fr f dest src a Hs Hf Ha).
  rewrite (width_run c self (put_frame fr _ w) fr _ dest dest
             (a mod 2 ^ width_bits c) Hs (frames_put_frame _ _ _));
    [|apply lookup_insert_eq].
  rewrite put_frame_put_frame. cbn [registers set_registers].
  rewrite insert_insert_eq. now rewrite Z.mod_mod by lia.
Qed.

Lemma width_conversion_wraps_witness :
  width_handler (H := plain_host) to_char "int-to-char" "v0" "v1"
    (world_of_frame "int-to-char" (literal_frame (-1)))
  = Ok tt (put_frame 1%nat
             (set_registers (<[ "v0" := VInt 65535 ]>
                               (registers (literal_frame (-1))))
                            (literal_frame (-1)))
             (world_of_frame "int-to-char" (literal_frame (-1)))).
Proof.
  apply (width_conversion_wraps (H := plain_host) to_char "int-to-char"
           (world_of_frame "int-to-char" (literal_frame (-1))) 1%nat
           (literal_frame (-1)) "v0" "v1" (-1) eq_refl eq_refl eq_refl).
Defined.

(** ** Integer operators *)

Lemma mask16 n : Z.land n 0xFFFF = n mod 65536.
Proof. change 0xFFFF with (Z.ones 16). now rewrite Z.land_ones by lia. Qed.

(** X2.  Every handler of the lit16 family masks its literal to 16 unsigned
    bits before it applies its operator: with the literal parsed to [n] the
    operand is [n mod 65536], which lies in [0, 65536), so a negative
    literal is not sign-extended: [add-int/lit16] with the literal [-1] adds
    65535.  A zero operand of a division or remainder raises
    [ZeroDivisionError] and writes nothing. *)
Theorem lit16_literal_is_masked `{Host} self w fr f dest left right a n :
  handler_frame w !! self = Some fr ->
  frames w !! fr = Some f ->
  registers f !! left = Some (VInt a) ->
  SmaliValue right w = Ok (VInt n) w ->
  0 <= n mod 65536 < 65536
  /\ (forall h op, In (h, op) lit16_handlers ->
        h self dest left right w
        = match op a (n mod 65536) with
          | inr r => Ok tt (put_reg fr f dest (VInt r) w)
          | inl e => Raise e w
          end)
  /\ (n = -1 ->
      add_int__lit16 self dest left right w
      = Ok tt (put_reg fr f dest (VInt (a + 65535)) w)).
Proof.
  intros Hs Hf Ha Hn.
  pose proof (reg_value _ _ _ _ Hs Hf _ _ Ha) as Hleft.
  assert (Hb : 0 <= n mod 65536 < 65536) by (apply Z.mod_pos_bound; lia).
  assert (Hrun : forall h op, In (h, op) lit16_handlers ->
            h self dest left right w
            = match op a (n mod 65536) with
              | inr r => Ok tt (put_reg fr f dest (VInt r) w)
              | inl e => Raise e w
              end).
  { intros h op Hin. simpl in Hin.
    repeat (destruct Hin as [Hin|Hin]; [injection Hin as <- <-|]);
      try contradiction;
      cbv delta [div_int__lit16 add_int__lit16 sub_int__lit16
                 mul_int__lit16 rem_int__lit16 and_int__lit16 or_int__lit16
                 xor_int__lit16 shl_int__lit16 shr_int__lit16 literal
                 floor_div floor_mod total];
      cbv beta;
      rewrite (bind_ok _ _ _ _ _ Hleft), (bind_ok _ _ _ _ _ Hn);
      unfold py_binop at 1; cbn [as_int]; rewrite mask16;
      rewrite (bind_ok _ _ _ _ _ (eq_refl : ret _ w = _));
      unfold py_binop; cbn [as_int];
      try (destruct (n mod 65536 =? 0); [reflexivity|]);
      try (destruct (n mod 65536 <? 0) eqn:E; [lia|]);
      rewrite (bind_ok _ _ _ _ _ (eq_refl : ret _ w = _));
      apply (set_reg_on_frame _ _ _ _ Hs Hf). }
  split; [exact Hb|]. split; [exact Hrun|].
  intros ->. apply (Hrun add_int__lit16 (total Z.add)). simpl. tauto.
Qed.

Lemma lit16_literal_is_masked_witness :
  add_int__lit16 (H := plain_host) "add-int/lit16" "v0" "v1" "-1"
    (world_of_frame "add-int/lit16" (literal_frame 5))
  = Ok tt (put_reg 1%nat (literal_frame 5) "v0" (VInt 65540)
             (world_of_frame "add-int/lit16" (literal_frame 5))).
Proof.
  apply (lit16_literal_is_masked (H := plain_host) "add-int/lit16"
           (world_of_frame "add-int/lit16" (literal_frame 5)) 1%nat
           (literal_frame 5) "v0" "v1" "-1" 5 (-1)
           eq_refl eq_refl eq_refl eq_refl).
  reflexivity.
Defined.

(** What a handler of three registers does on two integers. *)
Lemma binary_on_integers `{Host} self w fr f op dest left right a b :
  handler_frame w !! self = Some fr ->
  frames w !! fr = Some f ->
  registers f !! left = Some (VInt a) ->
  registers f !! right = Some (VInt b) ->
  binary self op dest left right w
  = match py_binop false op (VInt a) (VInt b) w with
    | Ok v w' => set_reg self dest v w'
    | Raise e w' => Raise e w'
    end.
Proof.
  intros Hs Hf Ha Hb. unfold binary.
  rewrite (bind_ok _ _ _ _ _ (reg_value _ _ _ _ Hs Hf _ _ Ha)).
  rewrite (bind_ok _ _ _ _ _ (reg_value _ _ _ _ Hs Hf _ _ Hb)).
  reflexivity.
Qed.

(** What a 2addr handler does on two integers. *)
Lemma augmented_on_integers `{Host} self w fr f op dest src a b :
  handler_frame w !! self = Some fr ->
  frames w !! fr = Some f ->
  registers f !! dest = Some (VInt a) ->
  registers f !! src = Some (VInt b) ->
  op <> TrueDiv ->
  augmented self op dest src w
  = match py_binop false op (VInt a) (VInt b) w with
    | Ok v w' => set_reg self dest v w'
    | Raise e w' => Raise e w'
    end.
Proof.
  intros Hs Hf Ha Hb Hop. unfold augmented.
  assert (Hself : self_frame self w = Ok (Some fr) w)
    by (unfold self_frame; now rewrite Hs).
  rewrite (bind_ok _ _ _ _ _ Hself).
  assert (Hget : Frame__getitem__ (Some fr) dest w = Ok (VInt a) w).
  { unfold Frame__getitem__, load_frame, bind. now rewrite Hf, Ha. }
  rewrite (bind_ok _ _ _ _ _ Hget).
  rewrite (bind_ok _ _ _ _ _ (reg_value _ _ _ _ Hs Hf _ _ Hb)).
  assert (E : py_binop true op (VInt a) (VInt b)
              = py_binop false op (VInt a) (VInt b))
    by (destruct op; try reflexivity; contradiction).
  rewrite E. unfold bind.
  destruct (py_binop false op (VInt a) (VInt b) w) as [v w'|e w'] eqn:Ev;
    [|reflexivity].
  assert (w' = w) as ->.
  { destruct op; unfold py_binop in Ev; cbn [as_int] in Ev;
      try contradiction;
      repeat match type of Ev with
             | context [if ?c then _ else _] => destruct c
             end;
      now inversion Ev. }
  unfold set_reg, self_frame, bind. now rewrite Hs.
Qed.

(** X3.  On integers a 2addr handler is the handler of three registers
    with the destination as its left operand: [op-int/2addr d, s] does what
    [op-int d, d, s] does, its faults included. *)
Theorem two_address_is_three_address `{Host} self w fr f dest src a b :
  handler_frame w !! self = Some fr ->
  frames w !! fr = Some f ->
  registers f !! dest = Some (VInt a) ->
  registers f !! src = Some (VInt b) ->
  forall h2 h3, In (h2, h3) two_address_handlers ->
    h2 self dest src w = h3 self dest dest src w.
Proof.
  intros Hs Hf Ha Hb h2 h3 Hin. simpl in Hin.
  repeat (destruct Hin as [Hin|Hin]; [injection Hin as <- <-|]);
    try contradiction;
    cbv delta [or_int__2addr and_int__2addr sub_int__2addr xor_int__2addr
               add_int__2addr div_int__2addr shl_int__2addr shr_int__2addr
               rem_int__2addr mul_int__2addr or_int and_int sub_int xor_int
               add_int div_int shl_int shr_int rem_int mul_int];
    cbv beta;
    rewrite (augmented_on_integers _ _ _ _ _ _ _ _ _ Hs Hf Ha Hb)
      by discriminate;
    now rewrite (binary_on_integers _ _ _ _ _ _ _ _ _ _ Hs Hf Ha Hb).
Qed.

Lemma two_address_is_three_address_witness :
  div_int__2addr (H := plain_host) "div-int/2addr" "v0" "v1"
    (world_of_frame "div-int/2addr" (pair_frame (-7) 2))
  = div_int (H := plain_host) "div-int/2addr" "v0" "v0" "v1"
      (world_of_frame "div-int/2addr" (pair_frame (-7) 2)).
Proof.
  apply (two_address_is_three_address (H := plain_host) "div-int/2addr"
           (world_of_frame "div-int/2addr" (pair_frame (-7) 2)) 1%nat
           (pair_frame (-7) 2) "v0" "v1" (-7) 2
           eq_refl eq_refl eq_refl eq_refl).
  simpl. tauto.
Defined.

(** What a handler of three registers writes on two integers whose
    operator has a result. *)
Lemma binary_result `{Host} self w fr f op dest left right a b r :
  handler_frame w !! self = Some fr ->
  frames w !! fr = Some f ->
  registers f !! left = Some (VInt a) ->
  registers f !! right = Some (VInt b) ->
  py_binop false op (VInt a) (VInt b) w = Ok (VInt r) w ->
  binary self op dest left right w = Ok tt (put_reg fr f dest (VInt r) w).
Proof.
  intros Hs Hf Ha Hb Hop.
  rewrite (binary_on_integers _ _ _ _ _ _ _ _ _ _ Hs Hf Ha Hb), Hop.
  apply (set_reg_on_frame _ _ _ _ Hs Hf).
Qed.

Lemma binary_fault `{Host} self w fr f op dest left right a b e :
  handler_frame w !! self = Some fr ->
  frames w !! fr = Some f ->
  registers f !! left = Some (VInt a) ->
  registers f !! right = Some (VInt b) ->
  py_binop false op (VInt a) (VInt b) w = Raise e w ->
  binary self op dest left right w = Raise e w.
Proof.
  intros Hs Hf Ha Hb Hop.
  now rewrite (binary_on_integers _ _ _ _ _ _ _ _ _ _ Hs Hf Ha Hb), Hop.
Qed.

(** X4.  [div-int] and [rem-int] are the floor division and the remainder
    of the host language, on integers without bound: the quotient is rounded
    towards minus infinity and the remainder has the sign of the divisor, so
    that [a = b * q + r] with [r] between zero and [b].  A zero divisor raises [ZeroDivisionError] and
    the destination is not written. *)
Theorem div_rem_round_to_the_floor `{Host} self w fr f dest left right a b :
  handler_frame w !! self = Some fr ->
  frames w !! fr = Some f ->
  registers f !! left = Some (VInt a) ->
  registers f !! right = Some (VInt b) ->
  (b = 0 ->
   div_int self dest left right w = Raise (HostError "ZeroDivisionError") w
   /\ rem_int self dest left right w
      = Raise (HostError "ZeroDivisionError") w)
  /\ (b <> 0 ->
      exists q r,
        div_int self dest left right w
        = Ok tt (put_reg fr f dest (VInt q) w)
        /\ rem_int self dest left right w
           = Ok tt (put_reg fr f dest (VInt r) w)
        /\ a = b * q + r
        /\ (0 < b -> 0 <= r < b)
        /\ (b < 0 -> b < r <= 0)).
Proof.
  intros Hs Hf Ha Hb. split.
  - intros ->. split;
      apply (binary_fault _ _ _ _ _ _ _ _ _ _ _ Hs Hf Ha Hb); reflexivity.
  - intros Hne. exists (a / b), (a mod b).
    assert (Hz : (b =? 0) = false) by now apply Z.eqb_neq.
    split; [|split; [|split; [|split]]].
    + apply (binary_result _ _ _ _ _ _ _ _ _ _ _ Hs Hf Ha Hb).
      unfold py_binop. cbn [as_int]. now rewrite Hz.
    + apply (binary_result _ _ _ _ _ _ _ _ _ _ _ Hs Hf Ha Hb).
      unfold py_binop. cbn [as_int]. now rewrite Hz.
    + now apply Z.div_mod.
    + intros Hpos. now apply Z.mod_pos_bound.
    + intros Hneg. now apply Z.mod_neg_bound.
Qed.

Lemma div_rem_round_to_the_floor_witness :
  exists q r,
    div_int (H := plain_host) "div-int" "v0" "v0" "v1"
      (world_of_frame "div-int" (pair_frame (-7) 2))
    = Ok tt (put_reg 1%nat (pair_frame (-7) 2) "v0" (VInt q)
               (world_of_frame "div-int" (pair_frame (-7) 2)))
    /\ rem_int (H := plain_host) "div-int" "v0" "v0" "v1"
         (world_of_frame "div-int" (pair_frame (-7) 2))
       = Ok tt (put_reg 1%nat (pair_frame (-7) 2) "v0" (VInt r)
                  (world_of_frame "div-int" (pair_frame (-7) 2)))
    /\ -7 = 2 * q + r
    /\ (0 < 2 -> 0 <= r < 2)
    /\ (2 < 0 -> 2 < r <= 0).
Proof.
  apply (div_rem_round_to_the_floor (H := plain_host) "div-int"
           (world_of_frame "div-int" (pair_frame (-7) 2)) 1%nat
           (pair_frame (-7) 2) "v0" "v0" "v1" (-7) 2
           eq_refl eq_refl eq_refl eq_refl).
  discriminate.
Defined.

(** ** The names of the registry *)

Section RegistryNames.
Context `{Host}.

Lemma decorate_no_raise d f (reg : gmap string Executor) :
  canonical f <> "" -> snd (decorate d f reg) = None.
Proof.
  intros Hne. destruct d as [l|]; [|reflexivity].
  unfold decorate, OpcodeExecutor, Executor__init__. fold (canonical f).
  destruct (canonical f) as [|c s]; [contradiction|].
  now destruct l.
Qed.

Lemma run_module_step d f stmts (reg : gmap string Executor) :
  canonical f <> "" ->
  run_module ((d, f) :: stmts) reg
  = run_module stmts (fst (decorate d f reg)).
Proof.
  intros Hne. simpl. pose proof (decorate_no_raise d f reg Hne) as Hno.
  destruct (decorate d f reg) as [reg' [e|]]; [discriminate|reflexivity].
Qed.

Lemma run_module_no_raise stmts (reg : gmap string Executor) :
  Forall (fun s => canonical (snd s) <> "") stmts ->
  snd (run_module stmts reg) = None.
Proof.
  revert reg. induction stmts as [|[d f] stmts IH]; intros reg Hall.
  - reflexivity.
  - inversion Hall as [|? ? Hne Hrest]; subst.
    rewrite (run_module_step _ _ _ _ Hne). now apply IH.
Qed.

Lemma canonical_nonempty_of_module :
  Forall (fun s => canonical (snd s) <> "") module_body.
Proof.
  unfold module_body.
  repeat (apply List.Forall_cons; [vm_compute; discriminate|]).
  apply List.Forall_nil.
Qed.

Lemma registered_names_cons d f stmts k :
  k ∈ registered_names ((d, f) :: stmts)
  <-> (exists l, d = Called l /\ (k ∈ l \/ k = canonical f))
      \/ k ∈ registered_names stmts.
Proof.
  unfold registered_names, aliases, called_names. simpl.
  rewrite !elem_of_app. destruct d as [l|]; simpl.
  - rewrite elem_of_cons, elem_of_nil. split.
    + intros [[Hl|Ha]|[[Hc|[]]|Hn]].
      * left. exists l. split; [reflexivity|left; exact Hl].
      * right. left. exact Ha.
      * left. exists l. split; [reflexivity|right; exact Hc].
      * right. right. exact Hn.
    + intros [[l' [[= <-] [Hl|Hc]]]|[Ha|Hn]].
      * left. left. exact Hl.
      * right. left. left. exact Hc.
      * left. right. exact Ha.
      * right. right. exact Hn.
  - rewrite elem_of_nil. split; [tauto|].
    intros [[l' [[=] _]]|Hn]; tauto.
Qed.

(** A name that no definition of [stmts] asks for is left as it was. *)
Lemma run_module_lookup_other stmts (reg : gmap string Executor) k :
  k ∉ registered_names stmts ->
  fst (run_module stmts reg) !! k = reg !! k.
Proof.
  revert reg. induction stmts as [|[d f] stmts IH]; intros reg Hk.
  - reflexivity.
  - assert (Hrest : k ∉ registered_names stmts)
      by (intros Hin; apply Hk, registered_names_cons; now right).
    assert (Hstep : fst (decorate d f reg) !! k = reg !! k).
    { rewrite decorate_lookup. destruct d as [l|]; [|reflexivity].
      destruct (String.eqb (canonical f) ""); [reflexivity|].
      rewrite bool_decide_eq_false_2.
      - destruct (String.eqb (canonical f) k) eqn:Ek; [|reflexivity].
        apply String.eqb_eq in Ek. exfalso. apply Hk, registered_names_cons.
        left. exists l. split; [reflexivity|now right].
      - intros Hin. apply Hk, registered_names_cons. left. exists l.
        split; [reflexivity|now left]. }
    simpl. destruct (decorate d f reg) as [reg' [e|]]; simpl in *.
    + exact Hstep.
    + now rewrite (IH _ Hrest).
Qed.

(** A name that a definition of [stmts] asks for has the executor of the
    last definition that does. *)
Lemma run_module_lookup_registered stmts (reg : gmap string Executor) k :
  Forall (fun s => canonical (snd s) <> "") stmts ->
  k ∈ registered_names stmts ->
  exists l f, In (Called l, f) stmts
              /\ (k ∈ l \/ k = canonical f)
              /\ fst (run_module stmts reg) !! k
                 = Some (mkExecutor (canonical f) (Some f)).
Proof.
  revert reg. induction stmts as [|[d f] stmts IH]; intros reg Hall Hk.
  - unfold registered_names in Hk. simpl in Hk. now apply elem_of_nil in Hk.
  - inversion Hall as [|? ? Hne Hrest]; subst. simpl in Hne.
    rewrite (run_module_step _ _ _ _ Hne).
    destruct (decide (k ∈ registered_names stmts)) as [Hin|Hout].
    + destruct (IH (fst (decorate d f reg)) Hrest Hin)
        as [l [g [Hg [Hask Hlook]]]].
      exists l, g. split; [now right|]. now split.
    + apply registered_names_cons in Hk as [[l [-> Hask]]|Hin];
        [|contradiction].
      exists l, f. split; [now left|]. split; [exact Hask|].
      rewrite (run_module_lookup_other _ _ _ Hout), decorate_lookup.
      apply String.eqb_neq in Hne. rewrite Hne.
      destruct Hask as [Hl| ->].
      * now rewrite bool_decide_eq_true_2.
      * rewrite String.eqb_refl. now destruct (bool_decide _).
Qed.

(** The last definition of a module has every name it asks for. *)
Lemma run_module_last_wins stmts (reg : gmap string Executor) l f k :
  Forall (fun s => canonical (snd s) <> "") stmts ->
  last stmts = Some (Called l, f) ->
  k ∈ l \/ k = canonical f ->
  fst (run_module stmts reg) !! k = Some (mkExecutor (canonical f) (Some f)).
Proof.
  revert reg. induction stmts as [|[d g] stmts IH]; intros reg Hall Hlast Hk.
  - discriminate.
  - inversion Hall as [|? ? Hne Hrest]; subst. simpl in Hne.
    rewrite (run_module_step _ _ _ _ Hne).
    destruct stmts as [|s stmts].
    + injection Hlast as -> ->. cbn [run_module fst].
      rewrite decorate_lookup.
      apply String.eqb_neq in Hne. rewrite Hne.
      destruct Hk as [Hl| ->].
      * now rewrite bool_decide_eq_true_2.
      * rewrite String.eqb_refl. now destruct (bool_decide _).
    + apply IH; [exact Hrest| |exact Hk]. exact Hlast.
Qed.

End RegistryNames.

(** X5.  Importing the module raises nothing, whatever strings the names
    of [smali.opcode] stand for, and [executor] finds exactly the names that
    the definitions with a called decorator ask for: a name that is the
    canonical opcode of such a definition or one of its aliases gives the
    executor of a definition that asks for it, with the canonical opcode as
    its [opcode]; any other name is a [KeyError]. *)
Theorem executor_finds_the_registered_names `{Host} :
  snd (run_module module_body ∅) = None
  /\ forall k,
       (k ∈ registered_names module_body ->
        exists l f, In (Called l, f) module_body
                    /\ (k ∈ l \/ k = canonical f)
                    /\ executor k = inr (mkExecutor (canonical f) (Some f)))
       /\ (k ∉ registered_names module_body ->
           executor k = inl (HostError "KeyError")).
Proof.
  split; [apply run_module_no_raise, canonical_nonempty_of_module|].
  intros k. split.
  - intros Hk.
    destruct (run_module_lookup_registered module_body ∅ k
                canonical_nonempty_of_module Hk) as [l [f [Hin [Hask Hl]]]].
    exists l, f. split; [exact Hin|]. split; [exact Hask|].
    unfold executor, __executors__.
    exact (f_equal (fun o : option Executor =>
                      match o with
                      | Some e => inr e
                      | None => inl (HostError "KeyError")
                      end) Hl).
  - intros Hk. unfold executor, __executors__.
    pose proof (run_module_lookup_other module_body ∅ k Hk) as Hl.
    rewrite lookup_empty in Hl.
    exact (f_equal (fun o : option Executor =>
                      match o with
                      | Some e => inr e
                      | None => inl (HostError "KeyError")
                      end) Hl).
Qed.

Lemma executor_finds_the_registered_names_witness :
  ("if-eq" ∉ registered_names (module_body (H := plain_host)))
  /\ executor (H := plain_host) "if-eq" = inl (HostError "KeyError").
Proof.
  assert (Hk : "if-eq" ∉ registered_names (module_body (H := plain_host))).
  { apply (bool_decide_unpack _). vm_compute. exact I. }
  split; [exact Hk|].
  apply (proj2 (executor_finds_the_registered_names (H := plain_host))
           "if-eq").
  exact Hk.
Defined.

Lemma last_of_module `{Host} :
  last module_body
  = Some (Called (imported ["SHR_LONG"; "USHR_LONG"; "USHR_INT"]),
          def "shr_int" (params3 shr_int)).
Proof. reflexivity. Qed.

(** X6.  The unsigned shifts are the signed one.  The names [SHR_LONG],
    [USHR_LONG] and [USHR_INT] are aliases of [shr_int], the last definition
    of the module, so whatever strings they stand for give the executor
    [shr-int]; its action shifts with the sign: on an integer [a] and a
    count [c] that is not negative it writes the floor of [a / 2 ^ c], which
    is negative when [a] is. *)
Theorem ushr_runs_the_arithmetic_shift `{Host}
    self w fr f dest left right a c :
  handler_frame w !! self = Some fr ->
  frames w !! fr = Some f ->
  registers f !! left = Some (VInt a) ->
  registers f !! right = Some (VInt c) ->
  0 <= c ->
  forall n, n ∈ ["SHR_LONG"; "USHR_LONG"; "USHR_INT"] ->
    exists g,
      executor (smali_opcode n) = inr (mkExecutor "shr-int" (Some g))
      /\ body g self [Str dest; Str left; Str right] w
         = Ok tt (put_reg fr f dest (VInt (a / 2 ^ c)) w)
      /\ (a < 0 -> a / 2 ^ c < 0).
Proof.
  intros Hs Hf Ha Hc Hpos n Hn.
  exists (def "shr_int" (params3 shr_int)). split; [|split].
  - pose proof (run_module_last_wins module_body ∅ _ _ (smali_opcode n)
                  canonical_nonempty_of_module last_of_module) as Hl.
    unfold executor, __executors__.
    refine (f_equal (fun o : option Executor =>
                       match o with
                       | Some e => inr e
                       | None => inl (HostError "KeyError")
                       end) (Hl _)).
    left. unfold imported. apply list_elem_of_fmap. now exists n.
  - cbn [body params3]. unfold shr_int.
    apply (binary_result _ _ _ _ _ _ _ _ _ _ _ Hs Hf Ha Hc).
    unfold py_binop. cbn [as_int].
    destruct (c <? 0) eqn:E; [lia|].
    now rewrite Z.shiftr_div_pow2.
  - intros Hneg. apply Z.div_lt_upper_bound; [|lia].
    now apply Z.pow_pos_nonneg.
Qed.

Lemma ushr_runs_the_arithmetic_shift_witness :
  exists g,
    executor (H := plain_host) "ushr-int" = inr (mkExecutor "shr-int" (Some g))
    /\ body g "shr-int" [Str "v0"; Str "v0"; Str "v1"]
         (world_of_frame "shr-int" (pair_frame (-8) 1))
       = Ok tt (put_reg 1%nat (pair_frame (-8) 1) "v0" (VInt (-8 / 2 ^ 1))
                  (world_of_frame "shr-int" (pair_frame (-8) 1)))
    /\ (-8 < 0 -> -8 / 2 ^ 1 < 0).
Proof.
  apply (ushr_runs_the_arithmetic_shift (H := plain_host) "shr-int"
           (world_of_frame "shr-int" (pair_frame (-8) 1)) 1%nat
           (pair_frame (-8) 1) "v0" "v0" "v1" (-8) 1
           eq_refl eq_refl eq_refl eq_refl ltac:(lia) "USHR_INT").
  apply list_elem_of_In. simpl. tauto.
Defined.

(** X7.  What [Executor.__init__] does to the registry.  The opcode is
    derived from the name of the action whenever there is an action, and
    the [name] argument is then ignored; without an action it is [name].
    If that gives no opcode, or the empty one, the constructor raises
    [ValueError] and the registry is as before.  Otherwise the opcode and
    every name of [map_to] are bound to the one new executor, a binding
    they had before is replaced, and every other name keeps its own. *)
Theorem init_binds_the_opcode_and_its_aliases
    (act : option Function) (opname : option string) (l : list string)
    (registry : gmap string Executor) :
  let derived := match act with
                 | Some f => Some (canonical f)
                 | None => opname
                 end in
  match Executor__init__ act opname (MapList l) registry with
  | (registry', inr ex) =>
      derived = Some (opcode ex)
      /\ opcode ex <> ""
      /\ action ex = act
      /\ forall k,
           registry' !! k
           = if bool_decide (k = opcode ex \/ k ∈ l) then Some ex
             else registry !! k
  | (registry', inl e) =>
      e = HostError "ValueError"
      /\ registry' = registry
      /\ (derived = None \/ derived = Some "")
  end.
Proof.
  intros derived. unfold Executor__init__. fold derived.
  replace (match act with
           | Some f => Some (replace "_" "-" (replace "__" "/" (__name__ f)))
           | None => opname
           end) with derived by (now destruct act).
  destruct derived as [[|c s]|] eqn:E.
  - split; [reflexivity|]. split; [reflexivity|]. now right.
  - assert (Hk : forall k,
              (<[String c s := mkExecutor (String c s) act]> registry) !! k
              = if bool_decide (k = String c s)
                then Some (mkExecutor (String c s) act)
                else registry !! k).
    { intros k. destruct (decide (k = String c s)) as [->|Hne].
      - rewrite bool_decide_eq_true_2 by reflexivity. apply lookup_insert_eq.
      - rewrite bool_decide_eq_false_2 by exact Hne.
        apply lookup_insert_ne. congruence. }
    assert (Hall : forall k,
              foldl (fun r op_name =>
                       <[op_name := mkExecutor (String c s) act]> r)
                    (<[String c s := mkExecutor (String c s) act]> registry)
                    l !! k
              = if bool_decide (k = String c s \/ k ∈ l)
                then Some (mkExecutor (String c s) act)
                else registry !! k).
    { intros k. rewrite foldl_insert_lookup, Hk.
      destruct (decide (k ∈ l)) as [Hin|Hout].
      - rewrite bool_decide_eq_true_2 by exact Hin.
        rewrite bool_decide_eq_true_2 by (now right). reflexivity.
      - rewrite bool_decide_eq_false_2 by exact Hout.
        destruct (decide (k = String c s)) as [->|Hne].
        + rewrite !bool_decide_eq_true_2; [reflexivity|now left|reflexivity].
        + rewrite !bool_decide_eq_false_2; [reflexivity|tauto|exact Hne]. }
    destruct l as [|a l].
    + cbn [opcode action]. split; [reflexivity|]. split; [discriminate|].
      split; [reflexivity|]. intros k. rewrite Hk.
      destruct (decide (k = String c s)) as [->|Hne].
      * rewrite !bool_decide_eq_true_2; [reflexivity|now left|reflexivity].
      * rewrite !bool_decide_eq_false_2; [reflexivity| |exact Hne].
        intros [Heq|Hin]; [contradiction|now apply elem_of_nil in Hin].
    + cbn [opcode action]. split; [reflexivity|]. split; [discriminate|].
      split; [reflexivity|]. exact Hall.
  - split; [reflexivity|]. split; [reflexivity|]. now left.
Qed.

(** ** Opposite branches *)

(** X8.  Of two opposite branches on the same integers exactly one jumps:
    with the test of the first true, the first is the [goto] to its label
    and the second returns with the store as it was; with the test false it
    is the other way round.  A branch that does not jump does not look its
    label up, so a label that the frame does not have goes unnoticed. *)
Theorem opposite_branches_split `{Host} self w fr f left right lbl a b :
  handler_frame w !! self = Some fr ->
  frames w !! fr = Some f ->
  registers f !! left = Some (VInt a) ->
  registers f !! right = Some (VInt b) ->
  (forall h h' test, In (h, h', test) opposite_register_branches ->
     if test a b
     then h self left right lbl w = goto self lbl w
          /\ h' self left right lbl w = Ok tt w
     else h self left right lbl w = Ok tt w
          /\ h' self left right lbl w = goto self lbl w)
  /\ (forall h h' test, In (h, h', test) opposite_zero_branches ->
        if test a
        then h self left lbl w = goto self lbl w
             /\ h' self left lbl w = Ok tt w
        else h self left lbl w = Ok tt w
             /\ h' self left lbl w = goto self lbl w).
Proof.
  intros Hs Hf Ha Hb.
  pose proof (reg_value _ _ _ _ Hs Hf _ _ Ha) as Hleft.
  pose proof (reg_value _ _ _ _ Hs Hf _ _ Hb) as Hright.
  split; intros h h' test Hin; simpl in Hin;
    repeat (destruct Hin as [Hin|Hin]; [injection Hin as <- <- <-|]);
    try contradiction;
    cbv delta [if_lt if_ge if_le if_gt if_ltz if_gez if_lez if_gtz if_eqz
               if_nez]; cbv beta;
    rewrite ?(bind_ok _ _ _ _ _ Hleft), ?(bind_ok _ _ _ _ _ Hright);
    unfold py_compare; cbn [as_int int_compare]; unfold bind, ret;
    rewrite ?Z.gtb_ltb, ?Z.geb_leb.
  - destruct (Z.ltb_spec a b), (Z.leb_spec b a); try lia; now split.
  - destruct (Z.leb_spec a b), (Z.ltb_spec b a); try lia; now split.
  - destruct (Z.ltb_spec a 0), (Z.leb_spec 0 a); try lia; now split.
  - destruct (Z.leb_spec a 0), (Z.ltb_spec 0 a); try lia; now split.
  - destruct (a =? 0); now split.
Qed.

Lemma opposite_branches_split_witness :
  if_lt (H := plain_host) "if-lt" "v0" "v1" "nowhere"
    (world_of_frame "if-lt" (pair_frame 3 3))
  = Ok tt (world_of_frame "if-lt" (pair_frame 3 3))
  /\ if_ge (H := plain_host) "if-lt" "v0" "v1" "nowhere"
       (world_of_frame "if-lt" (pair_frame 3 3))
     = goto "if-lt" "nowhere" (world_of_frame "if-lt" (pair_frame 3 3)).
Proof.
  apply (proj1 (opposite_branches_split (H := plain_host) "if-lt"
                  (world_of_frame "if-lt" (pair_frame 3 3)) 1%nat
                  (pair_frame 3 3) "v0" "v1" "nowhere" 3 3
                  eq_refl eq_refl eq_refl eq_refl)
           if_lt if_ge Z.ltb).
  simpl. tauto.
Defined.

(** ** The body of the sparse switch *)

Lemma sparse_scan_no_match `{Host} self value items w :
  Forall (fun kl => exists k, SmaliValue (fst kl) w = Ok k w
                              /\ py_compare CmpEq k value w = Ok false w)
         items ->
  sparse_scan self value items w = Ok tt w.
Proof.
  induction 1 as [|[key lbl] items [k [Hk Hc]] _ IH]; [reflexivity|].
  simpl in Hk. cbn [sparse_scan].
  rewrite (bind_ok _ _ _ _ _ Hk), (bind_ok _ _ _ _ _ Hc). exact IH.
Qed.

(** X9.  The body of [sparse_switch] falls through when no key of the
    table is the value of the register: it returns and the store is as it
    was, the default branch.  A table that the frame does not have is a
    [KeyError], raised before the register is read. *)
Theorem sparse_switch_falls_through `{Host} self w fr f register data :
  handler_frame w !! self = Some fr ->
  frames w !! fr = Some f ->
  (switch_data f !! data = None ->
   sparse_switch self register data w = Raise (HostError "KeyError") w)
  /\ (forall items value,
        switch_data f !! data = Some (SparseTable items) ->
        registers f !! register = Some value ->
        Forall (fun kl => exists k, SmaliValue (fst kl) w = Ok k w
                                    /\ py_compare CmpEq k value w
                                       = Ok false w)
               items ->
        sparse_switch self register data w = Ok tt w).
Proof.
  intros Hs Hf.
  pose proof (frame_attr_on_frame _ _ _ _ Hs Hf switch_data) as Hsd.
  split.
  - intros Hnone. unfold sparse_switch.
    rewrite (bind_ok _ _ _ _ _ Hsd), Hnone. reflexivity.
  - intros items value Ht Hv Hall. unfold sparse_switch.
    rewrite (bind_ok _ _ _ _ _ Hsd), Ht.
    rewrite (bind_ok _ _ _ _ _ (reg_value _ _ _ _ Hs Hf _ _ Hv)).
    now apply sparse_scan_no_match.
Qed.

Lemma sparse_switch_falls_through_witness :
  sparse_switch (H := plain_host) "sparse-switch" "v0" "sw"
    (world_of_frame "sparse-switch" (sparse_frame 15))
  = Ok tt (world_of_frame "sparse-switch" (sparse_frame 15)).
Proof.
  apply (proj2 (sparse_switch_falls_through (H := plain_host) "sparse-switch"
                  (world_of_frame "sparse-switch" (sparse_frame 15)) 1%nat
                  (sparse_frame 15) "v0" "sw" eq_refl eq_refl)
           [("10", "A"); ("20", "B")] (VInt 15) eq_refl eq_refl).
  repeat constructor.
  - exists (VInt 10). split; reflexivity.
  - exists (VInt 20). split; reflexivity.
Defined.

(** ** Static fields *)

(** X10.  A value stored in a static field is the value read from it.
    [sput] writes the value of its register into the cell of the field and
    [sget] reads the cell into its register; both find the field by the
    owner before [->] and the name before [:], and neither looks at the
    type after the colon, so the two descriptors may differ in it.  (The
    class and its field are found by the host, which here answers without
    touching the store.) *)
Theorem static_field_round_trip `{Host}
    self w fr f src dst dest dest' owner nt nt' field ty ty' cls cell value :
  handler_frame w !! self = Some fr ->
  frames w !! fr = Some f ->
  registers f !! src = Some value ->
  split "->" dest = [owner; nt] ->
  split ":" nt = [field; ty] ->
  split "->" dest' = [owner; nt'] ->
  split ":" nt' = [field; ty'] ->
  (forall w', vm_get_class (vm f) owner w' = Ok cls w') ->
  (forall w', SmaliClass_field cls field w' = Ok cell w') ->
  (sput_object self src dest ;; sget_object self dst dest') w
  = Ok tt (put_reg fr f dst value
             (set_cells (<[cell := value]> (cells w)) w)).
Proof.
  intros Hs Hf Hv Hd Hnt Hd' Hnt' Hcls Hfield.
  set (w1 := set_cells (<[cell := value]> (cells w)) w).
  assert (Hc : forall w', handler_frame w' !! self = Some fr ->
                          frames w' !! fr = Some f ->
                          frame_vm_get_class self owner w' = Ok cls w').
  { intros w' Hs' Hf'. unfold frame_vm_get_class.
    rewrite (bind_ok _ _ _ _ _ (frame_attr_on_frame _ _ _ _ Hs' Hf' vm)).
    apply Hcls. }
  assert (Hput : sput_object self src dest w = Ok tt w1).
  { unfold sput_object.
    rewrite (bind_ok _ _ _ _ _ (reg_value _ _ _ _ Hs Hf _ _ Hv)).
    rewrite Hd.
    rewrite (bind_ok _ _ _ _ _
               (eq_refl : unpack2 [owner; nt] w = Ok (owner, nt) w)).
    cbn [fst snd]. rewrite Hnt.
    rewrite (bind_ok _ _ _ _ _
               (eq_refl : unpack2 [field; ty] w = Ok (field, ty) w)).
    cbn [fst snd].
    rewrite (bind_ok _ _ _ _ _ (Hc w Hs Hf)), (bind_ok _ _ _ _ _ (Hfield w)).
    reflexivity. }
  assert (Hs1 : handler_frame w1 !! self = Some fr) by exact Hs.
  assert (Hf1 : frames w1 !! fr = Some f) by exact Hf.
  assert (Hget : sget_object self dst dest' w1
                 = Ok tt (put_reg fr f dst value w1)).
  { unfold sget_object. rewrite Hd'.
    rewrite (bind_ok _ _ _ _ _
               (eq_refl : unpack2 [owner; nt'] w1 = Ok (owner, nt') w1)).
    cbn [fst snd]. rewrite Hnt'.
    rewrite (bind_ok _ _ _ _ _
               (eq_refl : unpack2 [field; ty'] w1 = Ok (field, ty') w1)).
    cbn [fst snd].
    rewrite (bind_ok _ _ _ _ _ (Hc w1 Hs1 Hf1)),
      (bind_ok _ _ _ _ _ (Hfield w1)).
    assert (Hcell : cell_value cell w1 = Ok value w1).
    { unfold cell_value, w1. cbn [cells set_cells].
      now rewrite lookup_insert_eq. }
    rewrite (bind_ok _ _ _ _ _ Hcell).
    apply (set_reg_on_frame _ _ _ _ Hs1 Hf1). }
  now rewrite (bind_ok _ _ _ _ _ Hput).
Qed.

Lemma static_field_round_trip_witness :
  (sput_object (H := Conf_host) "sput" "v1" "LConf;->limit:I" ;;
   sget_object (H := Conf_host) "sput" "v0" "LConf;->limit:J")
    (world_of_frame "sput" (literal_frame 9))
  = Ok tt (put_reg 1%nat (literal_frame 9) "v0" (VInt 9)
             (set_cells (<[0%nat := VInt 9]>
                           (cells (world_of_frame "sput" (literal_frame 9))))
                        (world_of_frame "sput" (literal_frame 9)))).
Proof.
  apply (static_field_round_trip (H := Conf_host) "sput"
           (world_of_frame "sput" (literal_frame 9)) 1%nat (literal_frame 9)
           "v1" "v0" "LConf;->limit:I" "LConf;->limit:J"
           "LConf;" "limit:I" "limit:J" "limit" "I" "J" Conf_class 0%nat
           (VInt 9) eq_refl eq_refl eq_refl eq_refl eq_refl eq_refl eq_refl).
  - intros w'. reflexivity.
  - intros w'. reflexivity.
Defined.

(** ** Instance fields *)



(** ** New arrays *)

(** X12.  [new-array] makes a new list, under an identity that no list of
    the store has, of as many elements as the count register says and of
    none when the count is negative, each the default of the class name:
    zero for a name found in ["BSIJ"], the float zero for one found in
    ["FD"] and [None] otherwise.  [array-length] on the register then
    gives that number of elements. *)
Theorem new_array_then_length `{Host}
    self w fr f dest count descriptor out cls n :
  handler_frame w !! self = Some fr ->
  frames w !! fr = Some f ->
  registers f !! count = Some (VInt n) ->
  Type_class_name descriptor w = Ok cls w ->
  let r := fresh (dom (lists w)) in
  let f1 := set_registers (<[dest := VList r]> (registers f)) f in
  let w1 := put_frame fr f1
              (put_list r (replicate (Z.to_nat n) (array_default cls)) w) in
  lists w !! r = None
  /\ new_array self dest count descriptor w = Ok tt w1
  /\ array_length self out dest w1
     = Ok tt (put_reg fr f1 out (VInt (Z.max 0 n)) w1).
Proof.
  intros Hs Hf Hn Hcls r f1 w1.
  pose proof (reg_value _ _ _ _ Hs Hf _ _ Hn) as Hcount.
  split; [apply not_elem_of_dom, is_fresh|]. split.
  - unfold new_array.
    rewrite (bind_ok _ _ _ _ _ Hcls), (bind_ok _ _ _ _ _ Hcount).
    rewrite (bind_ok _ _ _ _ _
               (eq_refl : py_repeat VNone (VInt n) w
                          = Ok (replicate (Z.to_nat n) VNone) w)).
    assert (Hvalues :
              (if str_in cls "BSIJ"
               then let* n := reg self count in py_repeat (VInt 0) n
               else if str_in cls "FD"
                    then let* n := reg self count in
                         py_repeat (VFloat (S754_zero false)) n
                    else ret (replicate (Z.to_nat n) VNone)) w
              = Ok (replicate (Z.to_nat n) (array_default cls)) w).
    { unfold array_default.
      destruct (str_in cls "BSIJ"); [|destruct (str_in cls "FD")];
        try rewrite (bind_ok _ _ _ _ _ Hcount); reflexivity. }
    rewrite (bind_ok _ _ _ _ _ Hvalues).
    rewrite (bind_ok _ _ _ _ _
               (eq_refl : new_list (replicate (Z.to_nat n) (array_default cls))
                            w
                          = Ok (VList r) (put_list r _ w))).
    apply (set_reg_on_frame self (put_list r _ w) fr f Hs Hf).
  - assert (Hs1 : handler_frame w1 !! self = Some fr) by exact Hs.
    pose proof (frames_put_frame fr f1
                  (put_list r (replicate (Z.to_nat n) (array_default cls)) w))
      as Hf1.
    fold w1 in Hf1.
    assert (Hdest : registers f1 !! dest = Some (VList r))
      by apply lookup_insert_eq.
    unfold array_length.
    rewrite (bind_ok _ _ _ _ _ (reg_value _ _ _ _ Hs1 Hf1 _ _ Hdest)).
    assert (Hlen : py_len (VList r) w1 = Ok (Z.max 0 n) w1).
    { unfold py_len, load_list, bind, ret.
      replace (lists w1 !! r)
        with (Some (replicate (Z.to_nat n) (array_default cls)))
        by (symmetry; apply lookup_insert_eq).
      rewrite length_replicate. f_equal. lia. }
    rewrite (bind_ok _ _ _ _ _ Hlen).
    apply (set_reg_on_frame _ _ _ _ Hs1 Hf1).
Qed.

Lemma new_array_then_length_witness :
  exists w1,
    new_array (H := plain_host) "new-array" "v0" "v1" "I"
      (world_of_frame "new-array" (literal_frame (-2)))
    = Ok tt w1
    /\ array_length (H := plain_host) "new-array" "v2" "v0" w1
       = Ok tt (put_reg 1%nat
                  (set_registers (<[ "v0" := VList 0%nat ]>
                                    (registers (literal_frame (-2))))
                                 (literal_frame (-2)))
                  "v2" (VInt 0) w1).
Proof.
  eexists.
  apply (new_array_then_length (H := plain_host) "new-array"
           (world_of_frame "new-array" (literal_frame (-2))) 1%nat
           (literal_frame (-2)) "v0" "v1" "I" "v2" "I" (-2)
           eq_refl eq_refl eq_refl eq_refl).
Defined.

(** ** Array data *)

(** X13.  [fill-array-data] does not copy.  It puts the very list that the
    frame keeps under the label into the register and makes no list of its
    own, so a store through the register changes the data of the label:
    after [aput] at a position that its test lets through, the list under
    the label holds the stored value, and every later [fill-array-data] of
    that label hands out the changed list.  A label that the frame has no
    data for is a [KeyError]. *)
Theorem fill_array_data_shares_the_list `{Host} self w fr f dest label :
  handler_frame w !! self = Some fr ->
  frames w !! fr = Some f ->
  (array_data f !! label = None ->
   fill_array_data self dest label w = Raise (HostError "KeyError") w)
  /\ (forall v, array_data f !! label = Some v ->
                fill_array_data self dest label w
                = Ok tt (put_reg fr f dest v w))
  /\ (forall r l src index x i,
        array_data f !! label = Some (VList r) ->
        lists w !! r = Some l ->
        registers f !! src = Some x ->
        registers f !! index = Some (VInt i) ->
        src <> dest -> index <> dest ->
        0 <= i < Z.of_nat (String.length dest) ->
        i < Z.of_nat (length l) ->
        exists w2,
          (fill_array_data self dest label ;; aput self src dest index) w
          = Ok tt w2
          /\ lists w2 !! r = Some (<[Z.to_nat i := x]> l)
          /\ ((frames w2 !! fr) ≫= (fun g => array_data g !! label))
             = Some (VList r)).
Proof.
  intros Hs Hf.
  pose proof (frame_attr_on_frame _ _ _ _ Hs Hf array_data) as Had.
  assert (Hfill : forall v, array_data f !! label = Some v ->
                            fill_array_data self dest label w
                            = Ok tt (put_reg fr f dest v w)).
  { intros v Hv. unfold fill_array_data.
    rewrite (bind_ok _ _ _ _ _ Had), Hv.
    apply (set_reg_on_frame _ _ _ _ Hs Hf). }
  split; [|split; [exact Hfill|]].
  - intros Hnone. unfold fill_array_data.
    rewrite (bind_ok _ _ _ _ _ Had), Hnone. reflexivity.
  - intros r l src index x i Hv Hl Hx Hi Hsrc Hindex Hrange Hlen.
    set (f1 := set_registers (<[dest := VList r]> (registers f)) f).
    set (w1 := put_reg fr f dest (VList r) w).
    exists (put_list r (<[Z.to_nat i := x]> l) w1).
    assert (Hs1 : handler_frame w1 !! self = Some fr) by exact Hs.
    assert (Hf1 : frames w1 !! fr = Some f1) by apply frames_put_frame.
    assert (Hi1 : registers f1 !! index = Some (VInt i)).
    { unfold f1. cbn [registers set_registers].
      rewrite lookup_insert_ne by congruence. exact Hi. }
    assert (Hx1 : registers f1 !! src = Some x).
    { unfold f1. cbn [registers set_registers].
      rewrite lookup_insert_ne by congruence. exact Hx. }
    assert (Hd1 : registers f1 !! dest = Some (VList r))
      by apply lookup_insert_eq.
    assert (Hl1 : lists w1 !! r = Some l) by exact Hl.
    split; [|split].
    + rewrite (bind_ok _ _ _ _ _ (Hfill _ Hv)). fold w1.
      rewrite (aput_run self w1 fr f1 dest index i r l Hs1 Hf1 Hi1 Hd1 Hl1
                 src x Hx1).
      destruct (i <? 0) eqn:E0; [lia|].
      destruct (i >? Z.of_nat (String.length dest)) eqn:E1; [lia|].
      destruct (Z.of_nat (String.length dest) =? i) eqn:E2; [lia|].
      destruct (i <? Z.of_nat (length l)) eqn:E3; [reflexivity|lia].
    + apply lookup_insert_eq.
    + transitivity (Some f1 ≫= (fun g : Frame => array_data g !! label));
        [|exact Hv].
      f_equal. exact Hf1.
Qed.

Lemma fill_array_data_shares_the_list_witness :
  exists w2,
    (fill_array_data "fill-array-data" "v0" "data" ;;
     aput (H := plain_host) "fill-array-data" "v1" "v0" "v2") data_world
    = Ok tt w2
    /\ lists w2 !! 0%nat = Some (<[Z.to_nat 0 := VInt 9]> [VInt 1; VInt 2])
    /\ ((frames w2 !! 1%nat) ≫= (fun g => array_data g !! "data"))
       = Some (VList 0%nat).
Proof.
  apply (proj2 (proj2 (fill_array_data_shares_the_list (H := plain_host)
                         "fill-array-data" data_world 1%nat data_frame
                         "v0" "data" eq_refl eq_refl))
           0%nat [VInt 1; VInt 2] "v1" "v2" (VInt 9) 0
           eq_refl eq_refl eq_refl eq_refl);
    [discriminate | discriminate | simpl; lia | simpl; lia].
Defined.

(** ** Static calls *)



(** ** The native classes *)

Section Natives.
Context `{Host}.

Lemma Object_getClass :
  Object !! "getClass()Ljava/lang/Class;"
  = Some (fun x => let* c := attr_smali_class x in ret (VClass c)).
Proof. reflexivity. Qed.

Lemma Class_getSimpleName :
  Class !! "getSimpleName()Ljava/lang/String;"
  = Some (fun x => let* n := attr_name x in ret (VStr n)).
Proof. reflexivity. Qed.

End Natives.

(** X15.  The two native classes.  On an instance [x.getClass()] gives the
    class of the instance and [getSimpleName()] on that class gives its
    name, so the four instructions of [x.getClass().getSimpleName()] leave
    the name of the class of [x] in the last register; no collaborator
    takes part.  A method that the table of [Object] does not have is a
    [NoSuchMethodError], raised before any register is read; for [Class]
    the first register is read before the table is looked at, so a fault
    of that read is what [invoke] raises, and the error of the unknown
    method is raised only once the register has been read. *)
Theorem natives_give_the_class_and_its_name `{Host}
    self w fr f x tmp out :
  handler_frame w !! self = Some fr ->
  frames w !! fr = Some f ->
  (forall r o,
     registers f !! x = Some (VObject r) ->
     objects w !! r = Some o ->
     exists g,
       simple_name_of self x tmp out w = Ok tt (put_frame fr g w)
       /\ registers g
          = <[out := VStr (name (smali_class o))]>
              (<[tmp := VClass (smali_class o)]> (registers f))
       /\ method_return g = VStr (name (smali_class o)))
  /\ (forall kind args m,
        kind ∈ ["direct"; "virtual"; "static"] ->
        Object !! m = None ->
        invoke self kind args "Ljava/lang/Object;" m w
        = Raise (ExecutionError "NoSuchMethodError" [VStr m]) w)
  /\ (forall kind rest m v,
        kind ∈ ["direct"; "virtual"; "static"] ->
        Class !! m = None ->
        (registers f !! x = Some v ->
         invoke self kind (x :: rest) "Ljava/lang/Class;" m w
         = Raise (ExecutionError "NoSuchMethodError" [VStr m]) w)
        /\ (forall e w', reg self x w = Raise e w' ->
                         invoke self kind (x :: rest) "Ljava/lang/Class;" m w
                         = Raise e w')).
Proof.
  intros Hs Hf. split; [|split].
  - intros r o Hx Ho. set (c := smali_class o).
    set (f1 := set_method_return (VClass c) f).
    set (f2 := set_registers (<[tmp := VClass c]> (registers f1)) f1).
    set (f3 := set_method_return (VStr (name c)) f2).
    set (f4 := set_registers (<[out := VStr (name c)]> (registers f3)) f3).
    exists f4. split; [|split; reflexivity].
    unfold simple_name_of.
    assert (H1 : invoke self "virtual" [x] "Ljava/lang/Object;"
                   "getClass()Ljava/lang/Class;" w
                 = Ok tt (put_frame fr f1 w)).
    { unfold invoke. cbn [String.eqb Ascii.eqb Bool.eqb].
      rewrite (bool_decide_eq_true_2
                 ("virtual" ∈ ["direct"; "virtual"; "static"]))
        by (apply list_elem_of_In; simpl; tauto).
      rewrite Object_getClass.
      rewrite (bind_ok _ _ _ _ _ (eq_refl : item [x] (VInt 0) w = Ok x w)).
      rewrite (bind_ok _ _ _ _ _ (reg_value _ _ _ _ Hs Hf _ _ Hx)).
      assert (Hc : (let* k := attr_smali_class (VObject r) in
                    ret (VClass k)) w = Ok (VClass c) w).
      { unfold attr_smali_class, load_object, bind. now rewrite Ho. }
      cbv beta. rewrite (bind_ok _ _ _ _ _ Hc).
      apply (set_frame_attr_on_frame _ _ _ _ Hs Hf). }
    rewrite (bind_ok _ _ _ _ _ H1).
    assert (Hs1 : handler_frame (put_frame fr f1 w) !! self = Some fr)
      by exact Hs.
    pose proof (frames_put_frame fr f1 w) as Hf1.
    assert (H2 : move_result self tmp (put_frame fr f1 w)
                 = Ok tt (put_frame fr f2 w)).
    { unfold move_result.
      rewrite (bind_ok _ _ _ _ _
                 (frame_attr_on_frame _ _ _ _ Hs1 Hf1 method_return)).
      rewrite (set_reg_on_frame _ _ _ _ Hs1 Hf1).
      now rewrite put_frame_put_frame. }
    rewrite (bind_ok _ _ _ _ _ H2).
    assert (Hs2 : handler_frame (put_frame fr f2 w) !! self = Some fr)
      by exact Hs.
    pose proof (frames_put_frame fr f2 w) as Hf2.
    assert (Ht : registers f2 !! tmp = Some (VClass c))
      by apply lookup_insert_eq.
    assert (H3 : invoke self "virtual" [tmp] "Ljava/lang/Class;"
                   "getSimpleName()Ljava/lang/String;" (put_frame fr f2 w)
                 = Ok tt (put_frame fr f3 w)).
    { unfold invoke. cbn [String.eqb Ascii.eqb Bool.eqb].
      rewrite (bool_decide_eq_true_2
                 ("virtual" ∈ ["direct"; "virtual"; "static"]))
        by (apply list_elem_of_In; simpl; tauto).
      rewrite (bind_ok _ _ _ _ _
                 (eq_refl : item [tmp] (VInt 0) (put_frame fr f2 w)
                            = Ok tmp _)).
      rewrite (bind_ok _ _ _ _ _ (reg_value _ _ _ _ Hs2 Hf2 _ _ Ht)).
      rewrite Class_getSimpleName. cbv beta.
      rewrite (bind_ok _ _ _ _ _
                 (eq_refl : (let* n := attr_name (VClass c) in ret (VStr n))
                              (put_frame fr f2 w)
                            = Ok (VStr (name c)) _)).
      rewrite (set_frame_attr_on_frame _ _ _ _ Hs2 Hf2).
      now rewrite put_frame_put_frame. }
    rewrite (bind_ok _ _ _ _ _ H3).
    assert (Hs3 : handler_frame (put_frame fr f3 w) !! self = Some fr)
      by exact Hs.
    pose proof (frames_put_frame fr f3 w) as Hf3.
    unfold move_result.
    rewrite (bind_ok _ _ _ _ _
               (frame_attr_on_frame _ _ _ _ Hs3 Hf3 method_return)).
    rewrite (set_reg_on_frame _ _ _ _ Hs3 Hf3).
    now rewrite put_frame_put_frame.
  - intros kind args m Hkind Hm. unfold invoke.
    rewrite (bool_decide_eq_true_2 _ Hkind).
    cbn [String.eqb Ascii.eqb Bool.eqb]. now rewrite Hm.
  - intros kind rest m v Hkind Hm. unfold invoke.
    rewrite (bool_decide_eq_true_2 _ Hkind).
    cbn [String.eqb Ascii.eqb Bool.eqb].
    rewrite !(bind_ok _ _ _ _ _
                (eq_refl : item (x :: rest) (VInt 0) w = Ok x w)).
    split.
    + intros Hx.
      rewrite (bind_ok _ _ _ _ _ (reg_value _ _ _ _ Hs Hf _ _ Hx)).
      now rewrite Hm.
    + intros e w' Hx. unfold bind. now rewrite Hx.
Qed.

Lemma natives_give_the_class_and_its_name_witness :
  exists g,
    simple_name_of (H := family_host) "invoke" "p0" "v0" "v1" child_world
    = Ok tt (put_frame 1%nat g child_world)
    /\ registers g
       = <[ "v1" := VStr (name (smali_class (mkSmaliObject Child_class ∅))) ]>
           (<[ "v0" := VClass (smali_class (mkSmaliObject Child_class ∅)) ]>
              (registers child_frame))
    /\ method_return g
       = VStr (name (smali_class (mkSmaliObject Child_class ∅))).
Proof.
  apply (proj1 (natives_give_the_class_and_its_name (H := family_host)
                  "invoke" child_world 1%nat child_frame "p0" "v0" "v1"
                  eq_refl eq_refl)
           0%nat (mkSmaliObject Child_class ∅) eq_refl eq_refl).
Defined.

(** ** The code of a frame *)

(** Every handler of the module has a property that its steps have, the
    read and the write of the error slot included. *)
Lemma all_handlers_respect `{Host} (P : forall A, M A -> Prop) :
  respected P ->
  (forall fr, P _ (getattr fr error)) ->
  (forall fr x, P _ (setattr fr (set_error x))) ->
  Forall (fun s => forall self args, P _ (body (snd s) self args))
         module_body.
Proof.
  intros R Hget Hset.
  pose proof (handlers_respect _ R) as Hall.
  rewrite Forall_forall in Hall. apply Forall_forall. intros [d f] Hin.
  simpl. destruct (decide (__name__ f = "move_exception")) as [Em|Nm];
    [|destruct (decide (__name__ f = "throw")) as [Et|Nt]].
  - unfold module_body in Hin.
    repeat (apply elem_of_cons in Hin as [Hin|Hin];
            [ injection Hin as -> ->;
              first [ discriminate Em
                    | exact (move_exception_respects _ R Hget) ] | ]).
    now apply elem_of_nil in Hin.
  - unfold module_body in Hin.
    repeat (apply elem_of_cons in Hin as [Hin|Hin];
            [ injection Hin as -> ->;
              first [ discriminate Et
                    | exact (throw_respects _ R Hset) ] | ]).
    now apply elem_of_nil in Hin.
  - exact (Hall _ Hin Nm Nt).
Qed.

Lemma code_put_frame r f g w :
  frames w !! r = Some f ->
  code_of g = code_of f ->
  code_of <$> frames (put_frame r g w) = code_of <$> frames w.
Proof.
  intros Hf Hc. unfold put_frame. simpl. rewrite fmap_insert.
  apply insert_id. rewrite lookup_fmap, Hf. simpl. now rewrite Hc.
Qed.

Lemma keeps_code_bind {A B} (m : M A) (k : A -> M B) :
  keeps_code m -> (forall a, keeps_code (k a)) -> keeps_code (bind m k).
Proof.
  intros Hm Hk w. unfold bind. specialize (Hm w).
  destruct (m w) as [a w'|e w']; simpl in Hm; [|exact Hm].
  now rewrite (Hk a w').
Qed.

Ltac code_step :=
  intros; intro w;
  cbv beta iota delta
    [Frame__getitem__ Frame__setitem__ getattr setattr load_frame store_frame
     bind ret raise load_list store_list new_list load_object SmaliObject_new
     cell_value set_cell_value self_frame];
  repeat case_match; simplify_eq; try reflexivity;
  cbn [world_of];
  match goal with
  | Hf : frames ?w !! ?r = Some ?f |- _ => now apply (code_put_frame r f)
  end.

(** With a host that keeps the code of the frames, the steps of the
    handlers do. *)
Lemma keeps_code_respected `{Host} :
  host_respects (@keeps_code) ->
  respected (@keeps_code)
  /\ (forall fr, keeps_code (getattr fr error))
  /\ (forall fr x, keeps_code (setattr fr (set_error x))).
Proof.
  intros Hhost. split; [|split; code_step].
  split; try exact Hhost; try code_step.
  intros A B m k. apply keeps_code_bind.
Qed.

(** X16.  No instruction rewrites the method it runs.  With a host whose
    operations keep the code of the frames, the action of every executor
    of the registry, on any operands and whether it returns or raises,
    leaves every frame of the store in place with the labels, the switch
    tables, the array data and the machine it had, and makes no frame; the
    body of [sparse_switch], which no executor has, does the same.  (The
    lists that the array data names may change; the table of them does
    not.) *)
Theorem handlers_keep_the_code `{Host} :
  host_respects (@keeps_code) ->
  (forall opname ex g, executor opname = inr ex -> action ex = Some g ->
     forall self args w fr,
       match frames w !! fr with
       | Some f =>
           exists f', frames (world_of (body g self args w)) !! fr = Some f'
                      /\ labels f' = labels f
                      /\ switch_data f' = switch_data f
                      /\ array_data f' = array_data f
                      /\ vm f' = vm f
       | None => frames (world_of (body g self args w)) !! fr = None
       end)
  /\ (forall self register data, keeps_code (sparse_switch self register data)).
Proof.
  intros Hhost. destruct (keeps_code_respected Hhost) as [R [Hget Hset]].
  pose proof (all_handlers_respect _ R Hget Hset) as Hall.
  rewrite Forall_forall in Hall. split.
  - intros opname ex g Hex Hact self args w fr.
    destruct (executor_made _ _ Hex) as [l [g' [Hin ->]]].
    cbn [action] in Hact. injection Hact as ->.
    pose proof (Hall _ Hin self args w) as Hcode. cbn [snd] in Hcode.
    pose proof (f_equal (fun m => m !! fr) Hcode) as Hfr. cbv beta in Hfr.
    rewrite !lookup_fmap in Hfr.
    destruct (frames w !! fr) as [f|];
      destruct (frames (world_of (body g self args w)) !! fr) as [f'|];
      try discriminate; [|reflexivity].
    exists f'. split; [reflexivity|].
    injection Hfr as Hl Hsd Had Hvm. tauto.
  - intros self register data.
    assert (Hin : (Bare, def "sparse_switch" (params2 sparse_switch))
                  ∈ module_body).
    { unfold module_body.
      repeat first [ apply list_elem_of_here | apply list_elem_of_further ]. }
    exact (Hall _ Hin self [Str register; Str data]).
Qed.

(** The operations of a table host keep the code of the frames. *)
Lemma table_host_keeps_code classes methods answer :
  host_respects (H := table_host classes methods answer) (@keeps_code).
Proof.
  split; simpl; intros; intro w; repeat case_match; simplify_eq; reflexivity.
Qed.

Lemma handlers_keep_the_code_witness :
  exists f',
    frames (world_of (body (def "goto" (params1 goto)) "goto" [Str "L1"]
                        branch_world)) !! 1%nat = Some f'
    /\ labels f' = labels branch_frame
    /\ switch_data f' = switch_data branch_frame
    /\ array_data f' = array_data branch_frame
    /\ vm f' = vm branch_frame.
Proof.
  assert (Hex : executor (H := plain_host) "goto/16"
                = inr (mkExecutor "goto" (Some (def "goto" (params1 goto)))))
    by reflexivity.
  exact (proj1 (handlers_keep_the_code (H := plain_host)
                  (table_host_keeps_code ∅ ∅ (fun _ _ => VNone)))
           "goto/16" _ _ Hex eq_refl "goto" [Str "L1"] branch_world 1%nat).
Defined.

(** ** A method of four instructions *)

Lemma const_run `{Host} self w fr f register s v :
  handler_frame w !! self = Some fr ->
  frames w !! fr = Some f ->
  SmaliValue s w = Ok v w ->
  const self register s w = Ok tt (put_reg fr f register v w).
Proof.
  intros Hs Hf Hv. unfold const. rewrite (bind_ok _ _ _ _ _ Hv).
  apply (set_reg_on_frame _ _ _ _ Hs Hf).
Qed.

Lemma return_object_run `{Host} self w fr f register :
  handler_frame w !! self = Some fr ->
  frames w !! fr = Some f ->
  return_object self register w
  = match registers f !! register with
    | Some v =>
        Ok tt (put_frame fr (set_finished true (set_return_value v f)) w)
    | None => Raise RegisterFault w
    end.
Proof.
  intros Hs Hf. unfold return_object. unfold bind at 1.
  rewrite (reg_on_frame _ _ _ _ Hs Hf).
  destruct (registers f !! register) as [v|]; [|reflexivity].
  rewrite (bind_ok _ _ _ _ _ (set_frame_attr_on_frame _ _ _ _ Hs Hf _)).
  assert (Hs1 : handler_frame (put_frame fr (set_return_value v f) w) !! self
                = Some fr) by exact Hs.
  rewrite (set_frame_attr_on_frame _ _ _ _ Hs1 (frames_put_frame _ _ _)).
  now rewrite put_frame_put_frame.
Qed.

(** X17.  The handlers compose into a method.  With literals that the
    parser reads as the integers [a] and [b] without touching the store,
    [const x, a; const y, b; add-int x, x, y; return x] on two different
    registers ends with the frame finished, [a + b] as its return value and
    in [x], and [b] in [y]; the labels and the position are as they were.
    A [return] of a register whose read faults raises the fault of the read
    and writes nothing: the frame is not finished by it. *)
Theorem const_add_return_gives_the_sum `{Host} self w fr f x y sa sb a b :
  handler_frame w !! self = Some fr ->
  frames w !! fr = Some f ->
  x <> y ->
  (forall w', SmaliValue sa w' = Ok (VInt a) w') ->
  (forall w', SmaliValue sb w' = Ok (VInt b) w') ->
  (exists g,
     sum_method self x y sa sb w = Ok tt (put_frame fr g w)
     /\ return_value g = VInt (a + b)
     /\ finished g = true
     /\ registers g
        = <[x := VInt (a + b)]> (<[y := VInt b]> (<[x := VInt a]>
                                                     (registers f)))
     /\ pos g = pos f /\ label g = label f)
  /\ (forall r e w', reg self r w = Raise e w' ->
                     return_object self r w = Raise e w').
Proof.
  intros Hs Hf Hxy Ha Hb. split.
  - set (f1 := set_registers (<[x := VInt a]> (registers f)) f).
    set (f2 := set_registers (<[y := VInt b]> (registers f1)) f1).
    set (f3 := set_registers (<[x := VInt (a + b)]> (registers f2)) f2).
    exists (set_finished true (set_return_value (VInt (a + b)) f3)).
    split; [|repeat split; reflexivity].
    unfold sum_method.
    rewrite (bind_ok _ _ _ _ _ (const_run _ _ _ _ x _ _ Hs Hf (Ha w))).
    fold f1. unfold put_reg. fold f1.
    assert (Hs1 : handler_frame (put_frame fr f1 w) !! self = Some fr)
      by exact Hs.
    rewrite (bind_ok _ _ _ _ _
               (const_run _ _ _ _ y _ _ Hs1 (frames_put_frame _ _ _)
                  (Hb _))).
    unfold put_reg. fold f2. rewrite put_frame_put_frame.
    assert (Hs2 : handler_frame (put_frame fr f2 w) !! self = Some fr)
      by exact Hs.
    assert (Hx2 : registers f2 !! x = Some (VInt a)).
    { unfold f2, f1. cbn [registers set_registers].
      rewrite lookup_insert_ne by congruence. apply lookup_insert_eq. }
    assert (Hy2 : registers f2 !! y = Some (VInt b))
      by apply lookup_insert_eq.
    assert (Hadd : add_int self x x y (put_frame fr f2 w)
                   = Ok tt (put_frame fr f3 w)).
    { unfold add_int.
      rewrite (binary_result _ _ _ _ Add x x y a b (a + b) Hs2
                 (frames_put_frame _ _ _) Hx2 Hy2 eq_refl).
      unfold put_reg. fold f3. now rewrite put_frame_put_frame. }
    rewrite (bind_ok _ _ _ _ _ Hadd).
    assert (Hs3 : handler_frame (put_frame fr f3 w) !! self = Some fr)
      by exact Hs.
    rewrite (return_object_run _ _ _ _ x Hs3 (frames_put_frame _ _ _)).
    replace (registers f3 !! x) with (Some (VInt (a + b)))
      by (symmetry; apply lookup_insert_eq).
    now rewrite put_frame_put_frame.
  - intros r e w' Hr. unfold return_object, bind. now rewrite Hr.
Qed.

Lemma const_add_return_gives_the_sum_witness :
  exists g,
    sum_method (H := plain_host) "m" "v0" "v1" "40" "2"
      (world_of_frame "m" (frame_of ∅ ∅ ∅))
    = Ok tt (put_frame 1%nat g (world_of_frame "m" (frame_of ∅ ∅ ∅)))
    /\ return_value g = VInt (40 + 2)
    /\ finished g = true
    /\ registers g
       = <[ "v0" := VInt (40 + 2) ]>
           (<[ "v1" := VInt 2 ]> (<[ "v0" := VInt 40 ]>
                                     (registers (frame_of ∅ ∅ ∅))))
    /\ pos g = pos (frame_of ∅ ∅ ∅) /\ label g = label (frame_of ∅ ∅ ∅).
Proof.
  apply (proj1 (const_add_return_gives_the_sum (H := plain_host) "m"
                  (world_of_frame "m" (frame_of ∅ ∅ ∅)) 1%nat
                  (frame_of ∅ ∅ ∅) "v0" "v1" "40" "2" 40 2
                  eq_refl eq_refl ltac:(discriminate)
                  (fun w' => eq_refl) (fun w' => eq_refl))).
Defined.

(** ** Negation *)

(** X18.  [neg-int] writes the negative of an integer, so negating twice
    is a [move]; and [rsub-int/lit8], which subtracts the register from its
    masked literal, is the negation when the literal is a multiple of 256,
    zero first of all. *)
Theorem negation_round_trip `{Host} self w fr f dest src a :
  handler_frame w !! self = Some fr ->
  frames w !! fr = Some f ->
  registers f !! src = Some (VInt a) ->
  neg_int self dest src w = Ok tt (put_reg fr f dest (VInt (- a)) w)
  /\ (neg_int self dest src ;; neg_int self dest dest) w
     = move self dest src w
  /\ (forall s n, SmaliValue s w = Ok (VInt n) w ->
                  n mod 256 = 0 ->
                  rsub_int__lit8 self dest src s w
                  = neg_int self dest src w).
Proof.
  intros Hs Hf Ha.
  assert (Hneg : forall w' f' s' b,
            handler_frame w' !! self = Some fr ->
            frames w' !! fr = Some f' ->
            registers f' !! s' = Some (VInt b) ->
            neg_int self dest s' w'
            = Ok tt (put_reg fr f' dest (VInt (- b)) w')).
  { intros w' f' s' b Hs' Hf' Hb. unfold neg_int.
    rewrite (bind_ok _ _ _ _ _ (reg_value _ _ _ _ Hs' Hf' _ _ Hb)).
    rewrite (bind_ok _ _ _ _ _
               (eq_refl : py_neg (VInt b) w' = Ok (VInt (- b)) w')).
    apply (set_reg_on_frame _ _ _ _ Hs' Hf'). }
  split; [now apply Hneg|]. split.
  - rewrite (bind_ok _ _ _ _ _ (Hneg _ _ _ _ Hs Hf Ha)).
    unfold put_reg.
    rewrite (Hneg (put_frame fr _ w) _ dest (- a) Hs (frames_put_frame _ _ _))
      by apply lookup_insert_eq.
    unfold put_reg. rewrite put_frame_put_frame.
    cbn [registers set_registers]. rewrite insert_insert_eq, Z.opp_involutive.
    unfold move. rewrite (bind_ok _ _ _ _ _ (reg_value _ _ _ _ Hs Hf _ _ Ha)).
    now rewrite (set_reg_on_frame _ _ _ _ Hs Hf).
  - intros s n Hn Hmod. rewrite (Hneg _ _ _ _ Hs Hf Ha).
    unfold rsub_int__lit8. rewrite (bind_ok _ _ _ _ _ Hn).
    assert (Hm : py_binop false BitAnd (VInt n) (VInt 0xFF) w
                 = Ok (VInt 0) w).
    { unfold py_binop. cbn [as_int]. change 0xFF with (Z.ones 8).
      rewrite Z.land_ones by lia. change (2 ^ 8) with 256.
      now rewrite Hmod. }
    rewrite (bind_ok _ _ _ _ _ Hm).
    rewrite (bind_ok _ _ _ _ _ (reg_value _ _ _ _ Hs Hf _ _ Ha)).
    rewrite (bind_ok _ _ _ _ _
               (eq_refl : py_binop false Sub (VInt 0) (VInt a) w
                          = Ok (VInt (0 - a)) w)).
    rewrite (set_reg_on_frame _ _ _ _ Hs Hf). reflexivity.
Qed.

Lemma negation_round_trip_witness :
  neg_int (H := plain_host) "neg-int" "v0" "v1"
    (world_of_frame "neg-int" (literal_frame 5))
  = Ok tt (put_reg 1%nat (literal_frame 5) "v0" (VInt (- 5))
             (world_of_frame "neg-int" (literal_frame 5)))
  /\ (neg_int (H := plain_host) "neg-int" "v0" "v1" ;;
      neg_int (H := plain_host) "neg-int" "v0" "v0")
       (world_of_frame "neg-int" (literal_frame 5))
     = move "neg-int" "v0" "v1" (world_of_frame "neg-int" (literal_frame 5)).
Proof.
  pose proof (negation_round_trip (H := plain_host) "neg-int"
                (world_of_frame "neg-int" (literal_frame 5)) 1%nat
                (literal_frame 5) "v0" "v1" 5 eq_refl eq_refl eq_refl)
    as [Hneg [Htwice _]].
  split; [exact Hneg|exact Htwice].
Defined.

(** ** Stores and loads of an array *)

(** X19.  What [aput] stores, [aget] loads.  At a position that is within
    the list and below the bound of the two tests, [aput] replaces the
    element of the list in place and [aget] at the same position then puts
    the stored value in its register; the list keeps its length. *)
Theorem aput_then_aget_reads_it_back `{Host}
    self w fr f src dest array index i r l v :
  handler_frame w !! self = Some fr ->
  frames w !! fr = Some f ->
  registers f !! index = Some (VInt i) ->
  registers f !! array = Some (VList r) ->
  registers f !! src = Some v ->
  lists w !! r = Some l ->
  0 <= i < Z.of_nat (String.length array) ->
  i < Z.of_nat (length l) ->
  (aput self src array index ;; aget self dest array index) w
  = Ok tt (put_reg fr f dest v (put_list r (<[Z.to_nat i := v]> l) w))
  /\ length (<[Z.to_nat i := v]> l) = length l.
Proof.
  intros Hs Hf Hi Ha Hv Hl Hrange Hlen.
  split; [|first [apply length_insert | apply insert_length]].
  set (l1 := <[Z.to_nat i := v]> l).
  set (w1 := put_list r l1 w).
  assert (Hput : aput self src array index w = Ok tt w1).
  { rewrite (aput_run self w fr f array index i r l Hs Hf Hi Ha Hl src v Hv).
    destruct (i <? 0) eqn:E0; [lia|].
    destruct (i >? Z.of_nat (String.length array)) eqn:E1; [lia|].
    destruct (Z.of_nat (String.length array) =? i) eqn:E2; [lia|].
    destruct (i <? Z.of_nat (length l)) eqn:E3; [reflexivity|lia]. }
  rewrite (bind_ok _ _ _ _ _ Hput).
  assert (Hs1 : handler_frame w1 !! self = Some fr) by exact Hs.
  assert (Hf1 : frames w1 !! fr = Some f) by exact Hf.
  assert (Hl1 : lists w1 !! r = Some l1) by apply lookup_insert_eq.
  rewrite (aget_run self w1 fr f array index i r l1 Hs1 Hf1 Hi Ha Hl1 dest).
  destruct (i <? 0) eqn:E0; [lia|].
  destruct (i >=? Z.of_nat (String.length array)) eqn:E1; [lia|].
  cbn [orb].
  assert (Hat : l1 !! Z.to_nat i = Some v).
  { unfold l1.
    first [ apply list_lookup_insert_eq | apply list_lookup_insert ]; lia. }
  now rewrite Hat.
Qed.

Lemma aput_then_aget_reads_it_back_witness :
  (aput (H := plain_host) "aput" "v0" "v1" "v2" ;;
   aget (H := plain_host) "aput" "v3" "v1" "v2") (array_world "aput" 1 five)
  = Ok tt (put_reg 1%nat (array_frame 1) "v3" (VInt 7)
             (put_list 0%nat (<[Z.to_nat 1 := VInt 7]> five)
                (array_world "aput" 1 five))).
Proof.
  apply (aput_then_aget_reads_it_back (H := plain_host) "aput"
           (array_world "aput" 1 five) 1%nat (array_frame 1)
           "v0" "v3" "v1" "v2" 1 0%nat five (VInt 7)
           eq_refl eq_refl eq_refl eq_refl eq_refl eq_refl);
    simpl; lia.
Defined.

(** ** What the store keeps *)

Lemma grows_refl w : grows w w.
Proof.
  repeat split; try reflexivity. intros fr f Hf. now exists f.
Qed.

Lemma grows_trans w1 w2 w3 : grows w1 w2 -> grows w2 w3 -> grows w1 w3.
Proof.
  intros [Hl [Ho [Hc Hf]]] [Hl' [Ho' [Hc' Hf']]].
  split; [etrans; eassumption|]. split; [etrans; eassumption|].
  split; [etrans; eassumption|].
  intros fr f Hfr. destruct (Hf _ _ Hfr) as [f2 [Hf2 Hd]].
  destruct (Hf' _ _ Hf2) as [f3 [Hf3 Hd']].
  exists f3. split; [exact Hf3|]. etrans; eassumption.
Qed.

Lemma loses_nothing_bind {A B} (m : M A) (k : A -> M B) :
  loses_nothing m -> (forall a, loses_nothing (k a)) ->
  loses_nothing (bind m k).
Proof.
  intros Hm Hk w. unfold bind. specialize (Hm w).
  destruct (m w) as [a w'|e w']; simpl in Hm; [|exact Hm].
  exact (grows_trans _ _ _ Hm (Hk a w')).
Qed.

(** Replacing a frame by one with at least its registers, and adding to
    the lists, the instances or the cells, loses nothing. *)
Lemma grows_put_frame r f g w :
  frames w !! r = Some f ->
  dom (registers f) ⊆ dom (registers g) ->
  grows w (put_frame r g w).
Proof.
  intros Hf Hd. repeat split; try reflexivity.
  intros fr f0 Hfr. unfold put_frame. simpl.
  destruct (decide (fr = r)) as [->|Hne].
  - exists g. split; [apply lookup_insert_eq|].
    rewrite Hf in Hfr. injection Hfr as <-. exact Hd.
  - exists f0. split; [|reflexivity].
    rewrite lookup_insert_ne by congruence. exact Hfr.
Qed.

Lemma grows_insert_list r l w : grows w (put_list r l w).
Proof.
  repeat split; try reflexivity.
  - unfold put_list. simpl. rewrite dom_insert. set_solver.
  - intros fr f Hf. now exists f.
Qed.

Lemma grows_insert_object r o w :
  grows w (set_objects (<[r := o]> (objects w)) w).
Proof.
  repeat split; try reflexivity.
  - simpl. rewrite dom_insert. set_solver.
  - intros fr f Hf. now exists f.
Qed.

Lemma grows_insert_cell r v w :
  grows w (set_cells (<[r := v]> (cells w)) w).
Proof.
  repeat split; try reflexivity.
  - simpl. rewrite dom_insert. set_solver.
  - intros fr f Hf. now exists f.
Qed.

Ltac grows_step :=
  intros; intro w;
  cbv beta iota delta
    [Frame__getitem__ Frame__setitem__ getattr setattr load_frame store_frame
     bind ret raise load_list store_list new_list load_object SmaliObject_new
     cell_value set_cell_value self_frame];
  repeat case_match; simplify_eq; cbn [world_of];
  first [ apply grows_refl
        | apply grows_insert_list
        | apply grows_insert_object
        | apply grows_insert_cell
        | match goal with
          | Hf : frames ?w !! ?r = Some ?f |- _ =>
              apply (grows_put_frame r f); [exact Hf|];
              cbn [registers set_registers];
              first [ reflexivity | rewrite dom_insert; set_solver ]
          end ].

Lemma loses_nothing_respected `{Host} :
  host_respects (@loses_nothing) ->
  respected (@loses_nothing)
  /\ (forall fr, loses_nothing (getattr fr error))
  /\ (forall fr x, loses_nothing (setattr fr (set_error x))).
Proof.
  intros Hhost. split; [|split; grows_step].
  split; try exact Hhost; try grows_step.
  intros A B m k. apply loses_nothing_bind.
Qed.

(** X20.  No instruction unsets a register or drops an object.  With a
    host whose operations lose nothing, after the action of any executor of
    the registry, on any operands and whether it returned or raised, every
    register that was set in a frame is still set in it, and every list,
    instance and static cell of the store is still there. *)
Theorem handlers_lose_nothing `{Host} :
  host_respects (@loses_nothing) ->
  forall opname ex g, executor opname = inr ex -> action ex = Some g ->
    forall self args w,
      grows w (world_of (body g self args w))
      /\ forall fr f key,
           frames w !! fr = Some f ->
           is_Some (registers f !! key) ->
           exists f', frames (world_of (body g self args w)) !! fr = Some f'
                      /\ is_Some (registers f' !! key).
Proof.
  intros Hhost opname ex g Hex Hact self args w.
  destruct (loses_nothing_respected Hhost) as [R [Hget Hset]].
  pose proof (all_handlers_respect _ R Hget Hset) as Hall.
  rewrite Forall_forall in Hall.
  destruct (executor_made _ _ Hex) as [l [g' [Hin ->]]].
  cbn [action] in Hact. injection Hact as ->.
  pose proof (Hall _ Hin self args w) as Hg. cbn [snd] in Hg.
  split; [exact Hg|].
  intros fr f key Hf Hkey. destruct Hg as [_ [_ [_ Hframes]]].
  destruct (Hframes _ _ Hf) as [f' [Hf' Hd]].
  exists f'. split; [exact Hf'|].
  apply elem_of_dom, Hd, elem_of_dom, Hkey.
Qed.

(** The operations of a table host lose nothing. *)
Lemma table_host_loses_nothing classes methods answer :
  host_respects (H := table_host classes methods answer) (@loses_nothing).
Proof.
  split; simpl; intros; intro w; repeat case_match; simplify_eq;
    cbn [world_of]; first [apply grows_refl | apply grows_insert_object].
Qed.

Lemma handlers_lose_nothing_witness :
  grows branch_world
    (world_of (body (def "goto" (params1 goto)) "goto" [Str "L9"]
                 branch_world))
  /\ forall fr f key,
       frames branch_world !! fr = Some f ->
       is_Some (registers f !! key) ->
       exists f',
         frames (world_of (body (def "goto" (params1 goto)) "goto" [Str "L9"]
                             branch_world)) !! fr = Some f'
         /\ is_Some (registers f' !! key).
Proof.
  assert (Hex : executor (H := plain_host) "goto/16"
                = inr (mkExecutor "goto" (Some (def "goto" (params1 goto)))))
    by reflexivity.
  exact (handlers_lose_nothing (H := plain_host)
           (table_host_loses_nothing ∅ ∅ (fun _ _ => VNone))
           "goto/16" _ _ Hex eq_refl "goto" [Str "L9"] branch_world).
Defined.
